(** * mce-io: the generic I/O monitor engine of the Mode Control Entity

    A shallow embedding of [src/utils/mce-io.c] (the I/O monitor part) and of
    the removal callback of [src/modules/camera.c], together with a small
    model of the GLib and libc services the engine calls (I/O channels, the
    main-loop watch table, the descriptor table, [errno], [mce_log]).

    The C code is imperative and works on pointers: the embedding threads an
    explicit [World] through every function and reports, for each call,
    whether it returned, called [exit()], or dereferenced a pointer that is
    not live. *)

From Stdlib Require Import ZArith Bool List Lia.
From stdpp Require Import base gmap list strings.

Local Open Scope Z_scope.

(** ** Constants of the headers the engine includes *)

Module Consts.
(** <glib.h>, GIOCondition *)
Definition G_IO_IN   : Z := 1.
Definition G_IO_PRI  : Z := 2.
Definition G_IO_OUT  : Z := 4.
Definition G_IO_ERR  : Z := 8.
Definition G_IO_HUP  : Z := 16.
Definition G_IO_NVAL : Z := 32.
(** <glib.h>, GIOFlags *)
Definition G_IO_FLAG_APPEND      : Z := 1.
Definition G_IO_FLAG_NONBLOCK    : Z := 2.
Definition G_IO_FLAG_IS_READABLE : Z := 4.
Definition G_IO_FLAG_IS_WRITABLE : Z := 8.
Definition G_IO_FLAG_IS_SEEKABLE : Z := 16.
Definition G_IO_FLAG_SET_MASK    : Z := 3.
(** <glib.h>, GIOChannelError *)
Definition G_IO_CHANNEL_ERROR_FAILED : Z := 8.
(** <errno.h>, <stdlib.h> *)
Definition EBADF  : Z := 9.
Definition EAGAIN : Z := 11.
Definition ENODEV : Z := 19.
Definition EXIT_FAILURE : Z := 1.
End Consts.
Import Consts.

(** ** Data model *)

(** Modelled from the spec: [error_policy_t] is declared in mce-io.h, which is
    not part of the sources at hand; the three policies are the ones the code
    names and the spec lists (Ignore, Warn, Exit). *)
Inductive error_policy_t : Set :=
| MCE_IO_ERROR_POLICY_EXIT
| MCE_IO_ERROR_POLICY_WARN
| MCE_IO_ERROR_POLICY_IGNORE.

(** Modelled from the spec: [loglevel_t] is declared in mce-log.h, which is
    not part of the sources at hand; these are the levels mce-io.c names. *)
Inductive loglevel_t : Set :=
| LL_NONE | LL_CRIT | LL_ERR | LL_WARN | LL_DEBUG.

Inductive iomon_type : Set :=
| IOMON_UNSET | IOMON_STRING | IOMON_CHUNK.

Inductive GIOStatus : Set :=
| G_IO_STATUS_ERROR | G_IO_STATUS_NORMAL | G_IO_STATUS_EOF | G_IO_STATUS_AGAIN.

Inductive GSeekType : Set := G_SEEK_CUR | G_SEEK_SET | G_SEEK_END.

Record GError : Set := mkGError { code : Z; message : string }.

#[global] Instance error_policy_eq_dec : EqDecision error_policy_t.
Proof. solve_decision. Defined.
#[global] Instance loglevel_eq_dec : EqDecision loglevel_t.
Proof. solve_decision. Defined.
#[global] Instance iomon_type_eq_dec : EqDecision iomon_type.
Proof. solve_decision. Defined.
#[global] Instance GIOStatus_eq_dec : EqDecision GIOStatus.
Proof. solve_decision. Defined.
#[global] Instance GError_eq_dec : EqDecision GError.
Proof. solve_decision. Defined.

(** Pointers.  An [iomon_struct *] is an address in the heap of live
    monitors, a [GIOChannel *] an address in the table of channels; [None]
    is NULL where the code tests for it. *)
Abbreviation iomon_ptr := nat (only parsing).
Abbreviation chan_ptr := nat (only parsing).

(** The data callback ([iomon_cb]) is code of the policy modules; the engine
    only calls it.  It is identified by its address; a call is recorded in
    the trace and is taken to come back without touching the engine. *)
Abbreviation iomon_cb := nat (only parsing).

(** The removal callback ([iomon_error_cb]).  Callbacks may re-enter the
    engine only to unregister the monitor being dispatched; the one callback
    of the sources that does so is [handle_device_error_cb] of camera.c.
    Every other removal callback is identified by its address and leaves the
    engine alone. *)
Inductive iomon_error_cb : Set :=
| Fn_handle_device_error_cb
| Fn_remdev_extern (addr : nat).

#[global] Instance iomon_error_cb_eq_dec : EqDecision iomon_error_cb.
Proof. solve_decision. Defined.

(** The three [GIOFunc]s the engine hands to [g_io_add_watch]. *)
Inductive GIOFunc : Set := Fn_io_string_cb | Fn_io_chunk_cb | Fn_io_error_cb.

Record iomon_struct : Set := mkIomon {
  file : string;                      (**< Monitored file *)
  iochan : chan_ptr;                  (**< I/O channel *)
  callback : iomon_cb;                (**< Callback *)
  remdev_callback : option iomon_error_cb; (**< Error callback *)
  remdev_data : Z;
  chunk_size : nat;                   (**< Read-chunk size *)
  data_source_id : nat;               (**< GSource ID for data *)
  error_source_id : nat;              (**< GSource ID for errors *)
  fd : Z;                             (**< File Descriptor *)
  type : iomon_type;                  (**< Monitor type *)
  error_policy : error_policy_t;      (**< Error policy *)
  latest_io_condition : Z;            (**< Latest I/O condition *)
  rewind : bool;                      (**< Rewind policy *)
  suspended : bool                    (**< Is the I/O monitor suspended? *)
}.

(** *** The GLib I/O channel

    A channel is a byte stream with a cursor.  [ch_data] holds every byte
    written to the underlying file or pipe so far and [ch_pos] counts the
    bytes already consumed.  The environment can make the next calls fail:
    [ch_read_script] lists the outcomes of the coming read calls that do not
    deliver data (a transient EAGAIN, a hard error, ...), each with the
    [errno] it leaves behind; [ch_seek_script] does the same for seeks.  Once
    a script is used up the calls succeed on the stream. *)
Record io_fault : Set := mkFault {
  f_status : GIOStatus;
  f_error : option GError;
  f_errno : Z
}.

Record GIOChannel : Set := mkChan {
  ch_flags : Z;
  ch_binary : bool;                   (* encoding NULL *)
  ch_data : list Byte.byte;
  ch_pos : nat;
  ch_read_script : list io_fault;
  ch_seek_script : list (option GError);
  ch_shutdown_fault : option io_fault
}.

(** A watch installed with [g_io_add_watch]. *)
Record GSource : Set := mkSource {
  src_chan : chan_ptr;
  src_cond : Z;
  src_func : GIOFunc;
  src_data : iomon_ptr
}.

(** Arguments of a log call after the format string. *)
Inductive logarg : Set := ArgS (s : string) | ArgI (i : Z).

(** What the engine does to the outside, in the order it does it. *)
Inductive event : Set :=
| EvLog (lvl : loglevel_t) (fmt : string) (args : list logarg)
| EvCallback (cb : iomon_cb) (iomon : iomon_ptr)
             (payload : list Byte.byte) (bytes_read : nat)
| EvRemdevCallback (cb : iomon_error_cb) (data : Z) (device : string)
                   (iomon : iomon_ptr) (error : GError)
| EvShutdown (ch : chan_ptr)
| EvUnref (ch : chan_ptr)
| EvClose (fd : Z) (ret : Z)
| EvMainLoopQuit.

#[global] Instance logarg_eq_dec : EqDecision logarg.
Proof. solve_decision. Defined.
#[global] Instance byte_eq_dec : EqDecision Byte.byte := Byte.byte_eq_dec.
#[global] Instance event_eq_dec : EqDecision event.
Proof. solve_decision. Defined.

(** The state of the process and of its environment. *)
Record World : Type := mkWorld {
  file_monitors : list iomon_ptr;     (**< List of all file monitors *)
  heap : gmap nat iomon_struct;       (* live iomon_struct blocks *)
  slice_next : option iomon_struct;   (* content of the block g_slice_new
                                         hands out next; None: it fails *)
  channels : gmap nat GIOChannel;     (* live channels *)
  sources : gmap nat GSource;         (* main-loop watches *)
  fds : gmap Z GIOChannel;            (* open descriptors and their streams *)
  fs : gmap string GIOChannel;        (* files that can be opened for reading *)
  errno : Z;
  trace : list event
}.

(** Result of running a piece of C code. *)
Inductive outcome (A : Type) : Type :=
| Returned (r : A) (w : World)
| Exited (status : Z) (w : World)     (* exit() was called *)
| Undefined                           (* a dead or NULL pointer was used *)
| OutOfFuel.                          (* a loop of the model ran out of fuel *)
Arguments Returned {A} r w.
Arguments Exited {A} status w.
Arguments Undefined {A}.
Arguments OutOfFuel {A}.

Definition M (A : Type) : Type := World -> outcome A.

Definition ret {A} (a : A) : M A := fun w => Returned a w.

Definition bind {A B} (c : M A) (k : A -> M B) : M B :=
  fun w => match c w with
           | Returned a w' => k a w'
           | Exited st w' => Exited st w'
           | Undefined => Undefined
           | OutOfFuel => OutOfFuel
           end.

Declare Scope io_scope.
Delimit Scope io_scope with io.
Notation "x <- c ;; k" := (bind c (fun x => k))
  (at level 100, c at next level, right associativity) : io_scope.
Notation "c ;;; k" := (bind c (fun _ => k))
  (at level 100, right associativity) : io_scope.
Local Open Scope io_scope.

Definition get : M World := fun w => Returned w w.
Definition modify (f : World -> World) : M unit := fun w => Returned tt (f w).
Definition undefined {A} : M A := fun _ => Undefined.
Definition exit {A} (status : Z) : M A := fun w => Exited status w.
Definition out_of_fuel {A} : M A := fun _ => OutOfFuel.

(** *** Field updates *)

Definition set_file_monitors (l : list iomon_ptr) (w : World) : World :=
  mkWorld l (heap w) (slice_next w) (channels w) (sources w) (fds w) (fs w)
          (errno w) (trace w).
Definition set_heap (h : gmap nat iomon_struct) (w : World) : World :=
  mkWorld (file_monitors w) h (slice_next w) (channels w)
          (sources w) (fds w) (fs w) (errno w)
          (trace w).
Definition set_channels (c : gmap nat GIOChannel) (w : World) : World :=
  mkWorld (file_monitors w) (heap w) (slice_next w) c
          (sources w) (fds w) (fs w) (errno w)
          (trace w).
Definition set_sources (s : gmap nat GSource) (w : World) : World :=
  mkWorld (file_monitors w) (heap w) (slice_next w) (channels w)
          s (fds w) (fs w) (errno w) (trace w).
Definition set_fds (f : gmap Z GIOChannel) (w : World) : World :=
  mkWorld (file_monitors w) (heap w) (slice_next w) (channels w)
          (sources w) f (fs w) (errno w)
          (trace w).
Definition set_errno (e : Z) (w : World) : World :=
  mkWorld (file_monitors w) (heap w) (slice_next w) (channels w)
          (sources w) (fds w) (fs w) e
          (trace w).
Definition emit (e : event) (w : World) : World :=
  mkWorld (file_monitors w) (heap w) (slice_next w) (channels w)
          (sources w) (fds w) (fs w) (errno w)
          (trace w ++ [e]).

Definition set_latest_io_condition (c : Z) (m : iomon_struct) : iomon_struct :=
  mkIomon (file m) (iochan m) (callback m) (remdev_callback m) (remdev_data m)
          (chunk_size m) (data_source_id m) (error_source_id m) (fd m)
          (type m) (error_policy m) c (rewind m) (suspended m).
Definition set_suspended (b : bool) (m : iomon_struct) : iomon_struct :=
  mkIomon (file m) (iochan m) (callback m) (remdev_callback m) (remdev_data m)
          (chunk_size m) (data_source_id m) (error_source_id m) (fd m)
          (type m) (error_policy m) (latest_io_condition m) (rewind m) b.
Definition set_rewind (b : bool) (m : iomon_struct) : iomon_struct :=
  mkIomon (file m) (iochan m) (callback m) (remdev_callback m) (remdev_data m)
          (chunk_size m) (data_source_id m) (error_source_id m) (fd m)
          (type m) (error_policy m) (latest_io_condition m) b (suspended m).
Definition set_type (t : iomon_type) (m : iomon_struct) : iomon_struct :=
  mkIomon (file m) (iochan m) (callback m) (remdev_callback m) (remdev_data m)
          (chunk_size m) (data_source_id m) (error_source_id m) (fd m)
          t (error_policy m) (latest_io_condition m) (rewind m) (suspended m).
Definition set_chunk_size (n : nat) (m : iomon_struct) : iomon_struct :=
  mkIomon (file m) (iochan m) (callback m) (remdev_callback m) (remdev_data m)
          n (data_source_id m) (error_source_id m) (fd m)
          (type m) (error_policy m) (latest_io_condition m) (rewind m)
          (suspended m).
Definition set_source_ids (d e : nat) (m : iomon_struct) : iomon_struct :=
  mkIomon (file m) (iochan m) (callback m) (remdev_callback m) (remdev_data m)
          (chunk_size m) d e (fd m)
          (type m) (error_policy m) (latest_io_condition m) (rewind m)
          (suspended m).

(** ** The services the engine calls *)

(** [mce_log(level, fmt, ...)]: the call is recorded. *)
Definition mce_log (lvl : loglevel_t) (fmt : string) (args : list logarg)
  : M unit := modify (emit (EvLog lvl fmt args)).

Definition g_main_loop_quit : M unit := modify (emit EvMainLoopQuit).

(** Dereference of an [iomon_struct *] and assignment through it. *)
Definition load (p : iomon_ptr) : M iomon_struct :=
  fun w => match heap w !! p with
           | Some m => Returned m w
           | None => Undefined
           end.

Definition store (p : iomon_ptr) (f : iomon_struct -> iomon_struct) : M unit :=
  fun w => match heap w !! p with
           | Some m => Returned tt (set_heap (<[p := f m]> (heap w)) w)
           | None => Undefined
           end.

(** *** Channel operations, on one channel and the [errno] cell *)

Definition set_ch_pos (n : nat) (ch : GIOChannel) : GIOChannel :=
  mkChan (ch_flags ch) (ch_binary ch) (ch_data ch) n (ch_read_script ch)
         (ch_seek_script ch) (ch_shutdown_fault ch).
Definition set_ch_read_script (s : list io_fault) (ch : GIOChannel)
  : GIOChannel :=
  mkChan (ch_flags ch) (ch_binary ch) (ch_data ch) (ch_pos ch) s
         (ch_seek_script ch) (ch_shutdown_fault ch).
Definition set_ch_seek_script (s : list (option GError)) (ch : GIOChannel)
  : GIOChannel :=
  mkChan (ch_flags ch) (ch_binary ch) (ch_data ch) (ch_pos ch)
         (ch_read_script ch) s (ch_shutdown_fault ch).
Definition set_ch_flags (f : Z) (ch : GIOChannel) : GIOChannel :=
  mkChan f (ch_binary ch) (ch_data ch) (ch_pos ch) (ch_read_script ch)
         (ch_seek_script ch) (ch_shutdown_fault ch).
Definition set_ch_binary (b : bool) (ch : GIOChannel) : GIOChannel :=
  mkChan (ch_flags ch) b (ch_data ch) (ch_pos ch) (ch_read_script ch)
         (ch_seek_script ch) (ch_shutdown_fault ch).
(** Bytes written to the file or pipe by the outside world. *)
Definition ch_append (bs : list Byte.byte) (ch : GIOChannel) : GIOChannel :=
  mkChan (ch_flags ch) (ch_binary ch) (ch_data ch ++ bs) (ch_pos ch)
         (ch_read_script ch) (ch_seek_script ch) (ch_shutdown_fault ch).

(** The bytes present but not yet consumed. *)
Definition unread (ch : GIOChannel) : list Byte.byte :=
  drop (ch_pos ch) (ch_data ch).

Definition is_seekable (flags : Z) : bool :=
  Z.land flags G_IO_FLAG_IS_SEEKABLE =? G_IO_FLAG_IS_SEEKABLE.

(** Out parameters of [g_io_channel_read_chars] and
    [g_io_channel_read_line]. *)
Record read_result : Set := mkRead {
  r_status : GIOStatus;
  r_str : option (list Byte.byte);    (* [None]: the string pointer is NULL *)
  r_bytes_read : nat;
  r_error : option GError
}.

(** Status of a read that finds no data: end of file on a seekable
    channel, which the model takes to be a regular file, and EAGAIN on a
    pipe or device.  The model has no process that waits: on a pipe or
    device that is not in non-blocking mode the real call would wait for
    data here.  The statements that need a read to come back on a stream
    without data are made for channels that are seekable or non-blocking
    ([never_blocks]). *)
Definition status_no_data (ch : GIOChannel) : GIOStatus :=
  if is_seekable (ch_flags ch) then G_IO_STATUS_EOF else G_IO_STATUS_AGAIN.

(** [g_io_channel_read_chars].  [error] is the content of the caller's
    [GError *] slot on entry: GLib refuses a call whose slot is occupied and
    leaves everything as it is.  The bytes are handed out as they are: this
    is the read of a binary channel (encoding NULL), and of a channel in
    the default UTF-8 encoding as long as the stream is ASCII; on other
    input the default encoding would return whole characters only and fail
    on an invalid sequence ([plain]). *)
Definition chan_read_chars (count : nat) (error : option GError)
    (st : GIOChannel * Z) : read_result * (GIOChannel * Z) :=
  let '(ch, eno) := st in
  match error with
  | Some e => (mkRead G_IO_STATUS_ERROR None 0 (Some e), st)
  | None =>
      match ch_read_script ch with
      | f :: rest =>
          (mkRead (f_status f) None 0 (f_error f),
           (set_ch_read_script rest ch, f_errno f))
      | [] =>
          let bytes := take count (unread ch) in
          match bytes with
          | [] => (mkRead (match count with
                           | O => G_IO_STATUS_NORMAL
                           | _ => status_no_data ch
                           end) None 0 None, (ch, eno))
          | _ => (mkRead G_IO_STATUS_NORMAL (Some bytes) (length bytes) None,
                  (set_ch_pos (ch_pos ch + length bytes)%nat ch, eno))
          end
      end
  end.

(** One record, up to and including the newline, or what is left of the
    stream.  [g_io_channel_read_line] with the terminator autodetected (the
    default) also ends a line at a carriage return, a NUL byte and U+2029,
    reports "try again" for an unterminated tail on a pipe, and fails on
    invalid UTF-8: the model is the library's answer for a record of text
    ([text_record]), and for an unterminated tail at the end of a file. *)
Fixpoint take_line (l : list Byte.byte) : list Byte.byte :=
  match l with
  | [] => []
  | b :: l' => if decide (b = Byte.x0a) then [b] else b :: take_line l'
  end.

Definition chan_read_line (st : GIOChannel * Z)
  : read_result * (GIOChannel * Z) :=
  let '(ch, eno) := st in
  match ch_read_script ch with
  | f :: rest =>
      (mkRead (f_status f) None 0 (f_error f),
       (set_ch_read_script rest ch, f_errno f))
  | [] =>
      let line := take_line (unread ch) in
      match line with
      | [] => (mkRead (status_no_data ch) None 0 None, (ch, eno))
      | _ => (mkRead G_IO_STATUS_NORMAL (Some line) (length line) None,
              (set_ch_pos (ch_pos ch + length line)%nat ch, eno))
      end
  end.

(** [strlen]: the bytes before the first NUL. *)
Fixpoint strlen (s : list Byte.byte) : nat :=
  match s with
  | [] => O
  | b :: s' => if decide (b = Byte.x00) then O else S (strlen s')
  end.

(** [g_io_channel_seek_position].  A channel that is not seekable refuses
    the call without raising an error. *)
Definition seek_target (type : GSeekType) (offset : Z) (ch : GIOChannel)
  : nat :=
  match type with
  | G_SEEK_SET => Z.to_nat offset
  | G_SEEK_CUR => Z.to_nat (Z.of_nat (ch_pos ch) + offset)
  | G_SEEK_END => Z.to_nat (Z.of_nat (length (ch_data ch)) + offset)
  end.

Definition chan_seek_position (offset : Z) (type : GSeekType)
    (ch : GIOChannel) : option GError * GIOChannel :=
  if is_seekable (ch_flags ch) then
    match ch_seek_script ch with
    | Some e :: rest => (Some e, set_ch_seek_script rest ch)
    | None :: rest =>
        (None, set_ch_pos (seek_target type offset ch)
                          (set_ch_seek_script rest ch))
    | [] => (None, set_ch_pos (seek_target type offset ch) ch)
    end
  else (None, ch).

(** *** The same operations on a channel of the world *)

Definition with_chan {A} (c : chan_ptr)
    (f : GIOChannel * Z -> A * (GIOChannel * Z)) : M A :=
  fun w => match channels w !! c with
           | Some ch =>
               let '(a, (ch', eno)) := f (ch, errno w) in
               Returned a (set_errno eno
                             (set_channels (<[c := ch']> (channels w)) w))
           | None => Undefined
           end.

Definition g_io_channel_read_chars (c : chan_ptr) (count : nat)
    (error : option GError) : M read_result :=
  with_chan c (chan_read_chars count error).

Definition g_io_channel_read_line (c : chan_ptr) : M read_result :=
  with_chan c chan_read_line.

Definition g_io_channel_seek_position (c : chan_ptr) (offset : Z)
    (type : GSeekType) : M (option GError) :=
  with_chan c (fun st => let '(e, ch') := chan_seek_position offset type st.1
                         in (e, (ch', st.2))).

Definition g_io_channel_get_flags (c : chan_ptr) : M Z :=
  with_chan c (fun st => (ch_flags st.1, st)).

Definition g_io_channel_set_flags (c : chan_ptr) (flags : Z) : M unit :=
  with_chan c (fun st =>
    (tt, (set_ch_flags
            (Z.lor (Z.land (ch_flags st.1) (Z.lnot G_IO_FLAG_SET_MASK))
                   (Z.land flags G_IO_FLAG_SET_MASK)) st.1, st.2))).

Definition g_io_channel_set_encoding_NULL (c : chan_ptr) : M unit :=
  with_chan c (fun st => (tt, (set_ch_binary true st.1, st.2))).

(** [g_io_add_watch] and [g_source_remove]. *)
Definition g_io_add_watch (c : chan_ptr) (cond : Z) (func : GIOFunc)
    (data : iomon_ptr) : M nat :=
  fun w => let id := fresh (dom (sources w)) in
           Returned id
             (set_sources (<[id := mkSource c cond func data]> (sources w)) w).

Definition g_source_remove (id : nat) : M unit :=
  modify (fun w => set_sources (delete id (sources w)) w).

(** [g_io_channel_shutdown]: flushes and closes the channel's own file. *)
Definition g_io_channel_shutdown (c : chan_ptr)
  : M (GIOStatus * option GError) :=
  fun w => match channels w !! c with
           | Some ch =>
               match ch_shutdown_fault ch with
               | Some f => Returned (f_status f, f_error f)
                             (set_errno (f_errno f) (emit (EvShutdown c) w))
               | None => Returned (G_IO_STATUS_NORMAL, None)
                           (emit (EvShutdown c) w)
               end
           | None => Undefined
           end.

(** [g_io_channel_unref]: the monitor holds the last reference. *)
Definition g_io_channel_unref (c : chan_ptr) : M unit :=
  fun w => match channels w !! c with
           | Some _ => Returned tt
                         (emit (EvUnref c)
                               (set_channels (delete c (channels w)) w))
           | None => Undefined
           end.

(** [close(2)] on the descriptor table of the process. *)
Definition close (d : Z) : M Z :=
  fun w => match fds w !! d with
           | Some _ => Returned 0 (emit (EvClose d 0)
                                        (set_fds (delete d (fds w)) w))
           | None => Returned (-1) (emit (EvClose d (-1)) (set_errno EBADF w))
           end.

(** A new channel object. *)
Definition new_channel (ch : GIOChannel) : M chan_ptr :=
  fun w => let c := fresh (dom (channels w)) in
           Returned c (set_channels (<[c := ch]> (channels w)) w).

(** [g_io_channel_unix_new]: GLib wraps whatever integer it is given and
    never returns NULL.  Around a descriptor that is not open it builds a
    channel that is not seekable (fstat fails), holds no data, and whose
    read fails with EBADF ([g_io_unix_read] reports it with the code
    G_IO_CHANNEL_ERROR_FAILED); the channel records that failure for the
    next read. *)
Definition bad_descriptor : io_fault :=
  mkFault G_IO_STATUS_ERROR
          (Some (mkGError G_IO_CHANNEL_ERROR_FAILED "Bad file descriptor"))
          EBADF.

Definition closed_descriptor_channel : GIOChannel :=
  mkChan 0 false [] 0%nat [bad_descriptor] [] None.

Definition g_io_channel_unix_new (d : Z) : M (option chan_ptr) :=
  w <- get ;;
  c <- new_channel (default closed_descriptor_channel (fds w !! d)) ;;
  ret (Some c).

(** [g_io_channel_new_file(file, "r", &error)]. *)
Definition G_FILE_ERROR_NOENT : Z := 4.
Definition g_io_channel_new_file (f : string)
  : M (option chan_ptr * option GError) :=
  w <- get ;;
  match fs w !! f with
  | Some ch => c <- new_channel ch ;; ret (Some c, None)
  | None => ret (None, Some (mkGError G_FILE_ERROR_NOENT
                               "No such file or directory"))
  end.

(** [g_slice_new(iomon_struct)] and [g_slice_free]. *)
Definition g_slice_new : M (option iomon_ptr) :=
  fun w => match slice_next w with
           | Some garbage =>
               let p := fresh (dom (heap w)) in
               Returned (Some p) (set_heap (<[p := garbage]> (heap w)) w)
           | None => Returned None w
           end.

Definition g_slice_free (p : iomon_ptr) : M unit :=
  fun w => match heap w !! p with
           | Some _ => Returned tt (set_heap (delete p (heap w)) w)
           | None => Undefined
           end.

Fixpoint g_slist_remove (l : list iomon_ptr) (p : iomon_ptr)
  : list iomon_ptr :=
  match l with
  | [] => []
  | x :: l' => if decide (x = p) then l' else x :: g_slist_remove l' p
  end.

(** ** The engine: src/utils/mce-io.c *)

(** The drain loop of [mcs_io_monitor_seek_to_end]:
    [do { read 1024 bytes } while (bytes_read > 0 && error == NULL)]. *)
Fixpoint seek_to_end_drain (fuel : nat) (c : chan_ptr) : M unit :=
  match fuel with
  | O => out_of_fuel
  | S n =>
      r <- g_io_channel_read_chars c 1024 None ;;
      if (0 <? r_bytes_read r)%nat && bool_decide (r_error r = None)
      then seek_to_end_drain n c
      else ret tt
  end.

(** Every turn of the drain loop but the last consumes at least one byte. *)
Definition drain_fuel (c : chan_ptr) : M nat :=
  fun w => match channels w !! c with
           | Some ch => Returned (S (length (unread ch))) w
           | None => Undefined
           end.

Definition mcs_io_monitor_seek_to_end (io_monitor : iomon_ptr) : M bool :=
  iomon <- load io_monitor ;;
  flags <- g_io_channel_get_flags (iochan iomon) ;;
  seek_success <-
    (if is_seekable flags then
       error <- g_io_channel_seek_position (iochan iomon) 0 G_SEEK_END ;;
       ret (bool_decide (error = None))
     else ret false) ;;
  (if negb seek_success then
     fuel <- drain_fuel (iochan iomon) ;;
     seek_to_end_drain fuel (iochan iomon)
   else ret tt) ;;;
  ret true.

Definition mce_suspend_io_monitor (io_monitor : option iomon_ptr) : M unit :=
  match io_monitor with
  | None =>
      mce_log LL_CRIT "mce_suspend_io_monitor() called with iomon == NULL!" []
  | Some p =>
      iomon <- load p ;;
      if suspended iomon then ret tt
      else
        (* Remove I/O watches *)
        g_source_remove (data_source_id iomon) ;;;
        g_source_remove (error_source_id iomon) ;;;
        store p (set_suspended true)
  end.

Definition mce_unregister_io_monitor (io_monitor : option iomon_ptr)
  : M unit :=
  match io_monitor with
  | None =>
      mce_log LL_DEBUG "mce_unregister_io_monitor called with NULL argument" []
  | Some p =>
      w0 <- get ;;
      let oldlen := length (file_monitors w0) in
      modify (fun w => match file_monitors w with
                       | [] => w
                       | l => set_file_monitors (g_slist_remove l p) w
                       end) ;;;
      w1 <- get ;;
      (* Did we remove any entry? *)
      (if (oldlen =? length (file_monitors w1))%nat
       then mce_log LL_WARN "Trying to unregister non-existing file monitor" []
       else ret tt) ;;;
      (* Remove I/O watches *)
      mce_suspend_io_monitor (Some p) ;;;
      iomon <- load p ;;
      (* We can close this I/O channel, since it's not an external fd *)
      (if fd iomon =? -1 then
         res <- g_io_channel_shutdown (iochan iomon) ;;
         if bool_decide (res.1 = G_IO_STATUS_NORMAL) then ret tt
         else
           match res.2 with
           | None => undefined
           | Some error =>
               eno <- (w <- get ;; ret (errno w)) ;;
               let loglevel :=
                 if (code error =? G_IO_CHANNEL_ERROR_FAILED) && (eno =? ENODEV)
                 then LL_DEBUG else LL_ERR in
               mce_log loglevel "Cannot close `%s'; %s"
                       [ArgS (file iomon); ArgS (message error)]
           end
       else ret tt) ;;;
      g_io_channel_unref (iochan iomon) ;;;
      (if negb (fd iomon =? -1) then
         r <- close (fd iomon) ;;
         if r <? 0 then
           eno <- (w <- get ;; ret (errno w)) ;;
           mce_log LL_ERR "mce-io: Can not close %i errno: %s"
                   [ArgI (fd iomon); ArgI eno]
         else ret tt
       else ret tt) ;;;
      g_slice_free p
  end.

(** src/modules/camera.c: the removal callback of the camera module. *)
Definition handle_device_error_cb (data : Z) (device : string)
    (iomon_id : option iomon_ptr) (error : GError) : M unit :=
  mce_unregister_io_monitor iomon_id.

(** A call through [iomon->remdev_callback]. *)
Definition call_remdev_callback (cb : option iomon_error_cb) (data : Z)
    (device : string) (iomon : iomon_ptr) (error : GError) : M unit :=
  match cb with
  | None => undefined
  | Some Fn_handle_device_error_cb =>
      modify (emit (EvRemdevCallback Fn_handle_device_error_cb data device
                                     iomon error)) ;;;
      handle_device_error_cb data device (Some iomon) error
  | Some (Fn_remdev_extern a) =>
      modify (emit (EvRemdevCallback (Fn_remdev_extern a) data device
                                     iomon error))
  end.

(** A call through [iomon->callback]. *)
Definition call_callback (cb : iomon_cb) (iomon : iomon_ptr)
    (str : list Byte.byte) (bytes_read : nat) : M unit :=
  modify (emit (EvCallback cb iomon str bytes_read)).

(** The code at the EXIT label of both read handlers. *)
Definition read_cb_EXIT (status : bool) (iomon : option iomon_ptr) : M bool :=
  terminate <-
    (if negb status then
       match iomon with
       | None => ret false
       | Some p =>
           m <- load p ;;
           ret (bool_decide (error_policy m = MCE_IO_ERROR_POLICY_EXIT))
       end
     else ret false) ;;
  if (terminate : bool) then g_main_loop_quit ;;; exit EXIT_FAILURE
  else ret true.

Definition rewind_if_needed (source : chan_ptr) (iomon : iomon_struct)
  : M unit :=
  if rewind iomon then
    _ <- g_io_channel_seek_position source 0 G_SEEK_SET ;; ret tt
  else ret tt.

Definition io_string_cb (source : chan_ptr) (condition : Z)
    (data : option iomon_ptr) : M bool :=
  match data with
  | None =>
      mce_log LL_CRIT "io_string_cb() called with iomon == NULL!" [] ;;;
      read_cb_EXIT false None
  | Some p =>
      store p (set_latest_io_condition 0) ;;;
      iomon <- load p ;;
      (* Seek to the beginning of the file before reading if needed *)
      rewind_if_needed source iomon ;;;
      r <- g_io_channel_read_line source ;;
      (* Errors and empty reads are nasty *)
      match r_error r with
      | Some error =>
          mce_log LL_ERR "Error when reading from %s: %s"
                  [ArgS (file iomon); ArgS (message error)] ;;;
          call_remdev_callback (remdev_callback iomon) (remdev_data iomon)
                               (file iomon) p error ;;;
          ret false
      | None =>
          match r_str r with
          | Some str =>
              if (r_bytes_read r =? 0)%nat || (strlen str =? 0)%nat then
                mce_log LL_ERR "Empty read from %s" [ArgS (file iomon)]
              else call_callback (callback iomon) p str (r_bytes_read r)
          | None => mce_log LL_ERR "Empty read from %s" [ArgS (file iomon)]
          end ;;;
          read_cb_EXIT true (Some p)
      end
  end.

(** The read loop of [io_chunk_cb]:
    [do { read } while ((io_status == G_IO_STATUS_AGAIN) && (error != NULL))].
    The error slot is handed on from one turn to the next. *)
Fixpoint chunk_read_loop (fuel : nat) (source : chan_ptr) (count : nat)
    (error : option GError) : M read_result :=
  match fuel with
  | O => out_of_fuel
  | S n =>
      r <- g_io_channel_read_chars source count error ;;
      if bool_decide (r_status r = G_IO_STATUS_AGAIN)
         && negb (bool_decide (r_error r = None))
      then chunk_read_loop n source count (r_error r)
      else ret r
  end.

(** A second turn finds the error slot occupied and is refused with
    G_IO_STATUS_ERROR, which ends the loop. *)
Definition chunk_read_fuel : nat := 2.

Definition io_chunk_cb (source : chan_ptr) (condition : Z)
    (data : option iomon_ptr) : M bool :=
  match data with
  | None =>
      mce_log LL_CRIT "io_chunk_cb() called with iomon == NULL!" [] ;;;
      read_cb_EXIT false None
  | Some p =>
      store p (set_latest_io_condition 0) ;;;
      iomon <- load p ;;
      (* Seek to the beginning of the file before reading if needed *)
      rewind_if_needed source iomon ;;;
      r <- chunk_read_loop chunk_read_fuel source (chunk_size iomon) None ;;
      (* Errors and empty reads are nasty *)
      match r_error r with
      | Some error =>
          mce_log LL_ERR "Error when reading from %s: %s"
                  [ArgS (file iomon); ArgS (message error)] ;;;
          eno <- (w <- get ;; ret (errno w)) ;;
          if (code error =? G_IO_CHANNEL_ERROR_FAILED) && (eno =? ENODEV) then
            mcs_io_monitor_seek_to_end p ;;;
            call_remdev_callback (remdev_callback iomon) (remdev_data iomon)
                                 (file iomon) p error ;;;
            ret false
          else
            (* Reset errno, to avoid false positives down the line *)
            modify (set_errno 0) ;;;
            read_cb_EXIT true (Some p)
      | None =>
          (if (r_bytes_read r =? 0)%nat then
             mce_log LL_ERR "Empty read from %s" [ArgS (file iomon)]
           else call_callback (callback iomon) p (default [] (r_str r))
                              (r_bytes_read r)) ;;;
          read_cb_EXIT true (Some p)
      end
  end.

Definition io_mon_get_log_level (iomon : iomon_struct) : loglevel_t :=
  match error_policy iomon with
  | MCE_IO_ERROR_POLICY_EXIT => LL_CRIT
  | MCE_IO_ERROR_POLICY_WARN => LL_WARN
  | MCE_IO_ERROR_POLICY_IGNORE =>
      (* No log message when ignoring errors *)
      LL_NONE
  end.

Definition io_error_cb (source : chan_ptr) (condition : Z)
    (data : option iomon_ptr) : M bool :=
  match data with
  | None =>
      mce_log LL_CRIT "io_error_cb() called with iomon == NULL!" [] ;;;
      ret true
  | Some p =>
      iomon <- load p ;;
      let loglevel := io_mon_get_log_level iomon in
      let exit_on_error := bool_decide (loglevel = LL_CRIT) in
      (* We just got an I/O condition we've already reported
         since the last successful read; don't log *)
      loglevel <-
        (if negb exit_on_error
            && (Z.land (latest_io_condition iomon) condition =? condition)
         then ret LL_NONE
         else
           store p (set_latest_io_condition
                      (Z.lor (latest_io_condition iomon) condition)) ;;;
           ret loglevel) ;;
      (if negb (bool_decide (loglevel = LL_NONE)) then
         mce_log loglevel "Error accessing %s (condition: %d). %s"
                 [ArgS (file iomon); ArgI condition;
                  ArgS (if exit_on_error then "Exiting" else "Ignoring")]
       else ret tt) ;;;
      if exit_on_error then g_main_loop_quit ;;; exit EXIT_FAILURE
      else ret true
  end.

Definition mce_resume_io_monitor (io_monitor : option iomon_ptr) : M unit :=
  match io_monitor with
  | None =>
      mce_log LL_CRIT "mce_resume_io_monitor() called with iomon == NULL!" []
  | Some p =>
      iomon <- load p ;;
      if negb (suspended iomon) then ret tt
      else
        let callback :=
          match type iomon with
          | IOMON_STRING => Some Fn_io_string_cb
          | IOMON_CHUNK => Some Fn_io_chunk_cb
          | IOMON_UNSET => None
          end in
        match callback with
        | Some cb =>
            (* Seek to the end of the file; unless we use the rewind policy *)
            (if negb (rewind iomon) then
               _ <- mcs_io_monitor_seek_to_end p ;; ret tt
             else ret tt) ;;;
            eid <- g_io_add_watch (iochan iomon) (Z.lor G_IO_HUP G_IO_NVAL)
                                  Fn_io_error_cb p ;;
            did <- g_io_add_watch (iochan iomon)
                                  (Z.lor (Z.lor G_IO_IN G_IO_PRI) G_IO_ERR)
                                  cb p ;;
            store p (fun m => set_suspended false (set_source_ids did eid m))
        | None =>
            mce_log LL_ERR "Failed to resume `%s'; invalid callback"
                    [ArgS (file iomon)]
        end
  end.

Definition mce_register_io_monitor (fd : Z) (file : option string)
    (error_policy : error_policy_t) (callback : option iomon_cb)
    (remdev_callback : option iomon_error_cb) (remdev_data : Z)
  : M (option iomon_ptr) :=
  match file, callback with
  | None, _ =>
      mce_log LL_CRIT
              "mce_register_io_monitor() called with file == NULL!" [] ;;;
      ret None
  | Some _, None =>
      mce_log LL_CRIT
              "mce_register_io_monitor() called with callback == NULL!" [] ;;;
      ret None
  | Some file, Some callback =>
      iomon <- g_slice_new ;;
      match iomon with
      | None =>
          mce_log LL_CRIT "Failed to allocate memory for iomon_struct" [] ;;;
          ret None
      | Some p =>
          opened <-
            (if negb (fd =? -1) then
               iochan <- g_io_channel_unix_new fd ;;
               match iochan with
               | None =>
                   (if negb (bool_decide
                               (error_policy = MCE_IO_ERROR_POLICY_IGNORE))
                    then mce_log LL_ERR "Failed to open `%s'" [ArgS file]
                    else ret tt) ;;;
                   ret None
               | Some c => ret (Some c)
               end
             else
               res <- g_io_channel_new_file file ;;
               match res.1 with
               | None =>
                   (if negb (bool_decide
                               (error_policy = MCE_IO_ERROR_POLICY_IGNORE))
                    then
                      match res.2 with
                      | Some error =>
                          mce_log LL_ERR "Failed to open `%s'; %s"
                                  [ArgS file; ArgS (message error)]
                      | None => undefined
                      end
                    else ret tt) ;;;
                   ret None
               | Some c => ret (Some c)
               end) ;;
          match opened with
          | None => g_slice_free p ;;; ret None
          | Some iochan =>
              store p (fun g =>
                mkIomon file iochan callback remdev_callback remdev_data
                        0 (data_source_id g) (error_source_id g) fd (type g)
                        error_policy (latest_io_condition g) false
                        (suspended g)) ;;;
              modify (fun w => set_file_monitors (p :: file_monitors w) w) ;;;
              store p (set_suspended true) ;;;
              ret (Some p)
          end
      end
  end.

(** "Verify that the rewind policy is sane": shared text of both
    constructors. *)
Definition set_rewind_policy (p : iomon_ptr) (file : option string)
    (rewind_policy : bool) : M unit :=
  iomon <- load p ;;
  flags <- g_io_channel_get_flags (iochan iomon) ;;
  if is_seekable flags then
    (* Set the rewind policy *)
    store p (set_rewind rewind_policy)
  else if rewind_policy then
    mce_log LL_ERR
      "Attempting to set rewind policy to TRUE on non-seekable I/O channel `%s'"
      [ArgS (default "" file)] ;;;
    store p (set_rewind false)
  else ret tt.

Definition mce_register_io_monitor_string (fd : Z) (file : option string)
    (error_policy : error_policy_t) (rewind_policy : bool)
    (callback : option iomon_cb) (remdev_callback : option iomon_error_cb)
    (remdev_data : Z) : M (option iomon_ptr) :=
  iomon <- mce_register_io_monitor fd file error_policy callback
                                   remdev_callback remdev_data ;;
  match iomon with
  | None => ret None
  | Some p =>
      (* Verify that the rewind policy is sane *)
      set_rewind_policy p file rewind_policy ;;;
      (* Set the I/O monitor type and call resume to add an I/O watch *)
      store p (set_type IOMON_STRING) ;;;
      mce_resume_io_monitor (Some p) ;;;
      ret (Some p)
  end.

Definition mce_register_io_monitor_chunk (fd : Z) (file : option string)
    (error_policy : error_policy_t) (rewind_policy : bool)
    (callback : option iomon_cb) (chunk_size : nat)
    (remdev_callback : option iomon_error_cb) (remdev_data : Z)
  : M (option iomon_ptr) :=
  iomon <- mce_register_io_monitor fd file error_policy callback
                                   remdev_callback remdev_data ;;
  match iomon with
  | None => ret None
  | Some p =>
      (* Set the read chunk size *)
      store p (set_chunk_size chunk_size) ;;;
      (* Verify that the rewind policy is sane *)
      set_rewind_policy p file rewind_policy ;;;
      m <- load p ;;
      (* We only read this file in binary form *)
      g_io_channel_set_encoding_NULL (iochan m) ;;;
      (* Don't block *)
      g_io_channel_set_flags (iochan m) G_IO_FLAG_NONBLOCK ;;;
      (* Set the I/O monitor type and call resume to add an I/O watch *)
      store p (set_type IOMON_CHUNK) ;;;
      mce_resume_io_monitor (Some p) ;;;
      ret (Some p)
  end.

Definition mce_get_io_monitor_name (io_monitor : iomon_ptr) : M string :=
  iomon <- load io_monitor ;; ret (file iomon).

Definition mce_get_io_monitor_fd (io_monitor : iomon_ptr) : M Z :=
  iomon <- load io_monitor ;; ret (fd iomon).

(** ** The main loop

    One readiness notification: the watch [id] fires with [condition].  A
    watch that is gone does nothing; a handler that returns FALSE has its
    watch removed. *)
Definition run_GIOFunc (f : GIOFunc) (source : chan_ptr) (condition : Z)
    (data : iomon_ptr) : M bool :=
  match f with
  | Fn_io_string_cb => io_string_cb source condition (Some data)
  | Fn_io_chunk_cb => io_chunk_cb source condition (Some data)
  | Fn_io_error_cb => io_error_cb source condition (Some data)
  end.

Definition dispatch (id : nat) (condition : Z) : M unit :=
  w <- get ;;
  match sources w !! id with
  | None => ret tt
  | Some s =>
      keep <- run_GIOFunc (src_func s) (src_chan s) condition (src_data s) ;;
      if (keep : bool) then ret tt else g_source_remove id
  end.

Fixpoint main_loop (evs : list (nat * Z)) : M unit :=
  match evs with
  | [] => ret tt
  | (id, condition) :: evs' => dispatch id condition ;;; main_loop evs'
  end.

(** Bytes arriving on the file or pipe behind channel [c]. *)
Definition external_write (c : chan_ptr) (bs : list Byte.byte) (w : World)
  : World :=
  set_channels (alter (ch_append bs) c (channels w)) w.

(** ** Auxiliary definitions for the statements *)

(** The world after a call that touched channel [c] and [errno] only. *)
Definition upd_chan (c : chan_ptr) (ch : GIOChannel) (eno : Z) (w : World)
  : World :=
  set_errno eno (set_channels (<[c := ch]> (channels w)) w).
Arguments upd_chan : simpl never.

(** The diagnostic of [io_error_cb]. *)
Definition condition_diagnostic (lvl : loglevel_t) (m : iomon_struct)
    (condition : Z) : event :=
  EvLog lvl "Error accessing %s (condition: %d). %s"
        [ArgS (file m); ArgI condition;
         ArgS (if bool_decide (lvl = LL_CRIT) then "Exiting" else "Ignoring")].

(** The channel after the optional rewind of a read handler. *)
Definition after_rewind (m : iomon_struct) (ch : GIOChannel) : GIOChannel :=
  if rewind m then (chan_seek_position 0 G_SEEK_SET ch).2 else ch.

(** The diagnostics of the read handlers. *)
Definition read_error_diagnostic (m : iomon_struct) (e : GError) : event :=
  EvLog LL_ERR "Error when reading from %s: %s"
        [ArgS (file m); ArgS (message e)].

Definition empty_read_diagnostic (m : iomon_struct) : event :=
  EvLog LL_ERR "Empty read from %s" [ArgS (file m)].

(** The cursor of a channel never passes the end of its stream. *)
Definition chan_wf (ch : GIOChannel) : Prop :=
  (ch_pos ch <= length (ch_data ch))%nat.

(** The diagnostic of a registration whose channel cannot be opened. *)
Definition open_failure_diagnostic (fd : Z) (file : string) : event :=
  if fd =? -1 then
    EvLog LL_ERR "Failed to open `%s'; %s"
          [ArgS file; ArgS "No such file or directory"]
  else EvLog LL_ERR "Failed to open `%s'" [ArgS file].

(** The rewind diagnostic of the constructors. *)
Definition rewind_diagnostic (file : string) : event :=
  EvLog LL_ERR
    "Attempting to set rewind policy to TRUE on non-seekable I/O channel `%s'"
    [ArgS file].

(** The monitor block and the world that a successful call of
    [mce_register_io_monitor] leaves: [g] is what the fresh block held,
    [ch] the stream behind the descriptor or the file. *)
Definition registered_monitor (fd : Z) (file : string)
    (error_policy : error_policy_t) (callback : iomon_cb)
    (remdev_callback : option iomon_error_cb) (remdev_data : Z)
    (g : iomon_struct) (c : chan_ptr) : iomon_struct :=
  mkIomon file c callback remdev_callback remdev_data 0%nat
          (data_source_id g) (error_source_id g) fd (type g) error_policy
          (latest_io_condition g) false true.

Definition registered_world (p : iomon_ptr) (m : iomon_struct)
    (ch : GIOChannel) (w : World) : World :=
  set_file_monitors (p :: file_monitors w)
    (set_heap (<[p := m]> (heap w))
       (set_channels (<[iochan m := ch]> (channels w)) w)).

(** The read handler that [mce_resume_io_monitor] installs. *)
Definition read_handler_of (t : iomon_type) : GIOFunc :=
  match t with
  | IOMON_STRING => Fn_io_string_cb
  | _ => Fn_io_chunk_cb
  end.

(** The world [mce_resume_io_monitor] leaves for a suspended monitor [m] at
    [p]: the channel is [ch] with [errno] at [eno], the error watch is
    [eid] and the data watch [did]. *)
Definition resumed_world (p : iomon_ptr) (m : iomon_struct)
    (ch : GIOChannel) (eno : Z) (eid did : nat) (w : World) : World :=
  set_heap (<[p := set_suspended false (set_source_ids did eid m)]> (heap w))
    (set_sources
       (<[did := mkSource (iochan m)
                          (Z.lor (Z.lor G_IO_IN G_IO_PRI) G_IO_ERR)
                          (read_handler_of (type m)) p]>
          (<[eid := mkSource (iochan m) (Z.lor G_IO_HUP G_IO_NVAL)
                             Fn_io_error_cb p]> (sources w)))
       (upd_chan (iochan m) ch eno w)).

(** Number of log calls at level [lvl] in a trace. *)
Definition count_level (lvl : loglevel_t) (t : list event) : nat :=
  length (List.filter (fun e => match e with
                                | EvLog l _ _ => bool_decide (l = lvl)
                                | _ => false
                                end) t).

(** The diagnostics of [mce_unregister_io_monitor]. *)
Definition not_registered_diagnostic : event :=
  EvLog LL_WARN "Trying to unregister non-existing file monitor" [].

Definition close_failure_diagnostic (fd eno : Z) : event :=
  EvLog LL_ERR "mce-io: Can not close %i errno: %s" [ArgI fd; ArgI eno].

(** What a read handler does with the record or chunk it has read:
    [payload] is delivered to the data callback, unless it is empty, in
    which case the handler logs an empty read. *)
Definition delivery (m : iomon_struct) (p : nat) (payload : list Byte.byte)
  : event :=
  match payload with
  | [] => empty_read_diagnostic m
  | _ => EvCallback (callback m) p payload (length payload)
  end.

(** The record the line handler delivers from the unread bytes [bs]: the
    first line, or nothing when that line starts with a NUL byte. *)
Definition first_line (bs : list Byte.byte) : list Byte.byte :=
  if (strlen (take_line bs) =? 0)%nat then [] else take_line bs.

(** No watch of the main loop is bound to monitor [p]. *)
Definition no_watch_for (p : nat) (w : World) : Prop :=
  forall id s, sources w !! id = Some s -> src_data s <> p.

(** [g_io_channel_shutdown] on this channel reports a failure only with a
    GError. *)
Definition shutdown_ok (ch : GIOChannel) : Prop :=
  match ch_shutdown_fault ch with
  | Some f => f_status f = G_IO_STATUS_NORMAL \/ is_Some (f_error f)
  | None => True
  end.

(** *** Where the model of the reads is exact *)

(** The channel is in non-blocking mode. *)
Definition nonblocking (ch : GIOChannel) : bool :=
  Z.land (ch_flags ch) G_IO_FLAG_NONBLOCK =? G_IO_FLAG_NONBLOCK.

(** A read on the channel comes back at once even when there is no data:
    the channel is a regular file, or it is in non-blocking mode. *)
Definition never_blocks (ch : GIOChannel) : Prop :=
  is_seekable (ch_flags ch) = true \/ nonblocking ch = true.

Definition is_ascii (b : Byte.byte) : bool := (Byte.to_N b <? 128)%N.

(** The bytes of the channel are read as they are: the channel is binary,
    or its stream is ASCII. *)
Definition plain (ch : GIOChannel) : Prop :=
  ch_binary ch = true \/ forallb is_ascii (ch_data ch) = true.

(** A byte of a line of text: ASCII, and none of the bytes at which the
    autodetection of GLib ends a line. *)
Definition text_byte (b : Byte.byte) : bool :=
  is_ascii b && negb (bool_decide (b = Byte.x00))
  && negb (bool_decide (b = Byte.x0a)) && negb (bool_decide (b = Byte.x0d)).

(** A record of text: bytes of text closed by a newline. *)
Definition text_record (l : list Byte.byte) : Prop :=
  exists body, l = body ++ [Byte.x0a] /\ forallb text_byte body = true.

(** *** The end-of-data advance in closed form *)

Definition at_end (ch : GIOChannel) : GIOChannel :=
  set_ch_pos (length (ch_data ch)) ch.

(** What the drain loop leaves of a channel: a pending fault ends the loop
    at its first read, before any byte is consumed; without one the loop
    reads to the end of the data. *)
Definition after_drain (ch : GIOChannel) : GIOChannel :=
  match ch_read_script ch with
  | _ :: rest => set_ch_read_script rest ch
  | [] => at_end ch
  end.

Definition errno_after_drain (ch : GIOChannel) (eno : Z) : Z :=
  match ch_read_script ch with
  | f :: _ => f_errno f
  | [] => eno
  end.

(** What [mcs_io_monitor_seek_to_end] leaves of a channel: the cursor at the
    end after a seek that succeeds, the result of the drain loop on a
    channel that is not seekable and after a seek that fails. *)
Definition after_advance (ch : GIOChannel) : GIOChannel :=
  if is_seekable (ch_flags ch) then
    match ch_seek_script ch with
    | [] => at_end ch
    | None :: rest => at_end (set_ch_seek_script rest ch)
    | Some _ :: rest => after_drain (set_ch_seek_script rest ch)
    end
  else after_drain ch.

Definition errno_after_advance (ch : GIOChannel) (eno : Z) : Z :=
  if is_seekable (ch_flags ch) then
    match ch_seek_script ch with
    | Some _ :: rest => errno_after_drain (set_ch_seek_script rest ch) eno
    | _ => eno
    end
  else errno_after_drain ch eno.

(** The channel a registration works on: the file opened from the path
    when the descriptor is -1, else the channel around the descriptor. *)
Definition opened (fd : Z) (file : string) (w : World) : option GIOChannel :=
  if fd =? -1 then fs w !! file
  else Some (default closed_descriptor_channel (fds w !! fd)).

(** ** Frame conditions

    [respects R c]: whenever [c] comes back, by returning or by [exit()],
    the worlds before and after are related by [R]. *)
Definition respects {A} (R : relation World) (c : M A) : Prop :=
  forall w, match c w with
            | Returned _ w' | Exited _ w' => R w w'
            | Undefined | OutOfFuel => True
            end.

(** [never_exits c]: [c] does not call [exit()]. *)
Definition never_exits {A} (c : M A) : Prop :=
  forall w st w', c w <> Exited st w'.

(** Events that are no call into the policy modules. *)
Definition housekeeping (e : event) : Prop :=
  match e with
  | EvCallback _ _ _ _ | EvRemdevCallback _ _ _ _ _ => False
  | _ => True
  end.

(** A relation on worlds that every elementary update of the engine's
    handlers and of the teardown keeps: housekeeping events, data callbacks
    for the monitors [cb_ok] admits, removal callbacks for the monitors
    [rd_ok] admits, any change of channels, descriptors, [errno] and the
    registry, removal of watches, freeing of monitors, and the stores
    [st_ok] admits. *)
Class Frame (R : relation World) (cb_ok rd_ok : nat -> Prop)
    (st_ok : nat -> (iomon_struct -> iomon_struct) -> Prop) : Prop := {
  frame_refl w : R w w;
  frame_trans w1 w2 w3 : R w1 w2 -> R w2 w3 -> R w1 w3;
  frame_emit e w : housekeeping e -> R w (emit e w);
  frame_callback cb q pl n w : cb_ok q -> R w (emit (EvCallback cb q pl n) w);
  frame_remdev cb d dev q e w :
    rd_ok q -> R w (emit (EvRemdevCallback cb d dev q e) w);
  frame_errno e w : R w (set_errno e w);
  frame_channels c w : R w (set_channels c w);
  frame_unwatch id w : R w (set_sources (delete id (sources w)) w);
  frame_fds f w : R w (set_fds f w);
  frame_file_monitors l w : R w (set_file_monitors l w);
  frame_free p w : R w (set_heap (delete p (heap w)) w);
  frame_store p f m w :
    heap w !! p = Some m -> st_ok p f ->
    R w (set_heap (<[p := f m]> (heap w)) w)
}.

(** No data callback is delivered for monitor [p] and no watch appears. *)
Definition quiet_for (p : iomon_ptr) : relation World := fun w w' =>
  sources w' ⊆ sources w
  /\ forall cb pl n, EvCallback cb p pl n ∈ trace w' ->
                     EvCallback cb p pl n ∈ trace w.

(** The outstanding-condition mask of monitor [p] is not touched. *)
Definition mask_kept (p : iomon_ptr) : relation World := fun w w' =>
  forall m', heap w' !! p = Some m' ->
             exists m, heap w !! p = Some m
                       /\ latest_io_condition m' = latest_io_condition m.

Definition keeps_mask (f : iomon_struct -> iomon_struct) : Prop :=
  forall m, latest_io_condition (f m) = latest_io_condition m.

(** Only housekeeping events are added to the trace. *)
Definition no_callbacks : relation World := fun w w' =>
  exists evs, trace w' = trace w ++ evs /\ Forall housekeeping evs.

(** ** Concrete worlds, for the examples *)

Module Sample.
Definition bytes (s : string) : list Byte.byte :=
  Stdlib.Strings.String.list_byte_of_string s.

(** What an uninitialised block happens to hold. *)
Definition garbage : iomon_struct :=
  mkIomon "" 0%nat 0%nat None 0 7%nat 0%nat 0%nat 0 IOMON_UNSET
          MCE_IO_ERROR_POLICY_WARN 48 true false.

(** A regular file and a pipe holding [d]. *)
Definition file_chan (d : string) : GIOChannel :=
  mkChan (Z.lor G_IO_FLAG_IS_READABLE G_IO_FLAG_IS_SEEKABLE) false
         (bytes d) 0%nat [] [] None.
Definition pipe_chan (d : string) : GIOChannel :=
  mkChan G_IO_FLAG_IS_READABLE false (bytes d) 0%nat [] [] None.
(** An input device holding [d], its channel as the chunk constructor
    leaves it: binary and non-blocking. *)
Definition device_chan (d : string) : GIOChannel :=
  mkChan (Z.lor G_IO_FLAG_IS_READABLE G_IO_FLAG_NONBLOCK) true (bytes d)
         0%nat [] [] None.

(** A process with no monitor, descriptor 5 open on a pipe, and one
    readable sysfs file. *)
Definition boot : World :=
  mkWorld [] ∅ (Some garbage) ∅ ∅
          {[ 5 := pipe_chan "stale" ]}
          {[ "/sys/cam" := file_chan "stale" ]}
          0 [].

(** One live monitor at address 7 on channel 3, with watches 1 and 2. *)
Definition monitor (t : iomon_type) (pol : error_policy_t) (d : Z)
    (rw : bool) : iomon_struct :=
  mkIomon "/dev/input5" 3%nat 1%nat (Some Fn_handle_device_error_cb) 0
          4%nat 2%nat 1%nat d t pol 0 rw false.

Definition running (m : iomon_struct) (ch : GIOChannel) : World :=
  mkWorld [7%nat] {[ 7%nat := m ]} (Some garbage) {[ 3%nat := ch ]}
          {[ 1%nat := mkSource 3%nat 48 Fn_io_error_cb 7%nat;
             2%nat := mkSource 3%nat 11 (read_handler_of (type m)) 7%nat ]}
          {[ 5 := ch ]} ∅ 0 [].


(** The device behind the monitor has gone: the next read fails with
    ENODEV. *)
Definition no_device : io_fault :=
  mkFault G_IO_STATUS_ERROR
          (Some (mkGError G_IO_CHANNEL_ERROR_FAILED "No such device")) ENODEV.

(** Nothing to read right now: EAGAIN. *)
Definition try_again : io_fault := mkFault G_IO_STATUS_AGAIN None EAGAIN.

Definition unplugged : World :=
  running (monitor IOMON_CHUNK MCE_IO_ERROR_POLICY_IGNORE 5 false)
          (set_ch_read_script [no_device] (pipe_chan "")).

(** A line monitor on a path-opened file whose next read fails with EIO. *)
Definition io_error : io_fault :=
  mkFault G_IO_STATUS_ERROR (Some (mkGError 2 "Input/output error")) 5.

Definition broken : World :=
  running (monitor IOMON_STRING MCE_IO_ERROR_POLICY_IGNORE (-1) true)
          (set_ch_read_script [io_error] (file_chan "on")).

Definition starved : World :=
  running (monitor IOMON_CHUNK MCE_IO_ERROR_POLICY_WARN 5 false)
          (set_ch_read_script [try_again] (pipe_chan "abcd")).
End Sample.

(** ** Definitions for the properties of the life cycle *)


(** The registry lists the live monitors, each once. *)
Definition registry_ok (w : World) : Prop :=
  NoDup (file_monitors w)
  /\ forall p, p ∈ file_monitors w <-> is_Some (heap w !! p).

(** The only watches bound to monitor [p] are the two its block names. *)
Definition only_own_watches (p : nat) (m : iomon_struct) (w : World) : Prop :=
  forall id s, sources w !! id = Some s -> src_data s = p ->
               id = data_source_id m \/ id = error_source_id m.

(** What [mce_unregister_io_monitor] logs after shutting down the channel
    [ch] of monitor [m]: nothing when the shutdown succeeds, else one
    diagnostic, at debug level when the device is gone (error code FAILED
    with errno ENODEV) and at error level otherwise. *)
Definition shutdown_diagnostic (m : iomon_struct) (ch : GIOChannel)
  : list event :=
  match ch_shutdown_fault ch with
  | Some f =>
      if bool_decide (f_status f = G_IO_STATUS_NORMAL) then []
      else match f_error f with
           | Some e =>
               [EvLog (if (code e =? G_IO_CHANNEL_ERROR_FAILED)
                          && (f_errno f =? ENODEV)
                       then LL_DEBUG else LL_ERR)
                      "Cannot close `%s'; %s"
                      [ArgS (file m); ArgS (message e)]]
           | None => []
           end
  | None => []
  end.

(** Channel [c], if it exists before, still exists afterwards and fails its
    shutdown the same way. *)
Definition keeps_shutdown_fault (c : nat) : relation World := fun w w' =>
  forall ch, channels w !! c = Some ch ->
             exists ch', channels w' !! c = Some ch'
                         /\ ch_shutdown_fault ch' = ch_shutdown_fault ch.

(** The world [w'] a constructor leaves when it succeeds on [w]: one new
    block [p] with the fields shown, one new channel [c] holding [ch'], the
    error watch [eid] and the data watch [did], and the events [diag]. *)
Definition constructed (t : iomon_type) (fd : Z) (file : string)
    (error_policy : error_policy_t) (callback : nat)
    (remdev_callback : option iomon_error_cb) (remdev_data : Z)
    (size : nat) (mask : Z) (rw : bool)
    (p c eid did : nat) (ch' : GIOChannel) (diag : list event)
    (w w' : World) : Prop :=
  heap w' = <[p := mkIomon file c callback remdev_callback remdev_data size
                           did eid fd t error_policy mask rw false]> (heap w)
  /\ file_monitors w' = p :: file_monitors w
  /\ channels w' = <[c := ch']> (channels w)
  /\ sources w'
     = <[did := mkSource c (Z.lor (Z.lor G_IO_IN G_IO_PRI) G_IO_ERR)
                         (read_handler_of t) p]>
         (<[eid := mkSource c (Z.lor G_IO_HUP G_IO_NVAL) Fn_io_error_cb p]>
            (sources w))
  /\ fds w' = fds w /\ fs w' = fs w /\ slice_next w' = slice_next w
  /\ trace w' = trace w ++ diag.

(** ** Definitions for the properties of the read handlers *)

(** The first [k] chunks of [n] bytes of a stream. *)
Fixpoint chunks (k n : nat) (bs : list Byte.byte) : list (list Byte.byte) :=
  match k with
  | O => []
  | S k' => take n bs :: chunks k' n (drop n bs)
  end.

(** The first [k] records of a stream, each up to and including its
    newline. *)
Fixpoint records (k : nat) (bs : list Byte.byte) : list (list Byte.byte) :=
  match k with
  | O => []
  | S k' =>
      take_line bs :: records k' (drop (length (take_line bs)) bs)
  end.

(** What the line handler hands on of a record it has read: nothing if
    the record starts with a NUL byte. *)
Definition c_string_record (l : list Byte.byte) : list Byte.byte :=
  if (strlen l =? 0)%nat then [] else l.

(** The world a read handler leaves after a read without fault: the mask
    is reset, the cursor of the channel has moved by [consumed] from where
    the optional rewind put it, and [payload] was delivered. *)
Definition after_read (p : nat) (m : iomon_struct) (source : nat)
    (ch : GIOChannel) (consumed : nat) (payload : list Byte.byte)
    (w : World) : World :=
  emit (delivery m p payload)
    (upd_chan source
       (set_ch_pos (ch_pos (after_rewind m ch) + consumed)%nat
                   (after_rewind m ch))
       (errno w)
       (set_heap (<[p := set_latest_io_condition 0 m]> (heap w)) w)).

(** What a read handler delivers from a stream it reads from the start. *)
Definition head_payload (f : GIOFunc) (m : iomon_struct)
    (data : list Byte.byte) : list Byte.byte :=
  match f with
  | Fn_io_string_cb => first_line data
  | _ => take (chunk_size m) data
  end.

(** ** The camera module: src/modules/camera.c

    The module keeps three file-scope variables.  The two sysfs paths and
    the configuration lookup come from headers and from [mce-conf], which
    are not part of the sources at hand: the paths and the addresses of the
    two data callbacks are parameters of the section, and the value
    [mce_conf_get_bool] returns is an argument of the init function. *)
Module Camera.

Record statics : Set := mkStatics {
  popout_unlock : bool;
  camera_active_state_iomon_id : option nat;
  camera_popout_state_iomon_id : option nat
}.

Section Paths.
Variables CAMERA_ACTIVE_STATE_PATH CAMERA_POPOUT_STATE_PATH : string.
Variables camera_active_state_cb camera_popout_state_cb : nat.

(** [g_module_check_init]: returns the new values of the file-scope
    variables and the error message, which is always NULL. *)
Definition g_module_check_init (mce_conf_get_bool : bool) (s : statics)
  : M (statics * option string) :=
  (* Register I/O monitors *)
  active <- mce_register_io_monitor_string (-1)
              (Some CAMERA_ACTIVE_STATE_PATH) MCE_IO_ERROR_POLICY_IGNORE true
              (Some camera_active_state_cb)
              (Some Fn_handle_device_error_cb) 0 ;;
  popout <- mce_register_io_monitor_string (-1)
              (Some CAMERA_POPOUT_STATE_PATH) MCE_IO_ERROR_POLICY_IGNORE true
              (Some camera_popout_state_cb)
              (Some Fn_handle_device_error_cb) 0 ;;
  ret (mkStatics mce_conf_get_bool active popout, None).

End Paths.

(** [g_module_unload]. *)
Definition g_module_unload (s : statics) : M unit :=
  (* Unregister I/O monitors *)
  mce_unregister_io_monitor (camera_popout_state_iomon_id s) ;;;
  mce_unregister_io_monitor (camera_active_state_iomon_id s).

End Camera.

(** ** Relations for the invariants of the main loop *)

(** The fields of a monitor block that are set at registration. *)
Definition same_config (m m' : iomon_struct) : Prop :=
  file m' = file m /\ iochan m' = iochan m /\ callback m' = callback m
  /\ remdev_callback m' = remdev_callback m
  /\ remdev_data m' = remdev_data m /\ chunk_size m' = chunk_size m
  /\ fd m' = fd m /\ type m' = type m /\ error_policy m' = error_policy m
  /\ rewind m' = rewind m
  /\ data_source_id m' = data_source_id m
  /\ error_source_id m' = error_source_id m.

(** Every monitor alive afterwards was alive before, with the same
    configuration, and every watch installed afterwards was installed
    before. *)
Definition engine_shrinks : relation World := fun w w' =>
  (forall p m', heap w' !! p = Some m' ->
                exists m, heap w !! p = Some m /\ same_config m m')
  /\ sources w' ⊆ sources w.

Definition keeps_config (f : iomon_struct -> iomon_struct) : Prop :=
  forall m, same_config m (f m).

(** [c] comes back at once: it needs no fuel and does not call exit(). *)
Definition comes_back {A} (c : M A) : Prop :=
  forall w, c w <> OutOfFuel /\ forall st w', c w <> Exited st w'.

(** Two worlds with the same monitors, registry, channels, watches and
    descriptors. *)
Definition engine_eq (w w' : World) : Prop :=
  heap w' = heap w /\ file_monitors w' = file_monitors w
  /\ channels w' = channels w /\ sources w' = sources w /\ fds w' = fds w.

(** The outcome [r], [w1] of one registration of the camera module on [w]:
    NULL and nothing changed when the file is missing, else a monitor as
    [constructed] describes it. *)
Definition camera_registered (path : string) (cb : nat) (mask : Z)
    (w : World) (r : option nat) (w1 : World) : Prop :=
  match r with
  | None => fs w !! path = None /\ w1 = w
  | Some p =>
      exists ch ch' eid did,
        fs w !! path = Some ch
        /\ p = fresh (dom (heap w))
        /\ eid <> did /\ sources w !! eid = None /\ sources w !! did = None
        /\ constructed IOMON_STRING (-1) path MCE_IO_ERROR_POLICY_IGNORE cb
             (Some Fn_handle_device_error_cb) 0 0 mask
             (is_seekable (ch_flags ch) && true)
             p (fresh (dom (channels w))) eid did ch'
             (if negb (is_seekable (ch_flags ch)) && true
              then [rewind_diagnostic path] else []) w w1
        /\ ch_shutdown_fault ch' = ch_shutdown_fault ch
  end.

(** A monitor as the camera module registers it for [path]. *)
Definition camera_monitor (path : string) (m : iomon_struct) : Prop :=
  file m = path /\ fd m = -1 /\ type m = IOMON_STRING
  /\ error_policy m = MCE_IO_ERROR_POLICY_IGNORE
  /\ remdev_callback m = Some Fn_handle_device_error_cb
  /\ suspended m = false.

(** What the init function of the camera module logs for [path]: only the
    rewind diagnostic, for a file that exists and cannot be rewound. *)
Definition camera_init_diagnostic (path : string) (w : World) : list event :=
  match fs w !! path with
  | Some ch =>
      if is_seekable (ch_flags ch) then [] else [rewind_diagnostic path]
  | None => []
  end.

(** ** The file readers: src/utils/mce-io.c *)

Definition ENOENT : Z := 2.
Definition EINVAL : Z := 22.
Definition ERANGE : Z := 34.

(** [g_file_get_contents(file, &contents, NULL, &error)] on the files of
    the model: the whole content of a file that exists, else an error and
    ENOENT.  A call that succeeds leaves [errno] as it is. *)
Definition g_file_get_contents (f : string)
  : M (option (list Byte.byte) * option GError) :=
  fun w => match fs w !! f with
           | Some ch => Returned (Some (ch_data ch), None) w
           | None =>
               Returned (None, Some (mkGError G_FILE_ERROR_NOENT
                                       "No such file or directory"))
                        (set_errno ENOENT w)
           end.

(** The three ways [strtoul(s, NULL, 10)] can come back, after ISO C: a
    converted value, which leaves [errno] alone; a value out of range,
    which returns ULONG_MAX and sets ERANGE; no digits at all, which
    returns 0 and, depending on the C library, sets EINVAL or leaves
    [errno] alone. *)
Inductive strtoul_result : Set :=
| Converted (num : Z)
| OutOfRange
| NoConversion (einval : bool).

Section Libc.
(** The conversion of the C library and the width of [unsigned long] are
    parameters. *)
Variable strtoul_base10 : list Byte.byte -> strtoul_result.
Variable ULONG_MAX : Z.

Definition strtoul (s : list Byte.byte) : M Z :=
  fun w => match strtoul_base10 s with
           | Converted num => Returned num w
           | OutOfRange => Returned ULONG_MAX (set_errno ERANGE w)
           | NoConversion einval =>
               Returned 0 (if einval then set_errno EINVAL w else w)
           end.

(** [mce_read_string_from_file]: the status, and the string stored through
    the out parameter, if any. *)
Definition mce_read_string_from_file (file : option string)
  : M (bool * option (list Byte.byte)) :=
  match file with
  | None =>
      mce_log LL_CRIT
              "mce_read_string_from_file() called with file == NULL!" [] ;;;
      ret (false, None)
  | Some f =>
      res <- g_file_get_contents f ;;
      match res.1 with
      | None =>
          match res.2 with
          | Some error =>
              mce_log LL_ERR "Cannot open `%s' for reading; %s"
                      [ArgS f; ArgS (message error)]
          | None => undefined
          end ;;;
          ret (false, None)
      | Some contents => ret (true, Some contents)
      end
  end.

(** [mce_read_number_string_from_file]: the status and the value of
    [*number] afterwards, [number] being its value before. *)
Definition mce_read_number_string_from_file (file : option string)
    (number : Z) : M (bool * Z) :=
  r <- mce_read_string_from_file file ;;
  if r.1 then
    match r.2 with
    | None => undefined
    | Some string =>
        num <- strtoul string ;;
        eno <- (w <- get ;; ret (errno w)) ;;
        (* Error check for the results of strtoul() *)
        if (eno =? EINVAL) || ((num =? ULONG_MAX) && (eno =? ERANGE)) then
          (* Reset errno, to avoid false positives down the line *)
          modify (set_errno 0) ;;;
          ret (false, number)
        else ret (true, num)
    end
  else ret (false, number).

End Libc.

(** * Properties *)

(** ** Stepping through a computation *)

Lemma bind_Returned {A B} (c : M A) (k : A -> M B) w a w' :
  c w = Returned a w' -> bind c k w = k a w'.
Proof. unfold bind. now intros ->. Qed.

Lemma load_live p m w : heap w !! p = Some m -> load p w = Returned m w.
Proof. unfold load. now intros ->. Qed.

Lemma store_live p f m w :
  heap w !! p = Some m ->
  store p f w = Returned tt (set_heap (<[p := f m]> (heap w)) w).
Proof. unfold store. now intros ->. Qed.


Lemma with_chan_live {A} c (f : GIOChannel * Z -> A * (GIOChannel * Z)) ch w :
  channels w !! c = Some ch ->
  with_chan c f w =
    Returned (f (ch, errno w)).1
             (upd_chan c (f (ch, errno w)).2.1 (f (ch, errno w)).2.2 w).
Proof.
  unfold with_chan. intros ->.
  destruct (f (ch, errno w)) as [a [ch' eno]]. reflexivity.
Qed.

Lemma upd_chan_lookup c ch eno w :
  channels (upd_chan c ch eno w) !! c = Some ch.
Proof. unfold upd_chan. simpl. apply lookup_insert_eq. Qed.

Lemma upd_chan_upd_chan c ch1 e1 ch2 e2 w :
  upd_chan c ch2 e2 (upd_chan c ch1 e1 w) = upd_chan c ch2 e2 w.
Proof.
  unfold upd_chan, set_errno, set_channels. simpl.
  now rewrite insert_insert_eq.
Qed.

(** ** The condition dispatcher *)


Lemma io_error_cb_duplicate w p m source condition :
  heap w !! p = Some m ->
  error_policy m <> MCE_IO_ERROR_POLICY_EXIT ->
  Z.land (latest_io_condition m) condition = condition ->
  io_error_cb source condition (Some p) w = Returned true w.
Proof.
  intros Hp Hpol Hdup. unfold io_error_cb.
  rewrite (bind_Returned _ _ _ _ _ (load_live _ _ _ Hp)).
  unfold io_mon_get_log_level.
  destruct (error_policy m) eqn:E; try congruence; simpl;
    (apply Z.eqb_eq in Hdup; rewrite Hdup; reflexivity).
Qed.

Lemma io_error_cb_fresh_condition w p m source condition :
  heap w !! p = Some m ->
  error_policy m = MCE_IO_ERROR_POLICY_EXIT
  \/ Z.land (latest_io_condition m) condition <> condition ->
  let lvl := io_mon_get_log_level m in
  let w1 := set_heap (<[p := set_latest_io_condition
                              (Z.lor (latest_io_condition m) condition) m]>
                        (heap w)) w in
  let w2 := if bool_decide (lvl = LL_NONE) then w1
            else emit (condition_diagnostic lvl m condition) w1 in
  io_error_cb source condition (Some p) w =
    if bool_decide (lvl = LL_CRIT)
    then Exited EXIT_FAILURE (emit EvMainLoopQuit w2)
    else Returned true w2.
Proof.
  intros Hp Hnew. unfold io_error_cb.
  rewrite (bind_Returned _ _ _ _ _ (load_live _ _ _ Hp)).
  unfold io_mon_get_log_level, condition_diagnostic.
  assert (Hcase : error_policy m = MCE_IO_ERROR_POLICY_EXIT
                  \/ (Z.land (latest_io_condition m) condition =? condition)
                     = false).
  { destruct Hnew as [?|Hne]; [now left|right]. now apply Z.eqb_neq. }
  destruct (error_policy m) eqn:E; simpl;
    destruct Hcase as [Hc|Hc]; try discriminate Hc; try rewrite Hc; simpl;
    unfold bind; rewrite (store_live _ _ _ _ Hp); reflexivity.
Qed.


(** C5: the dispatcher maps the error policy to a severity (Exit to
    critical, Warn to warning, Ignore to none); under policy Exit it logs,
    asks the main loop to quit and then calls exit with a non-zero status,
    leaving every watch, channel, descriptor and registry entry as it was;
    under the other policies it returns. *)
Theorem io_error_cb_policy_severity w p m source condition
    (Hlive : heap w !! p = Some m) :
  io_mon_get_log_level m =
    match error_policy m with
    | MCE_IO_ERROR_POLICY_EXIT => LL_CRIT
    | MCE_IO_ERROR_POLICY_WARN => LL_WARN
    | MCE_IO_ERROR_POLICY_IGNORE => LL_NONE
    end
  /\ (error_policy m = MCE_IO_ERROR_POLICY_EXIT ->
      exists w',
        io_error_cb source condition (Some p) w = Exited EXIT_FAILURE w'
        /\ EXIT_FAILURE <> 0
        /\ trace w' = trace w ++ [condition_diagnostic LL_CRIT m condition;
                                  EvMainLoopQuit]
        /\ sources w' = sources w
        /\ file_monitors w' = file_monitors w
        /\ channels w' = channels w
        /\ fds w' = fds w
        /\ dom (heap w') = dom (heap w))
  /\ (error_policy m <> MCE_IO_ERROR_POLICY_EXIT ->
      exists w', io_error_cb source condition (Some p) w = Returned true w').
Proof.
  split; [reflexivity|split].
  - intros Hpol.
    pose proof (io_error_cb_fresh_condition w p m source condition Hlive
                  (or_introl Hpol)) as H.
    unfold io_mon_get_log_level in H. rewrite Hpol in H. simpl in H.
    eexists. split; [exact H|].
    simpl. rewrite <- app_assoc. simpl.
    repeat split; try reflexivity; try discriminate.
    apply dom_insert_lookup_L. now exists m.
  - intros Hpol.
    destruct (decide (Z.land (latest_io_condition m) condition = condition))
      as [Hdup|Hnew].
    + exists w. now apply io_error_cb_duplicate with m.
    + pose proof (io_error_cb_fresh_condition w p m source condition Hlive
                    (or_intror Hnew)) as H.
      unfold io_mon_get_log_level in H.
      destruct (error_policy m); try congruence; simpl in H; eauto.
Qed.

Lemma io_error_cb_policy_severity_witness :
  exists w',
    io_error_cb 3%nat G_IO_HUP (Some 7%nat)
      (Sample.running
         (Sample.monitor IOMON_CHUNK MCE_IO_ERROR_POLICY_EXIT 5 false)
         (Sample.pipe_chan "")) = Exited EXIT_FAILURE w'
    /\ sources w' =
       sources (Sample.running
         (Sample.monitor IOMON_CHUNK MCE_IO_ERROR_POLICY_EXIT 5 false)
         (Sample.pipe_chan "")).
Proof.
  destruct (io_error_cb_policy_severity
              (Sample.running
                 (Sample.monitor IOMON_CHUNK MCE_IO_ERROR_POLICY_EXIT 5 false)
                 (Sample.pipe_chan ""))
              7%nat
              (Sample.monitor IOMON_CHUNK MCE_IO_ERROR_POLICY_EXIT 5 false)
              3%nat G_IO_HUP eq_refl) as (_ & Hexit & _).
  destruct (Hexit eq_refl) as (w' & Hrun & _ & _ & Hsrc & _).
  exists w'. split; [exact Hrun|exact Hsrc].
Defined.

(** ** Frame conditions of the engine *)

Section Framing.
Context {R : relation World} {cb_ok rd_ok : nat -> Prop}
        {st_ok : nat -> (iomon_struct -> iomon_struct) -> Prop}
        `{!Frame R cb_ok rd_ok st_ok}.

Lemma respects_ret {A} (a : A) : respects R (ret a).
Proof. intros w. apply frame_refl. Qed.

Lemma respects_bind {A B} (c : M A) (k : A -> M B) :
  respects R c -> (forall a, respects R (k a)) -> respects R (bind c k).
Proof.
  intros Hc Hk w. unfold bind. specialize (Hc w).
  destruct (c w) as [a w1|st w1| |]; try exact I; try exact Hc.
  specialize (Hk a w1).
  destruct (k a w1); try exact I; eapply frame_trans; eassumption.
Qed.

Lemma respects_get : respects R get.
Proof. intros w. apply frame_refl. Qed.

Lemma respects_undefined {A} : respects R (@undefined A).
Proof. intros w. exact I. Qed.

Lemma respects_out_of_fuel {A} : respects R (@out_of_fuel A).
Proof. intros w. exact I. Qed.

Lemma respects_exit {A} st : respects R (@exit A st).
Proof. intros w. apply frame_refl. Qed.

Lemma respects_load p : respects R (load p).
Proof.
  intros w. unfold load.
  destruct (heap w !! p); [apply frame_refl|exact I].
Qed.

Lemma respects_store p f : st_ok p f -> respects R (store p f).
Proof.
  intros Hok w. unfold store. destruct (heap w !! p) eqn:E; [|exact I].
  now apply frame_store.
Qed.

Lemma respects_mce_log lvl fmt args : respects R (mce_log lvl fmt args).
Proof. intros w. apply frame_emit; exact I. Qed.

Lemma respects_g_main_loop_quit : respects R g_main_loop_quit.
Proof. intros w. apply frame_emit; exact I. Qed.

Lemma respects_set_errno e : respects R (modify (set_errno e)).
Proof. intros w. apply frame_errno. Qed.

Lemma respects_with_chan {A} c (f : GIOChannel * Z -> A * (GIOChannel * Z)) :
  respects R (with_chan c f).
Proof.
  intros w. unfold with_chan. destruct (channels w !! c); [|exact I].
  destruct (f _) as [a [ch' eno]].
  eapply frame_trans; [apply frame_channels|apply frame_errno].
Qed.

Lemma respects_g_source_remove id : respects R (g_source_remove id).
Proof. intros w. apply frame_unwatch. Qed.

Lemma respects_g_io_channel_shutdown c : respects R (g_io_channel_shutdown c).
Proof.
  intros w. unfold g_io_channel_shutdown.
  destruct (channels w !! c); [|exact I].
  destruct (ch_shutdown_fault _).
  - eapply frame_trans; [|apply frame_errno].
    apply frame_emit; exact I.
  - apply frame_emit; exact I.
Qed.

Lemma respects_g_io_channel_unref c : respects R (g_io_channel_unref c).
Proof.
  intros w. unfold g_io_channel_unref.
  destruct (channels w !! c); [|exact I].
  eapply frame_trans; [apply frame_channels|apply frame_emit; exact I].
Qed.

Lemma respects_close d : respects R (close d).
Proof.
  intros w. unfold close. destruct (fds w !! d).
  - eapply frame_trans; [apply frame_fds|apply frame_emit; exact I].
  - eapply frame_trans; [apply frame_errno|apply frame_emit; exact I].
Qed.

Lemma respects_g_slice_free p : respects R (g_slice_free p).
Proof.
  intros w. unfold g_slice_free. destruct (heap w !! p); [|exact I].
  apply frame_free.
Qed.

Lemma respects_drain_fuel c : respects R (drain_fuel c).
Proof.
  intros w. unfold drain_fuel. destruct (channels w !! c); [|exact I].
  apply frame_refl.
Qed.

Lemma respects_call_callback cb q str n :
  cb_ok q -> respects R (call_callback cb q str n).
Proof. intros Hq w. now apply frame_callback. Qed.

Lemma respects_unlink p :
  respects R (modify (fun w => match file_monitors w with
                               | [] => w
                               | l => set_file_monitors (g_slist_remove l p) w
                               end)).
Proof.
  intros w. unfold modify.
  destruct (file_monitors w); [apply frame_refl|apply frame_file_monitors].
Qed.

Lemma respects_emit_remdev cb data device iomon error :
  rd_ok iomon ->
  respects R (modify (emit (EvRemdevCallback cb data device iomon error))).
Proof. intros Hq w. now apply frame_remdev. Qed.

End Framing.

Create HintDb frame.
#[global] Hint Resolve respects_ret respects_get respects_undefined
  respects_out_of_fuel respects_exit respects_load respects_mce_log
  respects_g_main_loop_quit respects_set_errno respects_with_chan
  respects_g_source_remove respects_g_io_channel_shutdown
  respects_g_io_channel_unref respects_close respects_g_slice_free
  respects_drain_fuel respects_unlink : frame.

(** Walks through a computation built from the calls above. *)
Ltac frame_step :=
  lazymatch goal with
  | |- respects _ (bind _ _) => apply respects_bind; [|intros ?]
  | |- respects _ (if ?b then _ else _) => destruct b
  | |- respects _ (match ?x with _ => _ end) => destruct x
  | |- respects _ (let _ := _ in _) => cbv zeta
  | |- _ => solve [eauto with frame]
  end.
Ltac frame := repeat frame_step.

Section FramingEngine.
Context {R : relation World} {cb_ok rd_ok : nat -> Prop}
        {st_ok : nat -> (iomon_struct -> iomon_struct) -> Prop}
        `{!Frame R cb_ok rd_ok st_ok}.

Lemma respects_seek_to_end_drain fuel c : respects R (seek_to_end_drain fuel c).
Proof.
  induction fuel as [|n IH]; simpl; [eauto with frame|].
  apply respects_bind; [unfold g_io_channel_read_chars; eauto with frame|].
  intros r. destruct (_ && _); eauto with frame.
Qed.

Lemma respects_mcs_io_monitor_seek_to_end p :
  respects R (mcs_io_monitor_seek_to_end p).
Proof.
  pose proof respects_seek_to_end_drain.
  unfold mcs_io_monitor_seek_to_end, g_io_channel_get_flags,
    g_io_channel_seek_position.
  frame.
Qed.

Lemma respects_mce_suspend_io_monitor q :
  (forall p, q = Some p -> st_ok p (set_suspended true)) ->
  respects R (mce_suspend_io_monitor q).
Proof.
  intros Hok. unfold mce_suspend_io_monitor.
  destruct q as [p|]; [|eauto with frame].
  pose proof (respects_store p _ (Hok p eq_refl)). frame.
Qed.

Lemma respects_mce_unregister_io_monitor q :
  (forall p, q = Some p -> st_ok p (set_suspended true)) ->
  respects R (mce_unregister_io_monitor q).
Proof.
  intros Hok. unfold mce_unregister_io_monitor.
  destruct q as [p|]; [|eauto with frame].
  pose proof (respects_mce_suspend_io_monitor (Some p) Hok). frame.
Qed.

Lemma respects_call_remdev_callback cb data device p error :
  rd_ok p -> st_ok p (set_suspended true) ->
  respects R (call_remdev_callback cb data device p error).
Proof.
  intros Hrd Hok. unfold call_remdev_callback, handle_device_error_cb.
  assert (respects R (mce_unregister_io_monitor (Some p))).
  { apply respects_mce_unregister_io_monitor. now intros ? [= <-]. }
  pose proof (fun cb => respects_emit_remdev cb data device p error Hrd).
  frame.
Qed.

Lemma respects_read_cb_EXIT status q : respects R (read_cb_EXIT status q).
Proof. unfold read_cb_EXIT. frame. Qed.

Lemma respects_rewind_if_needed source m :
  respects R (rewind_if_needed source m).
Proof. unfold rewind_if_needed, g_io_channel_seek_position. frame. Qed.

Lemma respects_chunk_read_loop fuel source count error :
  respects R (chunk_read_loop fuel source count error).
Proof.
  revert error. induction fuel as [|n IH]; intros error; simpl;
    [eauto with frame|].
  apply respects_bind; [unfold g_io_channel_read_chars; eauto with frame|].
  intros r. destruct (_ && _); eauto with frame.
Qed.

End FramingEngine.

#[global] Hint Resolve respects_seek_to_end_drain
  respects_mcs_io_monitor_seek_to_end respects_read_cb_EXIT
  respects_rewind_if_needed respects_chunk_read_loop : frame.

Section FramingHandlers.
Context {R : relation World} {cb_ok rd_ok : nat -> Prop}
        {st_ok : nat -> (iomon_struct -> iomon_struct) -> Prop}
        `{!Frame R cb_ok rd_ok st_ok}.

(** What is left of a read handler once the mask has been reset. *)
Lemma respects_io_string_cb_rest source p :
  cb_ok p -> rd_ok p -> st_ok p (set_suspended true) ->
  respects R
    (iomon <- load p ;;
     rewind_if_needed source iomon ;;;
     r <- g_io_channel_read_line source ;;
     match r_error r with
     | Some error =>
         mce_log LL_ERR "Error when reading from %s: %s"
                 [ArgS (file iomon); ArgS (message error)] ;;;
         call_remdev_callback (remdev_callback iomon) (remdev_data iomon)
                              (file iomon) p error ;;;
         ret false
     | None =>
         match r_str r with
         | Some str =>
             if (r_bytes_read r =? 0)%nat || (strlen str =? 0)%nat then
               mce_log LL_ERR "Empty read from %s" [ArgS (file iomon)]
             else call_callback (callback iomon) p str (r_bytes_read r)
         | None => mce_log LL_ERR "Empty read from %s" [ArgS (file iomon)]
         end ;;;
         read_cb_EXIT true (Some p)
     end).
Proof.
  intros Hcb Hrd Hst.
  pose proof (fun cb d dev e =>
                respects_call_remdev_callback cb d dev p e Hrd Hst).
  pose proof (fun cb s n => respects_call_callback cb p s n Hcb).
  unfold g_io_channel_read_line. frame.
Qed.

Lemma respects_io_chunk_cb_rest source p :
  cb_ok p -> rd_ok p -> st_ok p (set_suspended true) ->
  respects R
    (iomon <- load p ;;
     rewind_if_needed source iomon ;;;
     r <- chunk_read_loop chunk_read_fuel source (chunk_size iomon) None ;;
     match r_error r with
     | Some error =>
         mce_log LL_ERR "Error when reading from %s: %s"
                 [ArgS (file iomon); ArgS (message error)] ;;;
         eno <- (w <- get ;; ret (errno w)) ;;
         if (code error =? G_IO_CHANNEL_ERROR_FAILED) && (eno =? ENODEV) then
           mcs_io_monitor_seek_to_end p ;;;
           call_remdev_callback (remdev_callback iomon) (remdev_data iomon)
                                (file iomon) p error ;;;
           ret false
         else
           modify (set_errno 0) ;;;
           read_cb_EXIT true (Some p)
     | None =>
         (if (r_bytes_read r =? 0)%nat then
            mce_log LL_ERR "Empty read from %s" [ArgS (file iomon)]
          else call_callback (callback iomon) p (default [] (r_str r))
                             (r_bytes_read r)) ;;;
         read_cb_EXIT true (Some p)
     end).
Proof.
  intros Hcb Hrd Hst.
  pose proof (fun cb d dev e =>
                respects_call_remdev_callback cb d dev p e Hrd Hst).
  pose proof (fun cb s n => respects_call_callback cb p s n Hcb).
  frame.
Qed.

Lemma respects_io_string_cb source condition p :
  cb_ok p -> rd_ok p -> st_ok p (set_suspended true) ->
  st_ok p (set_latest_io_condition 0) ->
  respects R (io_string_cb source condition (Some p)).
Proof.
  intros Hcb Hrd Hst Hmask. unfold io_string_cb.
  apply respects_bind; [now apply respects_store|intros _].
  now apply respects_io_string_cb_rest.
Qed.

Lemma respects_io_chunk_cb source condition p :
  cb_ok p -> rd_ok p -> st_ok p (set_suspended true) ->
  st_ok p (set_latest_io_condition 0) ->
  respects R (io_chunk_cb source condition (Some p)).
Proof.
  intros Hcb Hrd Hst Hmask. unfold io_chunk_cb.
  apply respects_bind; [now apply respects_store|intros _].
  now apply respects_io_chunk_cb_rest.
Qed.

Lemma respects_io_error_cb source condition p :
  (forall c, st_ok p (set_latest_io_condition c)) ->
  respects R (io_error_cb source condition (Some p)).
Proof.
  intros Hmask. unfold io_error_cb.
  pose proof (fun c => respects_store p _ (Hmask c)). frame.
Qed.

End FramingHandlers.

#[global] Instance quiet_for_frame p :
  Frame (quiet_for p) (fun q => q <> p) (fun _ => True) (fun _ _ => True).
Proof.
  split; unfold quiet_for; simpl.
  - intros w. split; [reflexivity|auto].
  - intros w1 w2 w3 [Hs1 Ht1] [Hs2 Ht2].
    split; [now transitivity (sources w2)|auto].
  - intros e w He. split; [reflexivity|].
    intros cb pl n [Hin|Hin%list_elem_of_singleton]%elem_of_app; [exact Hin|].
    now subst e.
  - intros cb q pl n w Hq. split; [reflexivity|].
    intros cb' pl' n' [Hin|Hin%list_elem_of_singleton]%elem_of_app;
      [exact Hin|congruence].
  - intros cb d dev q e w _. split; [reflexivity|].
    intros cb' pl' n' [Hin|Hin%list_elem_of_singleton]%elem_of_app;
      [exact Hin|discriminate].
  - intros e w. split; [reflexivity|auto].
  - intros c w. split; [reflexivity|auto].
  - intros id w. split; [apply delete_subseteq|auto].
  - intros f w. split; [reflexivity|auto].
  - intros l w. split; [reflexivity|auto].
  - intros q w. split; [reflexivity|auto].
  - intros q f m w _ _. split; [reflexivity|auto].
Qed.

#[global] Instance mask_kept_frame p :
  Frame (mask_kept p) (fun _ => True) (fun _ => True)
        (fun q f => q <> p \/ keeps_mask f).
Proof.
  split; unfold mask_kept; simpl; eauto.
  - intros w1 w2 w3 H12 H23 m3 H3.
    destruct (H23 m3 H3) as (m2 & H2 & E2).
    destruct (H12 m2 H2) as (m1 & H1 & E1).
    exists m1. split; [exact H1|congruence].
  - intros q w m' [_ H]%lookup_delete_Some. eauto.
  - intros q f m w Hq Hok m'. destruct (decide (q = p)) as [->|Hne].
    + rewrite lookup_insert_eq. intros [= <-]. exists m. split; [exact Hq|].
      destruct Hok as [?|Hk]; [congruence|apply Hk].
    + rewrite lookup_insert_ne by exact Hne. eauto.
Qed.

#[global] Instance no_callbacks_frame :
  Frame no_callbacks (fun _ => False) (fun _ => False) (fun _ _ => True).
Proof.
  split; unfold no_callbacks; simpl; try tauto;
    try (intros; exists []; split; [now rewrite app_nil_r|constructor]).
  - intros w1 w2 w3 (e1 & H1 & F1) (e2 & H2 & F2).
    exists (e1 ++ e2). split; [now rewrite H2, H1, app_assoc|].
    now apply Forall_app.
  - intros e w He. exists [e]. split; [reflexivity|]. now constructor.
Qed.

#[global] Hint Resolve quiet_for_frame mask_kept_frame no_callbacks_frame
  : frame.

Lemma keeps_mask_set_suspended b : keeps_mask (set_suspended b).
Proof. intros m. reflexivity. Qed.

(** Once a read handler has run on a live monitor, the monitor's mask is
    zero (if the monitor is still there). *)
Lemma read_handlers_reset_mask w p m src cond r w' :
  heap w !! p = Some m ->
  io_string_cb src cond (Some p) w = Returned r w'
  \/ io_chunk_cb src cond (Some p) w = Returned r w' ->
  forall m', heap w' !! p = Some m' -> latest_io_condition m' = 0.
Proof.
  intros Hp Hrun m' Hm'.
  assert (Hst : p <> p \/ keeps_mask (set_suspended true))
    by (right; apply keeps_mask_set_suspended).
  pose (w1 := set_heap (<[p := set_latest_io_condition 0 m]> (heap w)) w).
  assert (Hkept : mask_kept p w1 w').
  { destruct Hrun as [Hrun|Hrun].
    - unfold io_string_cb in Hrun.
      rewrite (bind_Returned _ _ _ _ _ (store_live _ _ _ _ Hp)) in Hrun.
      pose proof (respects_io_string_cb_rest (R := mask_kept p) src p I I Hst
                    w1)
        as H.
      fold w1 in Hrun. now rewrite Hrun in H.
    - unfold io_chunk_cb in Hrun.
      rewrite (bind_Returned _ _ _ _ _ (store_live _ _ _ _ Hp)) in Hrun.
      pose proof (respects_io_chunk_cb_rest (R := mask_kept p) src p I I Hst
                    w1)
        as H.
      fold w1 in Hrun. now rewrite Hrun in H. }
  destruct (Hkept m' Hm') as (m1 & H1 & E). rewrite E.
  unfold w1 in H1. simpl in H1. rewrite lookup_insert_eq in H1.
  now injection H1 as <-.
Qed.

(** C4: a non-fatal notification whose bits are all in the mask is silent
    and changes nothing; any other notification ORs its bits into the mask
    and logs one diagnostic unless the severity is none; a read attempt
    leaves the mask at zero; so, under policy Warn and after a read
    attempt, two equal notifications in a row log one diagnostic and a
    later notification with a bit outside the mask logs one more. *)
Theorem io_error_cb_reports_once w p m source condition
    (Hlive : heap w !! p = Some m) :
  (error_policy m <> MCE_IO_ERROR_POLICY_EXIT ->
   Z.land (latest_io_condition m) condition = condition ->
   io_error_cb source condition (Some p) w = Returned true w)
  /\ (error_policy m = MCE_IO_ERROR_POLICY_EXIT
      \/ Z.land (latest_io_condition m) condition <> condition ->
      exists w',
        (io_error_cb source condition (Some p) w = Returned true w'
         \/ io_error_cb source condition (Some p) w
            = Exited EXIT_FAILURE (emit EvMainLoopQuit w'))
        /\ heap w' !! p
           = Some (set_latest_io_condition
                     (Z.lor (latest_io_condition m) condition) m)
        /\ trace w'
           = trace w ++
             (if bool_decide (io_mon_get_log_level m = LL_NONE) then []
              else [condition_diagnostic (io_mon_get_log_level m) m
                                         condition]))
  /\ (forall src cond r w',
        io_string_cb src cond (Some p) w = Returned r w'
        \/ io_chunk_cb src cond (Some p) w = Returned r w' ->
        forall m', heap w' !! p = Some m' -> latest_io_condition m' = 0)
  /\ (error_policy m = MCE_IO_ERROR_POLICY_WARN ->
      latest_io_condition m = 0 -> condition <> 0 ->
      exists w1 w2,
        io_error_cb source condition (Some p) w = Returned true w1
        /\ io_error_cb source condition (Some p) w1 = Returned true w2
        /\ trace w2 = trace w ++ [condition_diagnostic LL_WARN m condition]
        /\ forall c', Z.land condition c' <> c' ->
             exists w3,
               io_error_cb source c' (Some p) w2 = Returned true w3
               /\ trace w3
                  = trace w2 ++ [condition_diagnostic LL_WARN m c']).
Proof.
  split; [|split; [|split]].
  - intros Hpol Hdup. now apply io_error_cb_duplicate with m.
  - intros Hnew.
    pose proof (io_error_cb_fresh_condition w p m source condition Hlive Hnew)
      as H. cbv zeta in H.
    eexists. split; [|split].
    + destruct (bool_decide (io_mon_get_log_level m = LL_CRIT));
        [right|left]; exact H.
    + destruct (bool_decide (io_mon_get_log_level m = LL_NONE)); simpl;
        apply lookup_insert_eq.
    + destruct (bool_decide (io_mon_get_log_level m = LL_NONE)); simpl;
        [now rewrite app_nil_r|reflexivity].
  - intros src cond r w' Hrun.
    now apply (read_handlers_reset_mask w p m src cond r w').
  - intros Hpol Hmask Hc.
    assert (Hlvl : io_mon_get_log_level m = LL_WARN)
      by (unfold io_mon_get_log_level; now rewrite Hpol).
    assert (Hnew : Z.land (latest_io_condition m) condition <> condition)
      by (rewrite Hmask, Z.land_0_l; congruence).
    pose proof (io_error_cb_fresh_condition w p m source condition Hlive
                  (or_intror Hnew)) as H1.
    cbv zeta in H1. rewrite Hlvl, Hmask, Z.lor_0_l in H1. simpl in H1.
    set (m1 := set_latest_io_condition condition m) in *.
    set (w1 := emit _ _) in H1.
    assert (Hlive1 : heap w1 !! p = Some m1) by apply lookup_insert_eq.
    assert (Hpol1 : error_policy m1 <> MCE_IO_ERROR_POLICY_EXIT)
      by (simpl; congruence).
    exists w1, w1. split; [exact H1|split; [|split]].
    + apply io_error_cb_duplicate with m1; auto. simpl. apply Z.land_diag.
    + reflexivity.
    + intros c' Hc'.
      pose proof (io_error_cb_fresh_condition w1 p m1 source c' Hlive1
                    (or_intror Hc')) as H3.
      cbv zeta in H3.
      assert (Hlvl1 : io_mon_get_log_level m1 = LL_WARN) by exact Hlvl.
      rewrite Hlvl1 in H3. simpl in H3.
      eexists. split; [exact H3|reflexivity].
Qed.

Lemma io_error_cb_reports_once_witness :
  exists w1 w2,
    io_error_cb 3%nat G_IO_HUP (Some 7%nat)
      (Sample.running
         (Sample.monitor IOMON_CHUNK MCE_IO_ERROR_POLICY_WARN 5 false)
         (Sample.pipe_chan "")) = Returned true w1
    /\ io_error_cb 3%nat G_IO_HUP (Some 7%nat) w1 = Returned true w2
    /\ trace w2 =
       [condition_diagnostic LL_WARN
          (Sample.monitor IOMON_CHUNK MCE_IO_ERROR_POLICY_WARN 5 false)
          G_IO_HUP].
Proof.
  destruct (io_error_cb_reports_once
              (Sample.running
                 (Sample.monitor IOMON_CHUNK MCE_IO_ERROR_POLICY_WARN 5 false)
                 (Sample.pipe_chan ""))
              7%nat
              (Sample.monitor IOMON_CHUNK MCE_IO_ERROR_POLICY_WARN 5 false)
              3%nat G_IO_HUP eq_refl) as (_ & _ & _ & Hwarn).
  destruct (Hwarn eq_refl eq_refl) as (w1 & w2 & H1 & H2 & Ht & _);
    [discriminate|].
  exists w1, w2. repeat split; assumption.
Defined.

(** ** Who can terminate the process *)

Lemma never_exits_ret {A} (a : A) : never_exits (ret a).
Proof. intros w st w'. discriminate. Qed.

Lemma never_exits_bind {A B} (c : M A) (k : A -> M B) :
  never_exits c -> (forall a, never_exits (k a)) -> never_exits (bind c k).
Proof.
  intros Hc Hk w st w'. unfold bind.
  destruct (c w) as [a w1|st1 w1| |] eqn:E; try discriminate.
  - apply Hk.
  - now destruct (Hc w st1 w1).
Qed.

(** Calls that come back at once: they return or they are undefined. *)
Ltac never_exits_call :=
  let w := fresh "w" in
  intros w ? ?;
  cbv [get modify undefined out_of_fuel load store mce_log g_main_loop_quit
       with_chan g_source_remove g_io_channel_shutdown g_io_channel_unref
       close g_slice_free drain_fuel call_callback g_io_add_watch
       new_channel g_slice_new];
  repeat match goal with
         | |- context [match ?x with _ => _ end] => destruct x
         end;
  discriminate.

Lemma never_exits_get : never_exits get.
Proof. never_exits_call. Qed.
Lemma never_exits_modify f : never_exits (modify f).
Proof. never_exits_call. Qed.
Lemma never_exits_undefined {A} : never_exits (@undefined A).
Proof. never_exits_call. Qed.
Lemma never_exits_out_of_fuel {A} : never_exits (@out_of_fuel A).
Proof. never_exits_call. Qed.
Lemma never_exits_load p : never_exits (load p).
Proof. never_exits_call. Qed.
Lemma never_exits_store p f : never_exits (store p f).
Proof. never_exits_call. Qed.
Lemma never_exits_mce_log lvl fmt args : never_exits (mce_log lvl fmt args).
Proof. never_exits_call. Qed.
Lemma never_exits_with_chan {A} c (f : GIOChannel * Z -> A * (GIOChannel * Z)) :
  never_exits (with_chan c f).
Proof. never_exits_call. Qed.
Lemma never_exits_g_source_remove id : never_exits (g_source_remove id).
Proof. never_exits_call. Qed.
Lemma never_exits_g_io_channel_shutdown c :
  never_exits (g_io_channel_shutdown c).
Proof. never_exits_call. Qed.
Lemma never_exits_g_io_channel_unref c : never_exits (g_io_channel_unref c).
Proof. never_exits_call. Qed.
Lemma never_exits_close d : never_exits (close d).
Proof. never_exits_call. Qed.
Lemma never_exits_g_slice_free p : never_exits (g_slice_free p).
Proof. never_exits_call. Qed.
Lemma never_exits_drain_fuel c : never_exits (drain_fuel c).
Proof. never_exits_call. Qed.
Lemma never_exits_call_callback cb q s n :
  never_exits (call_callback cb q s n).
Proof. never_exits_call. Qed.

Create HintDb exits.
#[global] Hint Resolve never_exits_ret never_exits_get never_exits_modify
  never_exits_undefined never_exits_out_of_fuel never_exits_load
  never_exits_store never_exits_mce_log never_exits_with_chan
  never_exits_g_source_remove never_exits_g_io_channel_shutdown
  never_exits_g_io_channel_unref never_exits_close never_exits_g_slice_free
  never_exits_drain_fuel never_exits_call_callback : exits.

Ltac exits_step :=
  lazymatch goal with
  | |- never_exits (bind _ _) => apply never_exits_bind; [|intros ?]
  | |- never_exits (if ?b then _ else _) => destruct b
  | |- never_exits (match ?x with _ => _ end) => destruct x
  | |- never_exits (let _ := _ in _) => cbv zeta
  | |- _ => solve [eauto with exits]
  end.
Ltac exits := repeat exits_step.

Lemma never_exits_seek_to_end_drain fuel c :
  never_exits (seek_to_end_drain fuel c).
Proof.
  induction fuel as [|n IH]; simpl; [eauto with exits|].
  unfold g_io_channel_read_chars. exits.
Qed.

Lemma never_exits_mcs_io_monitor_seek_to_end p :
  never_exits (mcs_io_monitor_seek_to_end p).
Proof.
  pose proof never_exits_seek_to_end_drain.
  unfold mcs_io_monitor_seek_to_end, g_io_channel_get_flags,
    g_io_channel_seek_position.
  exits.
Qed.

Lemma never_exits_mce_suspend_io_monitor q :
  never_exits (mce_suspend_io_monitor q).
Proof. unfold mce_suspend_io_monitor. exits. Qed.

Lemma never_exits_mce_unregister_io_monitor q :
  never_exits (mce_unregister_io_monitor q).
Proof.
  pose proof never_exits_mce_suspend_io_monitor.
  unfold mce_unregister_io_monitor. exits.
Qed.

Lemma never_exits_call_remdev_callback cb data device p error :
  never_exits (call_remdev_callback cb data device p error).
Proof.
  pose proof never_exits_mce_unregister_io_monitor.
  unfold call_remdev_callback, handle_device_error_cb. exits.
Qed.

Lemma never_exits_rewind_if_needed source m :
  never_exits (rewind_if_needed source m).
Proof. unfold rewind_if_needed, g_io_channel_seek_position. exits. Qed.

Lemma never_exits_chunk_read_loop fuel source count error :
  never_exits (chunk_read_loop fuel source count error).
Proof.
  revert error. induction fuel as [|n IH]; intros error; simpl;
    [eauto with exits|].
  unfold g_io_channel_read_chars. exits.
Qed.

(** The EXIT label: with the status flag still TRUE, or with a NULL
    monitor, the handler returns TRUE. *)
Lemma read_cb_EXIT_status_true q w : read_cb_EXIT true q w = Returned true w.
Proof. reflexivity. Qed.

Lemma read_cb_EXIT_null status w : read_cb_EXIT status None w = Returned true w.
Proof. now destruct status. Qed.

#[global] Hint Resolve never_exits_mcs_io_monitor_seek_to_end
  never_exits_call_remdev_callback never_exits_rewind_if_needed
  never_exits_chunk_read_loop : exits.

Lemma never_exits_io_string_cb source condition data :
  never_exits (io_string_cb source condition data).
Proof.
  assert (H1 : forall q, never_exits (read_cb_EXIT true q))
    by (intros q w st w'; now rewrite read_cb_EXIT_status_true).
  assert (H2 : forall s, never_exits (read_cb_EXIT s None))
    by (intros s w st w'; now rewrite read_cb_EXIT_null).
  unfold io_string_cb, g_io_channel_read_line. exits.
Qed.

Lemma never_exits_io_chunk_cb source condition data :
  never_exits (io_chunk_cb source condition data).
Proof.
  assert (H1 : forall q, never_exits (read_cb_EXIT true q))
    by (intros q w st w'; now rewrite read_cb_EXIT_status_true).
  assert (H2 : forall s, never_exits (read_cb_EXIT s None))
    by (intros s w st w'; now rewrite read_cb_EXIT_null).
  unfold io_chunk_cb. exits.
Qed.

(** C10: neither read handler ever calls exit, whatever the monitor, its
    error policy and the outcome of the read: the code at their EXIT label
    returns TRUE when the status flag is TRUE and when the monitor is NULL,
    and those are the only ways the handlers reach it.  Of the three
    handlers the main loop runs, only the condition dispatcher can
    terminate the process, and only under policy Exit. *)
Theorem read_handlers_never_exit source condition data :
  never_exits (io_string_cb source condition data)
  /\ never_exits (io_chunk_cb source condition data)
  /\ (forall q w, read_cb_EXIT true q w = Returned true w)
  /\ (forall status w, read_cb_EXIT status None w = Returned true w)
  /\ (forall f p w st w',
        run_GIOFunc f source condition p w = Exited st w' ->
        f = Fn_io_error_cb
        /\ exists m, heap w !! p = Some m
                     /\ error_policy m = MCE_IO_ERROR_POLICY_EXIT).
Proof.
  split; [apply never_exits_io_string_cb|].
  split; [apply never_exits_io_chunk_cb|].
  split; [apply read_cb_EXIT_status_true|].
  split; [apply read_cb_EXIT_null|].
  intros f p w st w' Hexit. destruct f.
  - destruct (never_exits_io_string_cb _ _ _ _ _ _ Hexit).
  - destruct (never_exits_io_chunk_cb _ _ _ _ _ _ Hexit).
  - split; [reflexivity|].
    simpl in Hexit. unfold io_error_cb, bind, load in Hexit.
    destruct (heap w !! p) as [m|] eqn:Hp; [|discriminate].
    exists m. split; [reflexivity|].
    destruct (error_policy m) eqn:Hpol; [reflexivity| |];
      exfalso; unfold io_mon_get_log_level in Hexit; rewrite Hpol in Hexit;
      simpl in Hexit;
      destruct (Z.land _ _ =? _); simpl in Hexit;
      try (unfold store in Hexit; rewrite Hp in Hexit; simpl in Hexit);
      discriminate.
Qed.

Lemma read_handlers_never_exit_witness :
  never_exits (io_chunk_cb 3%nat G_IO_HUP (Some 7%nat))
  /\ exists m,
       heap (Sample.running
               (Sample.monitor IOMON_CHUNK MCE_IO_ERROR_POLICY_EXIT 5 false)
               (Sample.pipe_chan "")) !! 7%nat = Some m
       /\ error_policy m = MCE_IO_ERROR_POLICY_EXIT.
Proof.
  destruct (read_handlers_never_exit 3%nat G_IO_HUP (Some 7%nat))
    as (_ & Hchunk & _ & _ & Honly).
  split; [exact Hchunk|].
  exact (proj2 (Honly Fn_io_error_cb 7%nat
                  (Sample.running
                     (Sample.monitor IOMON_CHUNK MCE_IO_ERROR_POLICY_EXIT 5
                                     false)
                     (Sample.pipe_chan ""))
                  _ _ eq_refl)).
Defined.

(** ** Reads and seeks *)

Lemma upd_chan_id c ch w :
  channels w !! c = Some ch -> upd_chan c ch (errno w) w = w.
Proof.
  intros H. destruct w. unfold upd_chan, set_errno, set_channels. simpl in *.
  now rewrite insert_id.
Qed.

Lemma read_chars_fault w c ch f rest count :
  channels w !! c = Some ch -> ch_read_script ch = f :: rest ->
  g_io_channel_read_chars c count None w =
    Returned (mkRead (f_status f) None 0 (f_error f))
             (upd_chan c (set_ch_read_script rest ch) (f_errno f) w).
Proof.
  intros Hc Hs. unfold g_io_channel_read_chars.
  rewrite (with_chan_live _ _ _ _ Hc). simpl. now rewrite Hs.
Qed.

Lemma read_chars_refused w c ch count e :
  channels w !! c = Some ch ->
  g_io_channel_read_chars c count (Some e) w =
    Returned (mkRead G_IO_STATUS_ERROR None 0 (Some e)) w.
Proof.
  intros Hc. unfold g_io_channel_read_chars.
  rewrite (with_chan_live _ _ _ _ Hc). simpl. now rewrite upd_chan_id.
Qed.

Lemma seek_position_live w c ch offset type :
  channels w !! c = Some ch ->
  g_io_channel_seek_position c offset type w =
    Returned (chan_seek_position offset type ch).1
             (upd_chan c (chan_seek_position offset type ch).2 (errno w) w).
Proof.
  intros Hc. unfold g_io_channel_seek_position.
  rewrite (with_chan_live _ _ _ _ Hc). simpl.
  now destruct (chan_seek_position offset type ch).
Qed.

Lemma get_flags_live w c ch :
  channels w !! c = Some ch ->
  g_io_channel_get_flags c w = Returned (ch_flags ch) w.
Proof.
  intros Hc. unfold g_io_channel_get_flags.
  rewrite (with_chan_live _ _ _ _ Hc). simpl. now rewrite upd_chan_id.
Qed.

Lemma chan_seek_position_keeps offset type ch :
  let ch' := (chan_seek_position offset type ch).2 in
  ch_read_script ch' = ch_read_script ch /\ ch_flags ch' = ch_flags ch
  /\ ch_data ch' = ch_data ch.
Proof.
  unfold chan_seek_position.
  destruct (is_seekable _); [|now simpl].
  destruct (ch_seek_script ch) as [|[e|] rest]; now simpl.
Qed.

Lemma after_rewind_keeps m ch :
  ch_read_script (after_rewind m ch) = ch_read_script ch
  /\ ch_flags (after_rewind m ch) = ch_flags ch
  /\ ch_data (after_rewind m ch) = ch_data ch.
Proof.
  unfold after_rewind. destruct (rewind m); [|now simpl].
  apply chan_seek_position_keeps.
Qed.

Lemma rewind_if_needed_live w source m ch :
  channels w !! source = Some ch ->
  rewind_if_needed source m w =
    Returned tt (upd_chan source (after_rewind m ch) (errno w) w).
Proof.
  intros Hc. unfold rewind_if_needed, after_rewind.
  destruct (rewind m).
  - now rewrite (bind_Returned _ _ _ _ _ (seek_position_live _ _ _ _ _ Hc)).
  - unfold ret. now rewrite upd_chan_id.
Qed.

(** The chunk read loop when the first read raises an error: the loop ends,
    at once when the status is not "again", after a refused second call
    otherwise; the error and the [errno] of the first read are what the
    handler sees. *)
Lemma chunk_read_loop_error w source ch f rest count e :
  channels w !! source = Some ch -> ch_read_script ch = f :: rest ->
  f_error f = Some e ->
  chunk_read_loop chunk_read_fuel source count None w =
    Returned (mkRead (if bool_decide (f_status f = G_IO_STATUS_AGAIN)
                      then G_IO_STATUS_ERROR else f_status f)
                     None 0 (Some e))
             (upd_chan source (set_ch_read_script rest ch) (f_errno f) w).
Proof.
  intros Hc Hs He. unfold chunk_read_fuel. simpl.
  rewrite (bind_Returned _ _ _ _ _ (read_chars_fault _ _ _ _ _ _ Hc Hs)).
  simpl. rewrite He. simpl.
  destruct (bool_decide (f_status f = G_IO_STATUS_AGAIN)) eqn:E; simpl.
  - rewrite (bind_Returned _ _ _ _ _
               (read_chars_refused _ _ _ _ _ (upd_chan_lookup _ _ _ _))).
    reflexivity.
  - reflexivity.
Qed.

(** Two turns are all the chunk read loop can take. *)
Lemma chunk_read_loop_has_fuel w source count :
  chunk_read_loop chunk_read_fuel source count None w <> OutOfFuel.
Proof.
  unfold chunk_read_fuel. simpl. unfold bind at 1.
  unfold g_io_channel_read_chars at 1. unfold with_chan at 1.
  destruct (channels w !! source) as [ch|] eqn:Hc; [|discriminate].
  destruct (chan_read_chars count None (ch, errno w)) as [r [ch' eno]].
  destruct (bool_decide (r_status r = G_IO_STATUS_AGAIN)
            && negb (bool_decide (r_error r = None))) eqn:E; [|discriminate].
  apply andb_true_iff in E as [_ E]. apply negb_true_iff in E.
  apply bool_decide_eq_false in E.
  destruct (r_error r) as [e|]; [|congruence].
  fold (upd_chan source ch' eno w).
  rewrite (bind_Returned _ _ _ _ _
             (read_chars_refused _ _ _ count e (upd_chan_lookup _ _ _ _))).
  discriminate.
Qed.

(** The drain loop comes back on every channel, and touches nothing but
    the channel and [errno]. *)
Lemma seek_to_end_drain_returns fuel : forall c ch w,
  channels w !! c = Some ch ->
  (length (unread ch) < fuel)%nat ->
  exists ch' eno,
    seek_to_end_drain fuel c w = Returned tt (upd_chan c ch' eno w)
    /\ ch_flags ch' = ch_flags ch /\ ch_data ch' = ch_data ch
    /\ (ch_read_script ch = [] ->
        ch_read_script ch' = [] /\ unread ch' = []
        /\ (ch_pos ch <= ch_pos ch')%nat
        /\ (chan_wf ch -> chan_wf ch')).
Proof.
  induction fuel as [|n IH]; intros c ch w Hc Hlen; [lia|].
  simpl. unfold g_io_channel_read_chars.
  rewrite (bind_Returned _ _ _ _ _ (with_chan_live _ _ _ _ Hc)).
  unfold chan_read_chars.
  destruct (ch_read_script ch) as [|f rest] eqn:Hs.
  - destruct (take 1024 (unread ch)) as [|b bs] eqn:Ht.
    + simpl. exists ch, (errno w). repeat split; auto.
      apply (f_equal length) in Ht. rewrite length_take in Ht. simpl in Ht.
      destruct (unread ch); [reflexivity|simpl in Ht; lia].
    + cbn [fst snd r_bytes_read r_error length]. simpl.
      set (ch1 := set_ch_pos _ ch).
      assert (Hb : (length (b :: bs) <= length (unread ch))%nat).
      { rewrite <- Ht, length_take. lia. }
      assert (Hlen1 : (length (unread ch1) < n)%nat).
      { unfold unread, ch1 in *. simpl in *. rewrite length_drop in *. lia. }
      destruct (IH c ch1 (upd_chan c ch1 (errno w) w)
                   (upd_chan_lookup _ _ _ _) Hlen1)
        as (ch' & eno & Hrun & Hf & Hd & Hrest).
      exists ch', eno. rewrite Hrun, upd_chan_upd_chan.
      repeat split; auto;
        destruct (Hrest Hs) as (Hs' & Hu & Hpos & Hwf); auto.
      * unfold ch1 in Hpos. simpl in Hpos. lia.
      * intros Hwf0. apply Hwf. unfold chan_wf, ch1 in *. simpl.
        unfold unread in Hb. rewrite length_drop in Hb. simpl in Hb. lia.
  - simpl. exists (set_ch_read_script rest ch), (f_errno f).
    repeat split; auto; discriminate.
Qed.

Lemma mcs_io_monitor_seek_to_end_returns w p m ch :
  heap w !! p = Some m -> channels w !! iochan m = Some ch ->
  exists ch' eno,
    mcs_io_monitor_seek_to_end p w
    = Returned true (upd_chan (iochan m) ch' eno w)
    /\ ch_flags ch' = ch_flags ch /\ ch_data ch' = ch_data ch
    /\ (ch_read_script ch = [] -> chan_wf ch ->
        ch_read_script ch' = [] /\ unread ch' = [] /\ chan_wf ch').
Proof.
  intros Hp Hc. unfold mcs_io_monitor_seek_to_end.
  rewrite (bind_Returned _ _ _ _ _ (load_live _ _ _ Hp)).
  rewrite (bind_Returned _ _ _ _ _ (get_flags_live _ _ _ Hc)).
  assert (Hdrain : forall ch0 w0,
    channels w0 !! iochan m = Some ch0 ->
    exists ch' eno,
      seek_to_end_drain (S (length (unread ch0))) (iochan m) w0
      = Returned tt (upd_chan (iochan m) ch' eno w0)
      /\ ch_flags ch' = ch_flags ch0 /\ ch_data ch' = ch_data ch0
      /\ (ch_read_script ch0 = [] ->
          ch_read_script ch' = [] /\ unread ch' = []
          /\ (ch_pos ch0 <= ch_pos ch')%nat /\ (chan_wf ch0 -> chan_wf ch'))).
  { intros ch0 w0 H0. apply seek_to_end_drain_returns; [exact H0|lia]. }
  assert (Hend : forall ch0 : GIOChannel,
            unread (set_ch_pos (seek_target G_SEEK_END 0 ch0) ch0) = []
            /\ chan_wf (set_ch_pos (seek_target G_SEEK_END 0 ch0) ch0)).
  { intros ch0. unfold unread, chan_wf. simpl.
    rewrite Z.add_0_r, Nat2Z.id. split; [now rewrite drop_all|lia]. }
  unfold bind, ret, drain_fuel.
  destruct (is_seekable (ch_flags ch)) eqn:Hseek.
  - rewrite (seek_position_live _ _ _ 0 G_SEEK_END Hc).
    unfold chan_seek_position. rewrite Hseek.
    destruct (ch_seek_script ch) as [|[e|] rest] eqn:Hss; cbn [fst snd].
    + simpl. eexists _, _. split; [reflexivity|].
      destruct (Hend ch). simpl. repeat split; auto.
    + rewrite bool_decide_eq_false_2 by discriminate.
      cbn [negb]. cbv beta. rewrite upd_chan_lookup.
      destruct (Hdrain _ _ (upd_chan_lookup (iochan m)
                              (set_ch_seek_script rest ch) (errno w) w))
        as (ch' & eno & Hrun & Hf & Hd & Hrest).
      rewrite Hrun, upd_chan_upd_chan.
      exists ch', eno. repeat split; auto;
        destruct (Hrest H) as (?&?&?&?); auto.
    + simpl. eexists _, _. split; [reflexivity|].
      destruct (Hend (set_ch_seek_script rest ch)) as [Hu Hw].
      simpl. repeat split; auto.
  - simpl. rewrite Hc.
    destruct (Hdrain _ _ Hc) as (ch' & eno & Hrun & Hf & Hd & Hrest).
    rewrite Hrun.
    exists ch', eno. repeat split; auto;
      destruct (Hrest H) as (?&?&?&?); auto.
Qed.

(** ** The chunk read handler *)

(** *** The advance in closed form *)

Lemma at_end_id ch : chan_wf ch -> unread ch = [] -> at_end ch = ch.
Proof.
  unfold chan_wf, unread, at_end. intros Hwf Hu.
  apply (f_equal length) in Hu. rewrite length_drop in Hu. simpl in Hu.
  replace (length (ch_data ch)) with (ch_pos ch) by lia. now destruct ch.
Qed.

Lemma unread_at_end ch : unread (at_end ch) = [].
Proof. unfold unread, at_end. simpl. apply drop_all. Qed.

Lemma seek_to_end_drain_exact fuel : forall c ch w,
  channels w !! c = Some ch -> chan_wf ch ->
  (length (unread ch) < fuel)%nat ->
  seek_to_end_drain fuel c w
  = Returned tt (upd_chan c (after_drain ch)
                          (errno_after_drain ch (errno w)) w).
Proof.
  induction fuel as [|n IH]; intros c ch w Hc Hwf Hlen; [lia|].
  simpl. unfold g_io_channel_read_chars.
  rewrite (bind_Returned _ _ _ _ _ (with_chan_live _ _ _ _ Hc)).
  unfold chan_read_chars, after_drain, errno_after_drain.
  destruct (ch_read_script ch) as [|f rest] eqn:Hs; [|reflexivity].
  destruct (take 1024 (unread ch)) as [|b bs] eqn:Ht.
  - simpl. rewrite at_end_id; [reflexivity|exact Hwf|].
    apply (f_equal length) in Ht. rewrite length_take in Ht. simpl in Ht.
    destruct (unread ch); [reflexivity|simpl in Ht; lia].
  - cbn [fst snd r_bytes_read r_error length]. simpl.
    set (ch1 := set_ch_pos _ ch).
    assert (Hb : (length (b :: bs) <= length (unread ch))%nat).
    { rewrite <- Ht, length_take. lia. }
    assert (Hwf1 : chan_wf ch1).
    { unfold chan_wf, ch1 in *. simpl.
      unfold unread in Hb. rewrite length_drop in Hb. simpl in Hb. lia. }
    assert (Hlen1 : (length (unread ch1) < n)%nat).
    { unfold unread, ch1 in *. simpl in *. rewrite length_drop in *. lia. }
    rewrite (IH c ch1 (upd_chan c ch1 (errno w) w)
                (upd_chan_lookup _ _ _ _) Hwf1 Hlen1).
    rewrite upd_chan_upd_chan.
    unfold after_drain, errno_after_drain.
    change (ch_read_script ch1) with (ch_read_script ch). rewrite Hs.
    reflexivity.
Qed.

Lemma mcs_io_monitor_seek_to_end_exact w p m ch :
  heap w !! p = Some m -> channels w !! iochan m = Some ch -> chan_wf ch ->
  mcs_io_monitor_seek_to_end p w
  = Returned true (upd_chan (iochan m) (after_advance ch)
                            (errno_after_advance ch (errno w)) w).
Proof.
  intros Hp Hc Hwf. unfold mcs_io_monitor_seek_to_end.
  rewrite (bind_Returned _ _ _ _ _ (load_live _ _ _ Hp)).
  rewrite (bind_Returned _ _ _ _ _ (get_flags_live _ _ _ Hc)).
  unfold after_advance, errno_after_advance.
  unfold bind, ret, drain_fuel.
  destruct (is_seekable (ch_flags ch)) eqn:Hseek.
  - rewrite (seek_position_live _ _ _ 0 G_SEEK_END Hc).
    unfold chan_seek_position. rewrite Hseek.
    destruct (ch_seek_script ch) as [|[e|] rest] eqn:Hss; cbn [fst snd].
    + rewrite bool_decide_eq_true_2 by reflexivity. cbn [negb].
      unfold seek_target, at_end. now rewrite Z.add_0_r, Nat2Z.id.
    + rewrite bool_decide_eq_false_2 by discriminate. cbn [negb].
      rewrite upd_chan_lookup.
      rewrite (seek_to_end_drain_exact _ _ (set_ch_seek_script rest ch) _
                 (upd_chan_lookup _ _ _ _) Hwf)
        by (change (unread (set_ch_seek_script rest ch)) with (unread ch);
            lia).
      now rewrite upd_chan_upd_chan.
    + rewrite bool_decide_eq_true_2 by reflexivity. cbn [negb].
      unfold seek_target, at_end. simpl. now rewrite Z.add_0_r, Nat2Z.id.
  - cbn [negb]. rewrite Hc.
    rewrite (seek_to_end_drain_exact _ _ ch _ Hc Hwf) by lia.
    reflexivity.
Qed.

Lemma unread_after_advance ch :
  ch_read_script ch = [] -> unread (after_advance ch) = [].
Proof.
  intros Hs. unfold after_advance, after_drain.
  destruct (is_seekable (ch_flags ch)).
  - destruct (ch_seek_script ch) as [|[e|] rest];
      try apply unread_at_end.
    change (ch_read_script (set_ch_seek_script rest ch))
      with (ch_read_script ch).
    rewrite Hs. apply unread_at_end.
  - rewrite Hs. apply unread_at_end.
Qed.

Lemma chan_wf_after_rewind m ch : chan_wf ch -> chan_wf (after_rewind m ch).
Proof.
  unfold after_rewind, chan_seek_position, chan_wf.
  destruct (rewind m); [|auto].
  destruct (is_seekable _); [|auto].
  destruct (ch_seek_script ch) as [|[e|] rest]; simpl; intros; lia.
Qed.

(** C2: what the retry loop of the chunk handler does when the first read
    reports "try again" without an error: it performs that one read and
    leaves; the read is not reissued, the rest of the script and the data
    of the channel are untouched. *)
Theorem chunk_read_loop_leaves_on_again w source ch f rest count fuel
    (Hchan : channels w !! source = Some ch)
    (Hscript : ch_read_script ch = f :: rest)
    (Hagain : f_status f = G_IO_STATUS_AGAIN)
    (Hnoerr : f_error f = None) :
  chunk_read_loop (S fuel) source count None w =
    Returned (mkRead G_IO_STATUS_AGAIN None 0 None)
             (upd_chan source (set_ch_read_script rest ch) (f_errno f) w).
Proof.
  simpl.
  rewrite (bind_Returned _ _ _ _ _
             (read_chars_fault _ _ _ _ _ _ Hchan Hscript)).
  simpl. rewrite Hagain, Hnoerr. reflexivity.
Qed.

(** C3: a chunk read that raises an error, on the channel of a chunk
    monitor (binary and non-blocking, as the chunk constructor leaves it).
    When the error code is G_IO_CHANNEL_ERROR_FAILED and errno is ENODEV,
    the handler logs and runs the end-of-data advance, which leaves the
    channel as [after_advance] describes: the cursor at the end after a seek
    that succeeds, else what the drain loop leaves, that is nothing unread
    unless another fault is pending.  Then it calls the removal callback
    with the monitor's context, file name, handle and the error, and
    returns FALSE, whatever the error policy; a removal callback that is
    NULL is called all the same.  For every other error it logs, resets
    errno to 0 and returns TRUE: no callback is called and the watches
    stay. *)
Theorem io_chunk_cb_hard_error w p m source ch f rest e condition
    (Hlive : heap w !! p = Some m)
    (Hchan : channels w !! source = Some ch)
    (Hscript : ch_read_script ch = f :: rest)
    (Herror : f_error f = Some e) :
  let ch1 := set_ch_read_script rest (after_rewind m ch) in
  let w1 := emit (read_error_diagnostic m e)
              (upd_chan source ch1 (f_errno f)
                 (set_heap (<[p := set_latest_io_condition 0 m]> (heap w))
                           w)) in
  (code e = G_IO_CHANNEL_ERROR_FAILED -> f_errno f = ENODEV ->
   iochan m = source ->
   ch_binary ch = true -> never_blocks ch -> chan_wf ch ->
   let w2 := upd_chan source (after_advance ch1)
                      (errno_after_advance ch1 ENODEV) w1 in
   mcs_io_monitor_seek_to_end p w1 = Returned true w2
   /\ (rest = [] -> unread (after_advance ch1) = [])
   /\ trace w2 = trace w ++ [read_error_diagnostic m e]
   /\ sources w2 = sources w
   /\ (forall cb, remdev_callback m = Some cb ->
          io_chunk_cb source condition (Some p) w =
            (match cb with
             | Fn_handle_device_error_cb =>
                 handle_device_error_cb (remdev_data m) (file m) (Some p) e
             | Fn_remdev_extern _ => ret tt
             end ;;; ret false)
              (emit (EvRemdevCallback cb (remdev_data m) (file m) p e) w2))
   /\ (remdev_callback m = None ->
       io_chunk_cb source condition (Some p) w = Undefined))
  /\ (~ (code e = G_IO_CHANNEL_ERROR_FAILED /\ f_errno f = ENODEV) ->
      let w' := set_errno 0 w1 in
      io_chunk_cb source condition (Some p) w = Returned true w'
      /\ errno w' = 0
      /\ trace w' = trace w ++ [read_error_diagnostic m e]
      /\ sources w' = sources w
      /\ file_monitors w' = file_monitors w).
Proof.
  intros ch1 w1.
  set (m0 := set_latest_io_condition 0 m).
  set (w0 := set_heap (<[p := m0]> (heap w)) w).
  assert (Hp0 : heap w0 !! p = Some m0) by apply lookup_insert_eq.
  assert (Hc0 : channels w0 !! source = Some ch) by exact Hchan.
  destruct (after_rewind_keeps m0 ch) as (Hs1 & _ & _).
  assert (Hprefix : forall k : iomon_struct -> read_result -> M bool,
    (store p (set_latest_io_condition 0) ;;;
     iomon <- load p ;;
     rewind_if_needed source iomon ;;;
     r <- chunk_read_loop chunk_read_fuel source (chunk_size iomon) None ;;
     k iomon r) w
    = k m0 (mkRead (if bool_decide (f_status f = G_IO_STATUS_AGAIN)
                 then G_IO_STATUS_ERROR else f_status f) None 0 (Some e))
        (upd_chan source ch1 (f_errno f) w0)).
  { intros k.
    rewrite (bind_Returned _ _ _ _ _ (store_live _ _ _ _ Hlive)).
    fold m0 w0.
    rewrite (bind_Returned _ _ _ _ _ (load_live _ _ _ Hp0)).
    rewrite (bind_Returned _ _ _ _ _
               (rewind_if_needed_live _ _ m0 _ Hc0)).
    rewrite (bind_Returned _ _ _ _ _
               (chunk_read_loop_error _ _ _ f rest _ e
                  (upd_chan_lookup _ _ _ _)
                  (eq_trans Hs1 Hscript) Herror)).
    now rewrite upd_chan_upd_chan. }
  split.
  - intros Hcode Herrno Hio _ _ Hwf w2.
    assert (Hp1 : heap w1 !! p = Some m0) by apply lookup_insert_eq.
    assert (Hc1 : channels w1 !! iochan m0 = Some ch1).
    { simpl. rewrite Hio. apply lookup_insert_eq. }
    assert (Hwf1 : chan_wf ch1) by now apply (chan_wf_after_rewind m).
    assert (Hrun : mcs_io_monitor_seek_to_end p w1 = Returned true w2).
    { rewrite (mcs_io_monitor_seek_to_end_exact w1 p m0 ch1 Hp1 Hc1 Hwf1).
      change (iochan m0) with (iochan m). rewrite Hio.
      change (errno w1) with (f_errno f). rewrite Herrno.
      reflexivity. }
    assert (Hstart :
      io_chunk_cb source condition (Some p) w
      = (call_remdev_callback (remdev_callback m) (remdev_data m) (file m)
                              p e ;;; ret false) w2).
    { unfold io_chunk_cb. rewrite Hprefix.
      cbn [r_error]. unfold mce_log at 1. unfold modify at 1.
      unfold bind at 1.
      change (emit _ (upd_chan source _ (f_errno f) w0)) with w1.
      unfold bind at 1. unfold bind at 1. unfold get at 1. unfold ret at 1.
      replace (errno w1) with ENODEV by (symmetry; exact Herrno).
      rewrite Hcode.
      change ((G_IO_CHANNEL_ERROR_FAILED =? G_IO_CHANNEL_ERROR_FAILED)
              && (ENODEV =? ENODEV)) with true. cbv iota.
      now rewrite (bind_Returned _ _ _ _ _ Hrun). }
    split; [exact Hrun|].
    split; [intros ->; now apply unread_after_advance|].
    split; [reflexivity|]. split; [reflexivity|]. split.
    + intros cb Hcb. rewrite Hstart, Hcb.
      unfold call_remdev_callback. destruct cb; reflexivity.
    + intros Hcb. rewrite Hstart, Hcb. reflexivity.
  - intros Hother w'.
    split; [|repeat split].
    unfold io_chunk_cb. rewrite Hprefix.
    cbn [r_error]. unfold mce_log at 1. unfold modify at 1.
    unfold bind at 1.
    change (emit _ (upd_chan source _ (f_errno f) w0)) with w1.
    unfold bind at 1. unfold bind at 1. unfold get at 1. unfold ret at 1.
    change (errno w1) with (f_errno f).
    destruct ((code e =? G_IO_CHANNEL_ERROR_FAILED) && (f_errno f =? ENODEV))
      eqn:E.
    + apply andb_true_iff in E as [E1%Z.eqb_eq E2%Z.eqb_eq]. tauto.
    + reflexivity.
Qed.

Lemma chunk_read_loop_leaves_on_again_witness :
  chunk_read_loop chunk_read_fuel 3%nat 4%nat None Sample.starved =
    Returned (mkRead G_IO_STATUS_AGAIN None 0 None)
             (upd_chan 3%nat (Sample.pipe_chan "abcd") EAGAIN
                       Sample.starved).
Proof.
  exact (chunk_read_loop_leaves_on_again Sample.starved 3%nat
           (set_ch_read_script [Sample.try_again] (Sample.pipe_chan "abcd"))
           Sample.try_again [] 4%nat 1%nat eq_refl eq_refl eq_refl eq_refl).
Defined.

(** The handler on that world: four bytes are waiting behind the transient
    condition, yet the handler reports an empty read and delivers nothing. *)
Example io_chunk_cb_starved :
  exists w', io_chunk_cb 3%nat G_IO_IN (Some 7%nat) Sample.starved
             = Returned true w'
             /\ trace w' = [empty_read_diagnostic
                              (Sample.monitor IOMON_CHUNK
                                 MCE_IO_ERROR_POLICY_WARN 5 false)]
             /\ (unread <$> channels w' !! 3%nat) = Some (Sample.bytes "abcd").
Proof. eexists. split; [vm_compute; reflexivity|]. split; reflexivity. Qed.

(** A chunk monitor of an input device on which five bytes wait behind the
    failure: the advance reads them away before the removal callback is
    called. *)
Lemma io_chunk_cb_hard_error_witness :
  let m := mkIomon "/dev/input5" 3%nat 1%nat (Some (Fn_remdev_extern 9%nat))
                   0 4%nat 2%nat 1%nat 5 IOMON_CHUNK
                   MCE_IO_ERROR_POLICY_IGNORE 0 false false in
  let ch := set_ch_read_script [Sample.no_device] (Sample.device_chan "stale")
  in
  exists w',
    io_chunk_cb 3%nat G_IO_IN (Some 7%nat) (Sample.running m ch)
    = Returned false w'
    /\ (unread <$> channels w' !! 3%nat) = Some []
    /\ trace w'
       = [read_error_diagnostic m
            (mkGError G_IO_CHANNEL_ERROR_FAILED "No such device");
          EvRemdevCallback (Fn_remdev_extern 9%nat) 0 "/dev/input5" 7%nat
            (mkGError G_IO_CHANNEL_ERROR_FAILED "No such device")].
Proof.
  intros m ch.
  destruct (io_chunk_cb_hard_error (Sample.running m ch) 7%nat m 3%nat ch
              Sample.no_device [] _ G_IO_IN
              eq_refl eq_refl eq_refl eq_refl) as [Habsent _].
  destruct (Habsent eq_refl eq_refl eq_refl eq_refl
              (or_intror eq_refl) ltac:(unfold chan_wf; simpl; lia))
    as (_ & _ & _ & _ & Hcb & _).
  rewrite (Hcb _ eq_refl).
  eexists. split; [reflexivity|]. split; reflexivity.
Defined.

(** ** Registration *)

Lemma mce_register_io_monitor_open_failure w file error_policy callback
    remdev_callback remdev_data garbage :
  slice_next w = Some garbage ->
  fs w !! file = None ->
  mce_register_io_monitor (-1) (Some file) error_policy (Some callback)
                          remdev_callback remdev_data w
  = Returned None
      (if bool_decide (error_policy = MCE_IO_ERROR_POLICY_IGNORE) then w
       else emit (open_failure_diagnostic (-1) file) w).
Proof.
  intros Hslice Hopen. unfold mce_register_io_monitor, open_failure_diagnostic.
  unfold bind at 1. unfold g_slice_new. rewrite Hslice. cbv zeta.
  set (p := fresh (dom (heap w))).
  set (w1 := set_heap _ w).
  assert (Hp : heap w1 !! p = Some garbage) by apply lookup_insert_eq.
  unfold bind at 1. cbn [Z.eqb Pos.eqb negb].
  unfold bind at 1. unfold g_io_channel_new_file. unfold bind at 1.
  unfold get at 1. change (fs w1) with (fs w). rewrite Hopen.
  unfold ret at 1. cbn [fst snd].
  destruct (bool_decide (error_policy = MCE_IO_ERROR_POLICY_IGNORE));
    cbn [negb]; unfold bind, ret, mce_log, modify, g_slice_free; simpl;
    rewrite lookup_insert_eq; simpl;
    rewrite delete_insert_id by (apply not_elem_of_dom, is_fresh);
    now destruct w.
Qed.

Lemma opened_open w fd file ch :
  (if fd =? -1 then fs w !! file = Some ch else fds w !! fd = Some ch) ->
  opened fd file w = Some ch.
Proof. unfold opened. destruct (fd =? -1); [auto|]. now intros ->. Qed.

Lemma mce_register_io_monitor_success w fd file error_policy callback
    remdev_callback remdev_data garbage ch :
  slice_next w = Some garbage ->
  opened fd file w = Some ch ->
  let p := fresh (dom (heap w)) in
  let m := registered_monitor fd file error_policy callback remdev_callback
                              remdev_data garbage
                              (fresh (dom (channels w))) in
  mce_register_io_monitor fd (Some file) error_policy (Some callback)
                          remdev_callback remdev_data w
  = Returned (Some p) (registered_world p m ch w).
Proof.
  intros Hslice Hopen p m. unfold mce_register_io_monitor.
  unfold bind at 1. unfold g_slice_new. rewrite Hslice. cbv zeta. fold p.
  set (w1 := set_heap _ w).
  unfold bind at 1.
  assert (Hopened :
    (if negb (fd =? -1)
     then iochan <- g_io_channel_unix_new fd ;;
          match iochan with
          | Some c => ret (Some c)
          | None =>
              (if negb (bool_decide
                          (error_policy = MCE_IO_ERROR_POLICY_IGNORE))
               then mce_log LL_ERR "Failed to open `%s'" [ArgS file]
               else ret tt) ;;; ret None
          end
     else res <- g_io_channel_new_file file ;;
          match res.1 with
          | Some c => ret (Some c)
          | None =>
              (if negb (bool_decide
                          (error_policy = MCE_IO_ERROR_POLICY_IGNORE))
               then match res.2 with
                    | Some error =>
                        mce_log LL_ERR "Failed to open `%s'; %s"
                                [ArgS file; ArgS (message error)]
                    | None => undefined
                    end
               else ret tt) ;;; ret None
          end) w1
    = Returned (Some (fresh (dom (channels w))))
               (set_channels (<[fresh (dom (channels w)) := ch]> (channels w))
                             w1)).
  { unfold opened in Hopen. destruct (fd =? -1); cbn [negb];
      unfold bind, g_io_channel_unix_new, g_io_channel_new_file, get, bind,
        new_channel, ret;
      [change (fs w1) with (fs w); rewrite Hopen; reflexivity|].
      change (fds w1) with (fds w). now injection Hopen as ->. }
  rewrite Hopened. clear Hopened.
  unfold bind, store, modify, ret. simpl.
  rewrite lookup_insert_eq. simpl. rewrite lookup_insert_eq. simpl.
  rewrite !insert_insert_eq. reflexivity.
Qed.

Lemma is_seekable_testbit flags : is_seekable flags = Z.testbit flags 4.
Proof.
  unfold is_seekable, G_IO_FLAG_IS_SEEKABLE.
  apply eq_true_iff_eq. rewrite Z.eqb_eq. split.
  - intros H. apply (f_equal (fun z => Z.testbit z 4)) in H.
    rewrite Z.land_spec in H. now apply andb_true_iff in H as [H _].
  - intros H. apply Z.bits_inj'. intros n Hn.
    rewrite Z.land_spec. change 16 with (2 ^ 4).
    rewrite Z.pow2_bits_eqb by lia.
    destruct (Z.eqb_spec 4 n) as [<-|Hne]; [now rewrite H|apply andb_false_r].
Qed.

Lemma is_seekable_set_flags flags new :
  is_seekable (Z.lor (Z.land flags (Z.lnot G_IO_FLAG_SET_MASK))
                     (Z.land new G_IO_FLAG_SET_MASK))
  = is_seekable flags.
Proof.
  rewrite !is_seekable_testbit, Z.lor_spec, !Z.land_spec.
  rewrite Z.lnot_spec by lia.
  change (Z.testbit G_IO_FLAG_SET_MASK 4) with false.
  now rewrite andb_true_r, andb_false_r, orb_false_r.
Qed.

Lemma set_rewind_policy_live w p m ch file rewind_policy :
  heap w !! p = Some m -> channels w !! iochan m = Some ch ->
  set_rewind_policy p (Some file) rewind_policy w =
    Returned tt
      (if is_seekable (ch_flags ch) then
         set_heap (<[p := set_rewind rewind_policy m]> (heap w)) w
       else if rewind_policy then
         set_heap (<[p := set_rewind false m]> (heap w))
                  (emit (rewind_diagnostic file) w)
       else w).
Proof.
  intros Hp Hc. unfold set_rewind_policy.
  rewrite (bind_Returned _ _ _ _ _ (load_live _ _ _ Hp)).
  rewrite (bind_Returned _ _ _ _ _ (get_flags_live _ _ _ Hc)).
  destruct (is_seekable (ch_flags ch)); [now apply store_live|].
  destruct rewind_policy; [|reflexivity].
  unfold bind, mce_log, modify.
  now rewrite (store_live p _ m (emit _ w) Hp).
Qed.

Lemma mce_resume_io_monitor_live w p m ch :
  heap w !! p = Some m -> suspended m = true -> type m <> IOMON_UNSET ->
  channels w !! iochan m = Some ch ->
  exists ch' eno eid did,
    mce_resume_io_monitor (Some p) w
    = Returned tt (resumed_world p m ch' eno eid did w)
    /\ eid <> did /\ sources w !! eid = None /\ sources w !! did = None
    /\ ch_flags ch' = ch_flags ch /\ ch_data ch' = ch_data ch
    /\ (rewind m = true -> ch' = ch)
    /\ (rewind m = false -> ch_read_script ch = [] -> chan_wf ch ->
        ch_read_script ch' = [] /\ unread ch' = [] /\ chan_wf ch').
Proof.
  intros Hp Hsusp Htype Hc. unfold mce_resume_io_monitor.
  rewrite (bind_Returned _ _ _ _ _ (load_live _ _ _ Hp)).
  rewrite Hsusp. cbn [negb].
  assert (Hwatch : forall ch' eno,
    let w1 := upd_chan (iochan m) ch' eno w in
    let eid := fresh (dom (sources w)) in
    let did := fresh (dom (<[eid := mkSource (iochan m)
                                     (Z.lor G_IO_HUP G_IO_NVAL)
                                     Fn_io_error_cb p]> (sources w))) in
    (eid <- g_io_add_watch (iochan m) (Z.lor G_IO_HUP G_IO_NVAL)
                           Fn_io_error_cb p ;;
     did <- g_io_add_watch (iochan m)
                           (Z.lor (Z.lor G_IO_IN G_IO_PRI) G_IO_ERR)
                           (read_handler_of (type m)) p ;;
     store p (fun m => set_suspended false (set_source_ids did eid m))) w1
    = Returned tt (resumed_world p m ch' eno eid did w)
    /\ eid <> did /\ sources w !! eid = None /\ sources w !! did = None).
  { intros ch' eno w1 eid did.
    assert (He : sources w !! eid = None)
      by apply not_elem_of_dom, is_fresh.
    assert (Hd : <[eid := mkSource (iochan m) (Z.lor G_IO_HUP G_IO_NVAL)
                            Fn_io_error_cb p]> (sources w) !! did = None)
      by apply not_elem_of_dom, is_fresh.
    assert (Hne : eid <> did).
    { intros E. rewrite <- E, lookup_insert_eq in Hd. discriminate. }
    rewrite lookup_insert_ne in Hd by exact Hne.
    split; [|auto].
    unfold bind, g_io_add_watch, store. simpl. now rewrite Hp. }
  destruct (type m) eqn:Ht; [congruence| |];
    destruct (rewind m) eqn:Hrw; cbn [negb];
    try (destruct (Hwatch ch (errno w)) as (Hrun & Hne & He & Hd);
         rewrite upd_chan_id in Hrun by exact Hc;
         exists ch, (errno w); eexists _, _;
         unfold bind at 1; unfold ret at 1;
         split; [exact Hrun|];
         repeat split; auto; discriminate);
    destruct (mcs_io_monitor_seek_to_end_returns w p m ch Hp Hc)
      as (ch' & eno & Hseek & Hf & Hdat & Hrest);
    destruct (Hwatch ch' eno) as (Hrun & Hne & He & Hd);
    exists ch', eno; eexists _, _;
    unfold bind at 1;
    rewrite (bind_Returned _ _ _ _ _ Hseek); unfold ret at 1;
    (split; [exact Hrun|]);
    repeat split; auto; try discriminate;
    destruct (Hrest H0 H1) as (?&?&?); auto.
Qed.

(** The last steps of both constructors: set the type, resume. *)
Lemma constructor_tail w p m ch t :
  heap w !! p = Some m -> suspended m = true ->
  channels w !! iochan m = Some ch -> t <> IOMON_UNSET ->
  exists w' m' ch',
    (store p (set_type t) ;;;
     mce_resume_io_monitor (Some p) ;;; ret (Some p)) w
    = Returned (Some p) w'
    /\ heap w' !! p = Some m'
    /\ rewind m' = rewind m /\ type m' = t /\ suspended m' = false
    /\ iochan m' = iochan m /\ chunk_size m' = chunk_size m
    /\ channels w' !! iochan m = Some ch'
    /\ ch_flags ch' = ch_flags ch /\ ch_data ch' = ch_data ch
    /\ trace w' = trace w /\ file_monitors w' = file_monitors w
    /\ (rewind m = false -> ch_read_script ch = [] -> chan_wf ch ->
        ch_read_script ch' = [] /\ unread ch' = [] /\ chan_wf ch').
Proof.
  intros Hp Hsusp Hc Ht.
  rewrite (bind_Returned _ _ _ _ _ (store_live _ _ _ _ Hp)).
  set (w1 := set_heap _ w).
  assert (Hp1 : heap w1 !! p = Some (set_type t m)) by apply lookup_insert_eq.
  destruct (mce_resume_io_monitor_live w1 p (set_type t m) ch Hp1 Hsusp Ht Hc)
    as (ch' & eno & eid & did & Hrun & _ & _ & _ & Hf & Hd & _ & Hrest).
  rewrite (bind_Returned _ _ _ _ _ Hrun).
  eexists _, _, ch'. split; [reflexivity|].
  split; [apply lookup_insert_eq|].
  repeat split; auto.
  - apply upd_chan_lookup.
  - now destruct (Hrest H H0 H1).
  - now destruct (Hrest H H0 H1) as (_ & ? & _).
  - now destruct (Hrest H H0 H1) as (_ & _ & ?).
Qed.

(** C8, as the code has it: a monitor that either constructor produces has
    its rewind flag set only if the channel is seekable; a request for
    rewind on a channel that is not seekable leaves the flag FALSE and logs
    one diagnostic, at level LL_ERR, and this is the only thing the
    constructor logs. *)
Theorem constructors_check_rewind w fd file error_policy rewind_policy
    callback size0 remdev_callback remdev_data garbage ch
    (Hslice : slice_next w = Some garbage)
    (Hopen : if fd =? -1 then fs w !! file = Some ch
             else fds w !! fd = Some ch) :
  let produced (t : iomon_type) (size : nat) (r : outcome (option iomon_ptr))
    := exists p w' m' ch',
         r = Returned (Some p) w'
         /\ heap w' !! p = Some m'
         /\ type m' = t /\ chunk_size m' = size /\ suspended m' = false
         /\ channels w' !! iochan m' = Some ch'
         /\ is_seekable (ch_flags ch') = is_seekable (ch_flags ch)
         /\ rewind m' = is_seekable (ch_flags ch) && rewind_policy
         /\ (rewind m' = true -> is_seekable (ch_flags ch') = true)
         /\ trace w' = trace w ++
                       (if negb (is_seekable (ch_flags ch)) && rewind_policy
                        then [rewind_diagnostic file] else []) in
  produced IOMON_STRING 0%nat
    (mce_register_io_monitor_string fd (Some file) error_policy rewind_policy
       (Some callback) remdev_callback remdev_data w)
  /\ produced IOMON_CHUNK size0
       (mce_register_io_monitor_chunk fd (Some file) error_policy
          rewind_policy (Some callback) size0 remdev_callback
          remdev_data w).
Proof.
  intros produced.
  pose proof (mce_register_io_monitor_success w fd file error_policy callback
                remdev_callback remdev_data garbage ch Hslice
                (opened_open _ _ _ _ Hopen)) as Hreg.
  cbv zeta in Hreg.
  set (p := fresh (dom (heap w))) in *.
  set (c := fresh (dom (channels w))) in *.
  set (m1 := registered_monitor _ _ _ _ _ _ _ c) in *.
  set (w1 := registered_world p m1 ch w) in *.
  assert (Hp1 : heap w1 !! p = Some m1) by apply lookup_insert_eq.
  assert (Hc1 : channels w1 !! c = Some ch) by apply lookup_insert_eq.
  split; unfold produced.
  - unfold mce_register_io_monitor_string.
    rewrite (bind_Returned _ _ _ _ _ Hreg).
    rewrite (bind_Returned _ _ _ _ _
               (set_rewind_policy_live w1 p m1 ch file rewind_policy Hp1 Hc1)).
    set (w2 := if is_seekable (ch_flags ch) then _ else _).
    set (m2 := set_rewind (is_seekable (ch_flags ch) && rewind_policy) m1).
    assert (H2 : heap w2 !! p = Some m2
                 /\ channels w2 !! iochan m2 = Some ch
                 /\ trace w2 = trace w ++
                      (if negb (is_seekable (ch_flags ch)) && rewind_policy
                       then [rewind_diagnostic file] else [])).
    { unfold w2, m2. destruct (is_seekable (ch_flags ch)); simpl;
        [rewrite lookup_insert_eq, app_nil_r; auto|].
      destruct rewind_policy; simpl;
        [rewrite lookup_insert_eq; auto|rewrite app_nil_r; auto]. }
    destruct H2 as (Hp2 & Hc2 & Ht2).
    destruct (constructor_tail w2 p m2 ch IOMON_STRING Hp2 eq_refl Hc2
                ltac:(discriminate))
      as (w' & m' & ch' & Hrun & Hp' & Hrw & Hty & Hsu & Hio & Hsz & Hc'
          & Hf & _ & Ht' & _).
    exists p, w', m', ch'. rewrite Hio.
    repeat split; auto; try congruence.
    rewrite Hrw, Hf. simpl. now intros [? _]%andb_true_iff.
  - unfold mce_register_io_monitor_chunk.
    rewrite (bind_Returned _ _ _ _ _ Hreg).
    rewrite (bind_Returned _ _ _ _ _ (store_live _ _ _ _ Hp1)).
    set (m1' := set_chunk_size size0 m1).
    set (w1' := set_heap _ w1).
    assert (Hp1' : heap w1' !! p = Some m1') by apply lookup_insert_eq.
    rewrite (bind_Returned _ _ _ _ _
               (set_rewind_policy_live w1' p m1' ch file rewind_policy
                  Hp1' Hc1)).
    set (w2 := if is_seekable (ch_flags ch) then _ else _).
    set (m2 := set_rewind (is_seekable (ch_flags ch) && rewind_policy) m1').
    assert (H2 : heap w2 !! p = Some m2
                 /\ channels w2 !! iochan m2 = Some ch
                 /\ trace w2 = trace w ++
                      (if negb (is_seekable (ch_flags ch)) && rewind_policy
                       then [rewind_diagnostic file] else [])).
    { unfold w2, m2. destruct (is_seekable (ch_flags ch)); simpl;
        [rewrite lookup_insert_eq, app_nil_r; auto|].
      destruct rewind_policy; simpl;
        [rewrite lookup_insert_eq; auto|rewrite app_nil_r; auto]. }
    destruct H2 as (Hp2 & Hc2 & Ht2).
    rewrite (bind_Returned _ _ _ _ _ (load_live _ _ _ Hp2)).
    unfold g_io_channel_set_encoding_NULL at 1.
    rewrite (bind_Returned _ _ _ _ _ (with_chan_live _ _ _ _ Hc2)).
    cbn [fst snd].
    unfold g_io_channel_set_flags at 1.
    rewrite (bind_Returned _ _ _ _ _
               (with_chan_live _ _ _ _ (upd_chan_lookup _ _ _ _))).
    cbn [fst snd]. rewrite upd_chan_upd_chan.
    set (ch2 := set_ch_flags _ _).
    set (w3 := upd_chan _ ch2 _ w2).
    assert (Hp3 : heap w3 !! p = Some m2) by exact Hp2.
    assert (Hc3 : channels w3 !! iochan m2 = Some ch2)
      by apply upd_chan_lookup.
    destruct (constructor_tail w3 p m2 ch2 IOMON_CHUNK Hp3 eq_refl Hc3
                ltac:(discriminate))
      as (w' & m' & ch' & Hrun & Hp' & Hrw & Hty & Hsu & Hio & Hsz & Hc'
          & Hf & _ & Ht' & _).
    assert (Hseek : is_seekable (ch_flags ch') = is_seekable (ch_flags ch)).
    { rewrite Hf. unfold ch2. simpl. apply is_seekable_set_flags. }
    exists p, w', m', ch'. rewrite Hio.
    repeat split; auto; try congruence; try (rewrite Ht'; exact Ht2).
    rewrite Hrw, Hseek. simpl. now intros [? _]%andb_true_iff.
Qed.

Lemma constructors_check_rewind_witness :
  exists p w' m',
    mce_register_io_monitor_chunk 5 (Some "/dev/input5")
      MCE_IO_ERROR_POLICY_WARN true (Some 1%nat) 4%nat
      (Some Fn_handle_device_error_cb) 0 Sample.boot
    = Returned (Some p) w'
    /\ heap w' !! p = Some m' /\ rewind m' = false
    /\ trace w' = [rewind_diagnostic "/dev/input5"].
Proof.
  destruct (constructors_check_rewind Sample.boot 5 "/dev/input5"
              MCE_IO_ERROR_POLICY_WARN true 1%nat 4%nat
              (Some Fn_handle_device_error_cb) 0 Sample.garbage
              (Sample.pipe_chan "stale") eq_refl eq_refl)
    as (_ & p & w' & m' & ch' & Hrun & Hp & _ & _ & _ & _ & _ & Hrw & _ & Ht).
  exists p, w', m'. repeat split; assumption.
Defined.

(** C8, as the claim words it, fails on the level of the diagnostic: the
    constructor called with rewind on a pipe logs no warning at all; its one
    diagnostic has level LL_ERR. *)
Lemma rewind_diagnostic_is_no_warning :
  exists p w',
    mce_register_io_monitor_chunk 5 (Some "/dev/input5")
      MCE_IO_ERROR_POLICY_WARN true (Some 1%nat) 4%nat
      (Some Fn_handle_device_error_cb) 0 Sample.boot
    = Returned (Some p) w'
    /\ (rewind <$> heap w' !! p) = Some false
    /\ trace w' = [rewind_diagnostic "/dev/input5"]
    /\ count_level LL_ERR (trace w') = 1%nat
    /\ count_level LL_WARN (trace w') <> 1%nat.
Proof.
  eexists _, _. split; [vm_compute; reflexivity|].
  repeat split; try reflexivity. vm_compute. discriminate.
Qed.

(** ** Teardown *)

Lemma mce_suspend_io_monitor_live w p m :
  heap w !! p = Some m ->
  mce_suspend_io_monitor (Some p) w =
    Returned tt
      (if suspended m then w
       else set_heap (<[p := set_suspended true m]> (heap w))
              (set_sources (delete (error_source_id m)
                              (delete (data_source_id m) (sources w))) w)).
Proof.
  intros Hp. unfold mce_suspend_io_monitor.
  rewrite (bind_Returned _ _ _ _ _ (load_live _ _ _ Hp)).
  destruct (suspended m); [reflexivity|].
  unfold bind, g_source_remove, modify, store. simpl. now rewrite Hp.
Qed.

(** Unregistering a live monitor whose channel is live. *)
Lemma mce_unregister_io_monitor_live w p m ch :
  heap w !! p = Some m ->
  channels w !! iochan m = Some ch ->
  (fd m = -1 -> shutdown_ok ch) ->
  exists w',
    mce_unregister_io_monitor (Some p) w = Returned tt w'
    /\ file_monitors w' = g_slist_remove (file_monitors w) p
    /\ heap w' = delete p (heap w)
    /\ channels w' = delete (iochan m) (channels w)
    /\ sources w' = (if suspended m then sources w
                     else delete (error_source_id m)
                            (delete (data_source_id m) (sources w)))
    /\ (fd m = -1 -> fds w' = fds w)
    /\ (fd m <> -1 ->
        fds w' !! fd m = None
        /\ trace w' =
           trace w
           ++ (if (length (file_monitors w)
                   =? length (g_slist_remove (file_monitors w) p))%nat
               then [not_registered_diagnostic] else [])
           ++ [EvUnref (iochan m)]
           ++ (match fds w !! fd m with
               | Some _ => [EvClose (fd m) 0]
               | None => [EvClose (fd m) (-1);
                          close_failure_diagnostic (fd m) EBADF]
               end)).
Proof.
  intros Hlive Hchan Hshut.
  unfold mce_unregister_io_monitor.
  unfold bind at 1. unfold get at 1.
  unfold bind at 1. unfold modify at 1.
  set (w1 := match file_monitors w with [] => w | _ => _ end).
  assert (H1 : file_monitors w1 = g_slist_remove (file_monitors w) p
               /\ heap w1 = heap w /\ channels w1 = channels w
               /\ sources w1 = sources w /\ fds w1 = fds w
               /\ trace w1 = trace w).
  { unfold w1. destruct (file_monitors w) eqn:E; simpl; rewrite ?E; auto 10. }
  destruct H1 as (Hfm1 & Hh1 & Hc1 & Hs1 & Hf1 & Ht1).
  unfold bind at 1. unfold get at 1. rewrite Hfm1.
  set (warn := (length (file_monitors w) =? _)%nat).
  set (w2 := if warn then emit not_registered_diagnostic w1 else w1).
  assert (Hlog : (if warn
                  then mce_log LL_WARN
                         "Trying to unregister non-existing file monitor" []
                  else ret tt) w1 = Returned tt w2)
    by (unfold w2; now destruct warn).
  rewrite (bind_Returned _ _ _ _ _ Hlog).
  assert (H2 : file_monitors w2 = g_slist_remove (file_monitors w) p
               /\ heap w2 = heap w /\ channels w2 = channels w
               /\ sources w2 = sources w /\ fds w2 = fds w
               /\ trace w2
                  = trace w ++ (if warn then [not_registered_diagnostic]
                                else [])).
  { unfold w2. destruct warn; simpl; rewrite ?app_nil_r; auto 10.
    repeat split; auto. now rewrite Ht1. }
  destruct H2 as (Hfm2 & Hh2 & Hc2 & Hs2 & Hf2 & Ht2).
  assert (Hp2 : heap w2 !! p = Some m) by now rewrite Hh2.
  rewrite (bind_Returned _ _ _ _ _ (mce_suspend_io_monitor_live _ _ _ Hp2)).
  set (m3 := if suspended m then m else set_suspended true m).
  set (w3 := if suspended m then w2 else _).
  assert (H3 : file_monitors w3 = g_slist_remove (file_monitors w) p
               /\ heap w3 = <[p := m3]> (heap w)
               /\ channels w3 = channels w
               /\ sources w3 = (if suspended m then sources w
                                else delete (error_source_id m)
                                       (delete (data_source_id m) (sources w)))
               /\ fds w3 = fds w
               /\ trace w3 = trace w2).
  { unfold w3, m3. destruct (suspended m); simpl;
      rewrite ?Hs2, ?Hh2; repeat split; auto.
    now rewrite insert_id. }
  destruct H3 as (Hfm3 & Hh3 & Hc3 & Hs3 & Hf3 & Ht3).
  assert (Hp3 : heap w3 !! p = Some m3)
    by (rewrite Hh3; apply lookup_insert_eq).
  assert (Hm3 : fd m3 = fd m /\ iochan m3 = iochan m)
    by (unfold m3; now destruct (suspended m)).
  destruct Hm3 as (Hfd3 & Hio3).
  rewrite (bind_Returned _ _ _ _ _ (load_live _ _ _ Hp3)).
  rewrite Hfd3, Hio3.
  destruct (Z.eqb_spec (fd m) (-1)) as [Hfd|Hfd]; cbn [negb].
  - (* the channel was opened from the path: shut it down *)
    assert (Hsd : exists w4,
      (res <- g_io_channel_shutdown (iochan m) ;;
       if bool_decide (res.1 = G_IO_STATUS_NORMAL) then ret tt
       else
         match res.2 with
         | None => undefined
         | Some error =>
             eno <- (w <- get ;; ret (errno w)) ;;
             let loglevel :=
               if (code error =? G_IO_CHANNEL_ERROR_FAILED) && (eno =? ENODEV)
               then LL_DEBUG else LL_ERR in
             mce_log loglevel "Cannot close `%s'; %s"
                     [ArgS (file m3); ArgS (message error)]
         end) w3 = Returned tt w4
      /\ file_monitors w4 = file_monitors w3 /\ heap w4 = heap w3
      /\ channels w4 = channels w3 /\ sources w4 = sources w3
      /\ fds w4 = fds w3).
    { unfold bind at 1. unfold g_io_channel_shutdown. rewrite Hc3, Hchan.
      specialize (Hshut Hfd). unfold shutdown_ok in Hshut.
      destruct (ch_shutdown_fault ch) as [f|]; cbn [fst snd].
      - destruct (bool_decide (f_status f = G_IO_STATUS_NORMAL)) eqn:E.
        + eexists. split; [reflexivity|now simpl].
        + destruct Hshut as [Hn|[e He]];
            [apply bool_decide_eq_false in E; contradiction|].
          rewrite He. eexists. split; [reflexivity|now simpl].
      - eexists. split; [reflexivity|now simpl]. }
    destruct Hsd as (w4 & Hrun4 & Hfm4 & Hh4 & Hc4 & Hs4 & Hf4).
    rewrite (bind_Returned _ _ _ _ _ Hrun4).
    unfold bind at 1. unfold g_io_channel_unref at 1.
    rewrite Hc4, Hc3, Hchan.
    unfold bind at 1. unfold ret at 1. unfold g_slice_free.
    cbn [heap emit set_channels]. rewrite Hh4, Hp3.
    eexists. split; [reflexivity|].
    cbn [fds trace file_monitors heap channels sources emit
         set_fds set_heap set_channels].
    rewrite ?Hf4, ?Hf3, ?Hh4, ?Hh3, ?Hc4, ?Hc3, ?Hfm4, ?Hfm3, ?Hs4, ?Hs3.
    repeat split; auto; try contradiction.
    apply delete_insert_eq.
  - (* the descriptor was supplied: no shutdown, close() on it *)
    unfold ret at 1. unfold bind at 1.
    unfold bind at 1. unfold g_io_channel_unref at 1.
    rewrite Hc3, Hchan.
    set (w4 := emit (EvUnref (iochan m)) _).
    unfold bind at 1. unfold bind at 1. unfold close at 1.
    change (fds w4) with (fds w3). rewrite Hf3.
    destruct (fds w !! fd m) as [chfd|] eqn:Hopen.
    + cbn [Z.ltb Z.compare]. unfold ret at 1. unfold g_slice_free.
      change (heap (emit _ (set_fds _ w4))) with (heap w3).
      eexists. split; [rewrite Hp3; reflexivity|].
      unfold w4. cbn [fds trace file_monitors heap channels sources emit
                      set_fds set_heap set_channels].
      rewrite ?Hf3, ?Ht3, ?Ht2, ?Hh3, ?Hc3, ?Hfm3, ?Hs3, <- ?app_assoc.
      repeat split; auto; try contradiction.
      * apply delete_insert_eq.
      * apply lookup_delete_eq.
    + cbn [Z.ltb Z.compare]. unfold bind, get, ret, mce_log, modify.
      unfold g_slice_free.
      change (heap (emit _ (emit _ (set_errno _ w4)))) with (heap w3).
      eexists. split; [rewrite Hp3; reflexivity|].
      unfold w4. cbn [fds trace file_monitors heap channels sources emit
                      set_fds set_heap set_channels set_errno errno].
      rewrite ?Hf3, ?Ht3, ?Ht2, ?Hh3, ?Hc3, ?Hfm3, ?Hs3, <- ?app_assoc.
      repeat split; auto; try contradiction.
      apply delete_insert_eq.
Qed.

(** C1, as the code has it: unregistering a monitor that was registered
    with a descriptor of the caller does not shut the channel down, but it
    does close the descriptor: after dropping the channel it calls close()
    on the descriptor, which is no longer open when the call returns (and
    logs an error if close fails).  The monitor is unlinked from the list,
    its watches are removed and its block is freed. *)
Theorem unregister_closes_descriptor w p m ch
    (Hlive : heap w !! p = Some m)
    (Hfd : fd m <> -1)
    (Hchan : channels w !! iochan m = Some ch) :
  exists w',
    mce_unregister_io_monitor (Some p) w = Returned tt w'
    /\ fds w' !! fd m = None
    /\ trace w' =
       trace w
       ++ (if (length (file_monitors w)
               =? length (g_slist_remove (file_monitors w) p))%nat
           then [not_registered_diagnostic] else [])
       ++ [EvUnref (iochan m)]
       ++ (match fds w !! fd m with
           | Some _ => [EvClose (fd m) 0]
           | None => [EvClose (fd m) (-1);
                      close_failure_diagnostic (fd m) EBADF]
           end)
    /\ file_monitors w' = g_slist_remove (file_monitors w) p
    /\ heap w' = delete p (heap w)
    /\ channels w' = delete (iochan m) (channels w)
    /\ sources w' = (if suspended m then sources w
                     else delete (error_source_id m)
                            (delete (data_source_id m) (sources w))).
Proof.
  destruct (mce_unregister_io_monitor_live w p m ch Hlive Hchan
              ltac:(intros; contradiction))
    as (w' & Hrun & Hfm & Hh & Hc & Hs & _ & Hclose).
  destruct (Hclose Hfd) as (Hfds & Ht).
  exists w'. repeat split; assumption.
Qed.

Lemma unregister_closes_descriptor_witness :
  exists w',
    mce_unregister_io_monitor (Some 7%nat)
      (Sample.running
         (Sample.monitor IOMON_CHUNK MCE_IO_ERROR_POLICY_WARN 5 false)
         (Sample.pipe_chan "")) = Returned tt w'
    /\ fds w' !! 5 = None.
Proof.
  destruct (unregister_closes_descriptor
              (Sample.running
                 (Sample.monitor IOMON_CHUNK MCE_IO_ERROR_POLICY_WARN 5 false)
                 (Sample.pipe_chan ""))
              7%nat
              (Sample.monitor IOMON_CHUNK MCE_IO_ERROR_POLICY_WARN 5 false)
              (Sample.pipe_chan "") eq_refl ltac:(discriminate) eq_refl)
    as (w' & Hrun & Hclosed & _).
  exists w'. split; assumption.
Defined.

(** C1, as the claim words it, fails: a monitor is registered on the
    caller's open descriptor 5 and then unregistered; the engine has called
    close(5) and the descriptor is no longer open. *)
Lemma unregister_closes_the_callers_descriptor :
  exists p w1 w2,
    mce_register_io_monitor_string 5 (Some "/dev/input5")
      MCE_IO_ERROR_POLICY_WARN false (Some 1%nat)
      (Some Fn_handle_device_error_cb) 0 Sample.boot = Returned (Some p) w1
    /\ (fd <$> heap w1 !! p) = Some 5
    /\ is_Some (fds w1 !! 5)
    /\ mce_unregister_io_monitor (Some p) w1 = Returned tt w2
    /\ fds w2 !! 5 = None
    /\ EvClose 5 0 ∈ trace w2.
Proof.
  eexists _, _, _. split; [vm_compute; reflexivity|].
  split; [reflexivity|]. split; [now eexists|].
  split; [vm_compute; reflexivity|]. split; [reflexivity|].
  apply list_elem_of_In. vm_compute. tauto.
Qed.

(** ** The line read handler and the main loop *)

Lemma read_line_fault w c ch f rest :
  channels w !! c = Some ch -> ch_read_script ch = f :: rest ->
  g_io_channel_read_line c w =
    Returned (mkRead (f_status f) None 0 (f_error f))
             (upd_chan c (set_ch_read_script rest ch) (f_errno f) w).
Proof.
  intros Hc Hs. unfold g_io_channel_read_line.
  rewrite (with_chan_live _ _ _ _ Hc). simpl. now rewrite Hs.
Qed.

Lemma after_rewind_shutdown_fault m ch :
  ch_shutdown_fault (after_rewind m ch) = ch_shutdown_fault ch.
Proof.
  unfold after_rewind, chan_seek_position.
  destruct (rewind m); [|reflexivity].
  destruct (is_seekable _); [|reflexivity].
  now destruct (ch_seek_script ch) as [|[e|] rest].
Qed.

(** A readiness notification, and a run of the main loop, on a world where
    no watch is bound to [p]: no data callback is delivered for [p] and no
    watch is added. *)
Lemma dispatch_quiet p id condition w :
  no_watch_for p w ->
  match dispatch id condition w with
  | Returned _ w' | Exited _ w' => quiet_for p w w'
  | Undefined | OutOfFuel => True
  end.
Proof.
  intros Hnw. unfold dispatch. unfold bind at 1. unfold get at 1.
  destruct (sources w !! id) as [s|] eqn:Hs; [|apply frame_refl].
  assert (Hne : src_data s <> p) by exact (Hnw id s Hs).
  assert (Hrun : respects (quiet_for p)
                   (run_GIOFunc (src_func s) (src_chan s) condition
                                (src_data s))).
  { destruct (src_func s); unfold run_GIOFunc.
    - now apply (respects_io_string_cb (R := quiet_for p)).
    - now apply (respects_io_chunk_cb (R := quiet_for p)).
    - now apply (respects_io_error_cb (R := quiet_for p)). }
  assert (Hall : respects (quiet_for p)
                   (keep <- run_GIOFunc (src_func s) (src_chan s) condition
                                        (src_data s) ;;
                    if (keep : bool) then ret tt else g_source_remove id))
    by frame.
  exact (Hall w).
Qed.

Lemma no_watch_for_quiet p w w' :
  no_watch_for p w -> quiet_for p w w' -> no_watch_for p w'.
Proof.
  intros Hnw [Hsub _] id s Hs. apply (Hnw id s).
  eapply lookup_weaken; eassumption.
Qed.

Lemma main_loop_quiet p evs : forall w,
  no_watch_for p w ->
  match main_loop evs w with
  | Returned _ w' | Exited _ w' => quiet_for p w w'
  | Undefined | OutOfFuel => True
  end.
Proof.
  induction evs as [|[id condition] evs IH]; intros w Hnw; simpl.
  - apply frame_refl.
  - unfold bind. pose proof (dispatch_quiet p id condition w Hnw) as Hd.
    destruct (dispatch id condition w) as [[] w1|st w1| |]; auto.
    specialize (IH w1 (no_watch_for_quiet _ _ _ Hnw Hd)).
    destruct (main_loop evs w1); auto; eapply frame_trans; eassumption.
Qed.

(** C9: a line read that raises an error.  The handler logs, calls the
    removal callback once with the monitor's context, file name, handle and
    the error, and returns FALSE, so that its watch is not rescheduled;
    whatever the callback does is housekeeping, no further callback.  When
    the callback is the one of the camera module, which unregisters the
    handle, the monitor is gone afterwards together with its watches, and
    no run of the main loop delivers a data callback for it again. *)
Theorem io_string_cb_hard_error w p m source ch f rest e condition cb
    (Hlive : heap w !! p = Some m)
    (Hchan : channels w !! source = Some ch)
    (Hscript : ch_read_script ch = f :: rest)
    (Herror : f_error f = Some e)
    (Hcb : remdev_callback m = Some cb) :
  let called := [read_error_diagnostic m e;
                 EvRemdevCallback cb (remdev_data m) (file m) p e] in
  (forall r w',
     io_string_cb source condition (Some p) w = Returned r w' ->
     r = false
     /\ exists evs, trace w' = trace w ++ called ++ evs
                    /\ Forall housekeeping evs)
  /\ (forall a, cb = Fn_remdev_extern a ->
      exists w', io_string_cb source condition (Some p) w = Returned false w'
                 /\ trace w' = trace w ++ called
                 /\ sources w' = sources w)
  /\ (cb = Fn_handle_device_error_cb ->
      iochan m = source -> suspended m = false ->
      (fd m = -1 -> shutdown_ok ch) ->
      (forall id s, sources w !! id = Some s -> src_data s = p ->
                    id = data_source_id m \/ id = error_source_id m) ->
      exists w',
        io_string_cb source condition (Some p) w = Returned false w'
        /\ heap w' !! p = None
        /\ file_monitors w' = g_slist_remove (file_monitors w) p
        /\ no_watch_for p w'
        /\ forall evs,
             match main_loop evs w' with
             | Returned _ w'' | Exited _ w'' =>
                 forall cb' pl n, EvCallback cb' p pl n ∈ trace w'' ->
                                  EvCallback cb' p pl n ∈ trace w'
             | Undefined | OutOfFuel => True
             end).
Proof.
  intros called.
  set (m0 := set_latest_io_condition 0 m).
  set (w0 := set_heap (<[p := m0]> (heap w)) w).
  set (ch1 := set_ch_read_script rest (after_rewind m ch)).
  set (w1 := emit (read_error_diagnostic m e)
                  (upd_chan source ch1 (f_errno f) w0)).
  set (w2 := emit (EvRemdevCallback cb (remdev_data m) (file m) p e) w1).
  assert (Hp0 : heap w0 !! p = Some m0) by apply lookup_insert_eq.
  destruct (after_rewind_keeps m0 ch) as (Hs1 & _ & _).
  pose (body := match cb with
                | Fn_handle_device_error_cb =>
                    handle_device_error_cb (remdev_data m) (file m) (Some p) e
                | Fn_remdev_extern _ => ret tt
                end).
  assert (Hstep :
    io_string_cb source condition (Some p) w = (body ;;; ret false) w2).
  { unfold body, io_string_cb.
    rewrite (bind_Returned _ _ _ _ _ (store_live _ _ _ _ Hlive)).
    fold m0 w0.
    rewrite (bind_Returned _ _ _ _ _ (load_live _ _ _ Hp0)).
    rewrite (bind_Returned _ _ _ _ _
               (rewind_if_needed_live w0 _ m0 _ Hchan)).
    rewrite (bind_Returned _ _ _ _ _
               (read_line_fault _ _ _ f rest (upd_chan_lookup _ _ _ _)
                  (eq_trans Hs1 Hscript))).
    rewrite upd_chan_upd_chan. cbn [r_error]. rewrite Herror.
    unfold mce_log at 1. unfold modify at 1. unfold bind at 1.
    change (remdev_callback m0) with (remdev_callback m). rewrite Hcb.
    unfold call_remdev_callback. destruct cb; reflexivity. }
  assert (Ht2 : trace w2 = trace w ++ called)
    by (unfold w2, w1, called; simpl; now rewrite <- app_assoc).
  split; [|split].
  - intros r w' Hrun. rewrite Hstep in Hrun.
    assert (Hquiet : respects no_callbacks body).
    { unfold body. destruct cb; [|apply respects_ret].
      unfold handle_device_error_cb.
      now apply respects_mce_unregister_io_monitor. }
    unfold bind in Hrun. specialize (Hquiet w2).
    destruct (body w2) as [[] w3| | |]; try discriminate.
    injection Hrun as <- <-. split; [reflexivity|].
    destruct Hquiet as (evs & Hevs & Hhk). exists evs.
    split; [|exact Hhk]. now rewrite Hevs, Ht2, <- app_assoc.
  - intros a ->. exists w2.
    split; [exact Hstep|]. split; [exact Ht2|reflexivity].
  - intros -> Hio Hsusp Hshut Honly.
    assert (Hp2 : heap w2 !! p = Some m0) by apply lookup_insert_eq.
    assert (Hc2 : channels w2 !! iochan m0 = Some ch1).
    { simpl. rewrite Hio. apply lookup_insert_eq. }
    assert (Hshut2 : fd m0 = -1 -> shutdown_ok ch1).
    { intros Hfd. unfold shutdown_ok, ch1. simpl.
      rewrite after_rewind_shutdown_fault. now apply Hshut. }
    destruct (mce_unregister_io_monitor_live w2 p m0 ch1 Hp2 Hc2 Hshut2)
      as (w' & Hrun & Hfm & Hh & Hc & Hs & _).
    assert (Hnw : no_watch_for p w').
    { intros id s Hlook Hdata. rewrite Hs in Hlook.
      change (suspended m0) with (suspended m) in Hlook.
      rewrite Hsusp in Hlook.
      apply lookup_delete_Some in Hlook as [Hne1 Hlook].
      apply lookup_delete_Some in Hlook as [Hne2 Hlook].
      destruct (Honly id s Hlook Hdata); simpl in *; congruence. }
    exists w'. split; [|split; [|split; [|split]]].
    + rewrite Hstep. unfold body, handle_device_error_cb.
      now rewrite (bind_Returned _ _ _ _ _ Hrun).
    + rewrite Hh. apply lookup_delete_eq.
    + exact Hfm.
    + exact Hnw.
    + intros evs. pose proof (main_loop_quiet p evs w' Hnw) as Hq.
      destruct (main_loop evs w'); auto; apply Hq.
Qed.

Lemma io_string_cb_hard_error_witness :
  exists w',
    io_string_cb 3%nat G_IO_IN (Some 7%nat) Sample.broken = Returned false w'
    /\ heap w' !! 7%nat = None
    /\ no_watch_for 7%nat w'.
Proof.
  destruct (io_string_cb_hard_error Sample.broken 7%nat
              (Sample.monitor IOMON_STRING MCE_IO_ERROR_POLICY_IGNORE (-1) true)
              3%nat
              (set_ch_read_script [Sample.io_error] (Sample.file_chan "on"))
              Sample.io_error [] _ G_IO_IN Fn_handle_device_error_cb
              eq_refl eq_refl eq_refl eq_refl eq_refl) as (_ & _ & Hunreg).
  destruct (Hunreg eq_refl eq_refl eq_refl)
    as (w' & Hrun & Hgone & _ & Hnw & _).
  - intros _. exact I.
  - intros id s Hs _.
    destruct (decide (id = 1%nat)) as [->|H1]; [now right|].
    destruct (decide (id = 2%nat)) as [->|H2]; [now left|].
    exfalso. unfold Sample.broken, Sample.running in Hs. cbn [sources] in Hs.
    rewrite lookup_insert_ne in Hs by congruence.
    rewrite lookup_singleton_ne in Hs by congruence. discriminate.
  - exists w'. repeat split; assumption.
Defined.

(** ** Positioning at the end of the data *)


(** Without a pending fault the first read of the chunk loop raises no
    error, and the loop leaves with its result. *)
Lemma chunk_read_loop_fault_free w source ch count :
  channels w !! source = Some ch -> ch_read_script ch = [] ->
  let res := chan_read_chars count None (ch, errno w) in
  chunk_read_loop chunk_read_fuel source count None w
  = Returned res.1 (upd_chan source res.2.1 res.2.2 w).
Proof.
  intros Hc Hs res. unfold chunk_read_fuel. simpl.
  unfold g_io_channel_read_chars at 1.
  rewrite (bind_Returned _ _ _ _ _ (with_chan_live _ _ _ w Hc)).
  fold res.
  assert (Hnone : r_error res.1 = None).
  { unfold res, chan_read_chars. rewrite Hs.
    now destruct (take count (unread ch)). }
  rewrite Hnone. rewrite (bool_decide_eq_true_2 (None = None)) by reflexivity.
  now rewrite andb_false_r.
Qed.



Lemma delivery_same_monitor m m' p payload :
  callback m' = callback m -> file m' = file m ->
  delivery m' p payload = delivery m p payload.
Proof.
  intros Hcb Hf. unfold delivery, empty_read_diagnostic.
  destruct payload; now rewrite ?Hcb, ?Hf.
Qed.

(** *** Records of text *)

Lemma take_line_text l rest :
  text_record l -> take_line (l ++ rest) = l.
Proof.
  intros (body & -> & Hbody). induction body as [|b body IH]; simpl.
  - now destruct (decide (Byte.x0a = Byte.x0a)).
  - simpl in Hbody. apply andb_true_iff in Hbody as [Hb Hbody].
    unfold text_byte in Hb.
    apply andb_true_iff in Hb as [Hb _].
    apply andb_true_iff in Hb as [_ Hb].
    apply negb_true_iff, bool_decide_eq_false in Hb.
    destruct (decide (b = Byte.x0a)); [contradiction|].
    now rewrite IH.
Qed.

Lemma strlen_text l : text_record l -> strlen l = length l.
Proof.
  intros (body & -> & Hbody). induction body as [|b body IH]; simpl.
  - now destruct (decide (Byte.x0a = Byte.x00)).
  - simpl in Hbody. apply andb_true_iff in Hbody as [Hb Hbody].
    unfold text_byte in Hb.
    apply andb_true_iff in Hb as [Hb _].
    apply andb_true_iff in Hb as [Hb _].
    apply andb_true_iff in Hb as [_ Hb].
    apply negb_true_iff, bool_decide_eq_false in Hb.
    destruct (decide (b = Byte.x00)); [contradiction|].
    now rewrite IH.
Qed.

Lemma first_line_text l rest :
  text_record l -> first_line (l ++ rest) = l.
Proof.
  intros Hl. unfold first_line.
  rewrite (take_line_text l rest Hl), (strlen_text l Hl).
  destruct Hl as (body & -> & _). rewrite length_app. simpl.
  now rewrite Nat.add_1_r.
Qed.

Lemma delivery_text m p l :
  text_record l -> delivery m p l = EvCallback (callback m) p l (length l).
Proof. intros (body & -> & _). now destruct body. Qed.




(** ** Worked examples *)

(** A line monitor with rewind on a sysfs file: every notification rereads
    the file from the start and delivers its first line, newline
    included. *)
Example line_monitor_rereads :
  exists p w,
    (p <- mce_register_io_monitor_string (-1) (Some "/sys/cam")
            MCE_IO_ERROR_POLICY_IGNORE true (Some 1%nat)
            (Some Fn_handle_device_error_cb) 0 ;;
     main_loop [(1%nat, G_IO_IN); (1%nat, G_IO_IN)] ;;;
     ret p)
      (mkWorld [] ∅ (Some Sample.garbage) ∅ ∅ ∅
               {[ "/sys/cam" := Sample.file_chan "active
" ]} 0 [])
    = Returned (Some p) w
    /\ trace w = [EvCallback 1%nat p (Sample.bytes "active
") 7;
                  EvCallback 1%nat p (Sample.bytes "active
") 7].
Proof. eexists _, _. split; [vm_compute; reflexivity|reflexivity]. Qed.

(** A chunk monitor with chunk size 4 on a pipe, rewind off: the two bytes
    present at registration are skipped, the six bytes that arrive later
    are delivered in chunks of at most four. *)
Example chunk_monitor_tails :
  exists p w,
    (p <- mce_register_io_monitor_chunk 5 (Some "/dev/input5")
            MCE_IO_ERROR_POLICY_WARN false (Some 1%nat) 4%nat
            (Some Fn_handle_device_error_cb) 0 ;;
     modify (external_write 0%nat (Sample.bytes "abcdef")) ;;;
     main_loop [(1%nat, G_IO_IN); (1%nat, G_IO_IN)] ;;;
     ret p)
      (set_fds {[ 5 := Sample.pipe_chan "zz" ]} Sample.boot)
    = Returned (Some p) w
    /\ trace w = [EvCallback 1%nat p (Sample.bytes "abcd") 4;
                  EvCallback 1%nat p (Sample.bytes "ef") 2].
Proof. eexists _, _. split; [vm_compute; reflexivity|reflexivity]. Qed.

(** * Further properties of the engine *)

(** ** Suspend and resume *)

(** X1: suspending a live monitor that is active removes its data watch and
    its error watch, marks it suspended and touches nothing else;
    suspending a monitor that is already suspended changes nothing, so a
    second suspend is a no-op. *)
Theorem suspend_is_idempotent w p m
    (Hlive : heap w !! p = Some m) :
  exists w',
    mce_suspend_io_monitor (Some p) w = Returned tt w'
    /\ (suspended m = true -> w' = w)
    /\ (suspended m = false ->
        sources w' = delete (error_source_id m)
                       (delete (data_source_id m) (sources w))
        /\ heap w' = <[p := set_suspended true m]> (heap w)
        /\ file_monitors w' = file_monitors w
        /\ channels w' = channels w /\ fds w' = fds w
        /\ trace w' = trace w)
    /\ mce_suspend_io_monitor (Some p) w' = Returned tt w'.
Proof.
  rewrite (mce_suspend_io_monitor_live w p m Hlive).
  destruct (suspended m) eqn:Hs.
  - exists w. split; [reflexivity|]. split; [reflexivity|].
    split; [discriminate|].
    rewrite (mce_suspend_io_monitor_live w p m Hlive). now rewrite Hs.
  - eexists. split; [reflexivity|]. split; [discriminate|].
    split; [intros _; repeat split|].
    erewrite mce_suspend_io_monitor_live by apply lookup_insert_eq.
    reflexivity.
Qed.

Lemma suspend_is_idempotent_witness :
  exists w',
    mce_suspend_io_monitor (Some 7%nat)
      (Sample.running
         (Sample.monitor IOMON_CHUNK MCE_IO_ERROR_POLICY_WARN 5 false)
         (Sample.pipe_chan "")) = Returned tt w'
    /\ mce_suspend_io_monitor (Some 7%nat) w' = Returned tt w'.
Proof.
  destruct (suspend_is_idempotent
              (Sample.running
                 (Sample.monitor IOMON_CHUNK MCE_IO_ERROR_POLICY_WARN 5 false)
                 (Sample.pipe_chan ""))
              7%nat
              (Sample.monitor IOMON_CHUNK MCE_IO_ERROR_POLICY_WARN 5 false)
              eq_refl) as (w' & Hrun & _ & _ & Hagain).
  exists w'. split; assumption.
Defined.





(** X4: once an active monitor has been suspended, and provided the only
    watches bound to it were the two its block names, no sequence of
    notifications of the main loop makes the engine call a data callback
    for it: every data callback for the monitor found in the trace
    afterwards was already there before. *)
Theorem suspended_monitor_is_silent w p m evs
    (Hlive : heap w !! p = Some m)
    (Hactive : suspended m = false)
    (Hown : only_own_watches p m w) :
  exists w1,
    mce_suspend_io_monitor (Some p) w = Returned tt w1
    /\ no_watch_for p w1
    /\ match main_loop evs w1 with
       | Returned _ w' | Exited _ w' =>
           forall cb pl n, EvCallback cb p pl n ∈ trace w' ->
                           EvCallback cb p pl n ∈ trace w
       | Undefined | OutOfFuel => True
       end.
Proof.
  rewrite (mce_suspend_io_monitor_live w p m Hlive), Hactive.
  eexists. split; [reflexivity|].
  match goal with |- no_watch_for p ?x /\ _ => set (w1 := x) end.
  assert (Hnw : no_watch_for p w1).
  { intros id s Hs Hp. unfold w1 in Hs. cbn in Hs.
    apply lookup_delete_Some in Hs as [Hne1 Hs].
    apply lookup_delete_Some in Hs as [Hne2 Hs].
    destruct (Hown id s Hs Hp); congruence. }
  split; [exact Hnw|].
  pose proof (main_loop_quiet p evs w1 Hnw) as Hq.
  destruct (main_loop evs w1); auto; apply Hq.
Qed.

Lemma suspended_monitor_is_silent_witness :
  exists w1,
    mce_suspend_io_monitor (Some 7%nat)
      (Sample.running
         (Sample.monitor IOMON_STRING MCE_IO_ERROR_POLICY_WARN 5 false)
         (Sample.pipe_chan "open")) = Returned tt w1
    /\ no_watch_for 7%nat w1.
Proof.
  destruct (suspended_monitor_is_silent
              (Sample.running
                 (Sample.monitor IOMON_STRING MCE_IO_ERROR_POLICY_WARN 5 false)
                 (Sample.pipe_chan "open"))
              7%nat
              (Sample.monitor IOMON_STRING MCE_IO_ERROR_POLICY_WARN 5 false)
              [(2%nat, G_IO_IN); (1%nat, G_IO_HUP)]
              eq_refl eq_refl) as (w1 & Hrun & Hnw & _).
  - intros id s Hs _. cbn [Sample.running sources] in Hs.
    destruct (decide (id = 1%nat)) as [->|H1]; [now right|].
    destruct (decide (id = 2%nat)) as [->|H2]; [now left|].
    rewrite lookup_insert_ne, lookup_singleton_ne in Hs by congruence.
    discriminate.
  - exists w1. split; assumption.
Defined.

(** ** The registry *)

Lemma g_slist_remove_notin l p : p ∉ l -> g_slist_remove l p = l.
Proof.
  induction l as [|x l IH]; intros Hp; simpl; [reflexivity|].
  apply not_elem_of_cons in Hp as [Hne Hp].
  destruct (decide (x = p)); [congruence|]. now rewrite IH.
Qed.

Lemma g_slist_remove_first l1 l2 p :
  p ∉ l1 -> g_slist_remove (l1 ++ p :: l2) p = l1 ++ l2.
Proof.
  induction l1 as [|x l1 IH]; intros Hp; simpl.
  - now destruct (decide (p = p)).
  - apply not_elem_of_cons in Hp as [Hne Hp].
    destruct (decide (x = p)); [congruence|]. now rewrite IH.
Qed.

Lemma g_slist_remove_length_in l p :
  p ∈ l -> S (length (g_slist_remove l p)) = length l.
Proof.
  induction l as [|x l IH]; intros Hp; simpl.
  - now apply elem_of_nil in Hp.
  - destruct (decide (x = p)); [reflexivity|].
    apply elem_of_cons in Hp as [?|Hp]; [congruence|].
    simpl. now rewrite IH.
Qed.

Lemma g_slist_remove_warns l p :
  (length l =? length (g_slist_remove l p))%nat = bool_decide (p ∉ l).
Proof.
  destruct (decide (p ∈ l)) as [Hin|Hnin].
  - rewrite bool_decide_eq_false_2 by tauto.
    apply Nat.eqb_neq. pose proof (g_slist_remove_length_in l p Hin). lia.
  - rewrite bool_decide_eq_true_2 by exact Hnin.
    rewrite g_slist_remove_notin by exact Hnin. apply Nat.eqb_refl.
Qed.

Lemma elem_of_g_slist_remove_ne l p q :
  q <> p -> q ∈ g_slist_remove l p <-> q ∈ l.
Proof.
  intros Hne. induction l as [|x l IH]; simpl; [reflexivity|].
  destruct (decide (x = p)) as [->|Hx].
  - rewrite elem_of_cons. tauto.
  - rewrite !elem_of_cons, IH. reflexivity.
Qed.

Lemma elem_of_g_slist_remove l p q :
  q ∈ g_slist_remove l p -> q ∈ l.
Proof.
  induction l as [|x l IH]; simpl; [auto|].
  destruct (decide (x = p)); rewrite ?elem_of_cons; intuition.
Qed.

Lemma NoDup_g_slist_remove l p :
  NoDup l -> NoDup (g_slist_remove l p) /\ p ∉ g_slist_remove l p.
Proof.
  induction 1 as [|x l Hx Hl IH]; simpl.
  - split; [constructor | apply not_elem_of_nil].
  - destruct (decide (x = p)) as [->|Hne]; [split; assumption|].
    destruct IH as [IH1 IH2]. split.
    + constructor; [|exact IH1].
      intros Hin. apply Hx. eapply elem_of_g_slist_remove, Hin.
    + rewrite elem_of_cons. intros [?|?]; [congruence|contradiction].
Qed.

(** ** Teardown of a monitor whose channel the engine opened itself *)

Lemma mce_unregister_io_monitor_path w p m ch :
  heap w !! p = Some m ->
  channels w !! iochan m = Some ch ->
  fd m = -1 -> shutdown_ok ch ->
  exists w',
    mce_unregister_io_monitor (Some p) w = Returned tt w'
    /\ trace w' =
       trace w
       ++ (if bool_decide (p ∉ file_monitors w)
           then [not_registered_diagnostic] else [])
       ++ [EvShutdown (iochan m)]
       ++ shutdown_diagnostic m ch
       ++ [EvUnref (iochan m)]
    /\ errno w' = match ch_shutdown_fault ch with
                  | Some f => f_errno f
                  | None => errno w
                  end.
Proof.
  intros Hlive Hchan Hfd Hshut.
  unfold mce_unregister_io_monitor.
  unfold bind at 1. unfold get at 1.
  unfold bind at 1. unfold modify at 1.
  set (w1 := match file_monitors w with [] => w | _ => _ end).
  assert (H1 : file_monitors w1 = g_slist_remove (file_monitors w) p
               /\ heap w1 = heap w /\ channels w1 = channels w
               /\ errno w1 = errno w /\ trace w1 = trace w).
  { unfold w1. destruct (file_monitors w) eqn:E; simpl; rewrite ?E; auto 10. }
  destruct H1 as (Hfm1 & Hh1 & Hc1 & He1 & Ht1).
  unfold bind at 1. unfold get at 1. rewrite Hfm1, g_slist_remove_warns.
  set (warn := bool_decide _).
  set (w2 := if warn then emit not_registered_diagnostic w1 else w1).
  assert (Hlog : (if warn
                  then mce_log LL_WARN
                         "Trying to unregister non-existing file monitor" []
                  else ret tt) w1 = Returned tt w2)
    by (unfold w2; now destruct warn).
  rewrite (bind_Returned _ _ _ _ _ Hlog).
  assert (H2 : heap w2 = heap w /\ channels w2 = channels w
               /\ errno w2 = errno w
               /\ trace w2
                  = trace w ++ (if warn then [not_registered_diagnostic]
                                else [])).
  { unfold w2. destruct warn; simpl; rewrite ?app_nil_r; auto 10.
    repeat split; auto. now rewrite Ht1. }
  destruct H2 as (Hh2 & Hc2 & He2 & Ht2).
  assert (Hp2 : heap w2 !! p = Some m) by now rewrite Hh2.
  rewrite (bind_Returned _ _ _ _ _ (mce_suspend_io_monitor_live _ _ _ Hp2)).
  set (m3 := if suspended m then m else set_suspended true m).
  set (w3 := if suspended m then w2 else _).
  assert (H3 : heap w3 = <[p := m3]> (heap w)
               /\ channels w3 = channels w
               /\ errno w3 = errno w
               /\ trace w3 = trace w2).
  { unfold w3, m3. destruct (suspended m); simpl;
      rewrite ?Hh2; repeat split; auto.
    now rewrite insert_id. }
  destruct H3 as (Hh3 & Hc3 & He3 & Ht3).
  assert (Hp3 : heap w3 !! p = Some m3)
    by (rewrite Hh3; apply lookup_insert_eq).
  assert (Hm3 : fd m3 = fd m /\ iochan m3 = iochan m /\ file m3 = file m)
    by (unfold m3; now destruct (suspended m)).
  destruct Hm3 as (Hfd3 & Hio3 & Hfile3).
  rewrite (bind_Returned _ _ _ _ _ (load_live _ _ _ Hp3)).
  rewrite Hfd3, Hio3, Hfile3, Hfd. cbn [Z.eqb Pos.eqb negb].
  unfold bind at 1. unfold bind at 1. unfold g_io_channel_shutdown.
  rewrite Hc3, Hchan. unfold shutdown_diagnostic.
  unfold shutdown_ok in Hshut.
  destruct (ch_shutdown_fault ch) as [f|]; cbn [fst snd].
  - set (w4 := set_errno (f_errno f) (emit (EvShutdown (iochan m)) w3)).
    destruct (bool_decide (f_status f = G_IO_STATUS_NORMAL)) eqn:E.
    + unfold ret at 1. unfold bind at 1. unfold g_io_channel_unref at 1.
      change (channels w4) with (channels w3). rewrite Hc3, Hchan.
      unfold bind at 1, ret at 1. unfold g_slice_free.
      change (heap (emit _ (set_channels _ w4))) with (heap w3). rewrite Hp3.
      eexists. split; [reflexivity|].
      cbn [trace errno emit set_heap set_channels set_errno w4].
      rewrite Ht3, Ht2, <- !app_assoc. now split.
    + destruct Hshut as [Hn|[e He]];
        [apply bool_decide_eq_false in E; contradiction|].
      rewrite He. unfold bind at 1. unfold bind at 1, get at 1, ret at 1.
      change (errno w4) with (f_errno f). unfold mce_log, modify.
      unfold bind at 1. unfold g_io_channel_unref at 1.
      change (channels (emit _ w4)) with (channels w3). rewrite Hc3, Hchan.
      unfold bind at 1, ret at 1. unfold g_slice_free.
      change (heap (emit _ (set_channels _ (emit _ w4)))) with (heap w3).
      rewrite Hp3.
      eexists. split; [reflexivity|].
      cbn [trace errno emit set_heap set_channels set_errno w4].
      rewrite Ht3, Ht2, <- !app_assoc. now split.
  - rewrite bool_decide_eq_true_2 by reflexivity.
    unfold ret at 1. unfold bind at 1. unfold g_io_channel_unref at 1.
    change (channels (emit _ w3)) with (channels w3). rewrite Hc3, Hchan.
    unfold bind at 1, ret at 1. unfold g_slice_free.
    change (heap (emit _ (set_channels _ (emit _ w3)))) with (heap w3).
    rewrite Hp3.
    eexists. split; [reflexivity|].
    cbn [trace errno emit set_heap set_channels set_errno].
    rewrite Ht3, Ht2, He3, <- !app_assoc. now split.
Qed.

(** X5: unregistering a monitor whose channel the engine opened from the
    path (descriptor -1) shuts the channel down and drops it, and never
    calls close(): the descriptor table is untouched and the events added
    are the shutdown, its diagnostic if it failed (at debug level when the
    device is gone, error level otherwise) and the unref, after the warning
    for a handle that is not in the list.  errno is what the shutdown left. *)
Theorem unregister_shuts_down_own_channel w p m ch
    (Hlive : heap w !! p = Some m)
    (Hchan : channels w !! iochan m = Some ch)
    (Hfd : fd m = -1)
    (Hshut : shutdown_ok ch) :
  exists w',
    mce_unregister_io_monitor (Some p) w = Returned tt w'
    /\ trace w' =
       trace w
       ++ (if bool_decide (p ∉ file_monitors w)
           then [not_registered_diagnostic] else [])
       ++ [EvShutdown (iochan m)]
       ++ shutdown_diagnostic m ch
       ++ [EvUnref (iochan m)]
    /\ fds w' = fds w
    /\ channels w' = delete (iochan m) (channels w)
    /\ heap w' = delete p (heap w)
    /\ (forall d r, EvClose d r ∈ trace w' -> EvClose d r ∈ trace w).
Proof.
  destruct (mce_unregister_io_monitor_path w p m ch Hlive Hchan Hfd Hshut)
    as (w' & Hrun & Htr & _).
  destruct (mce_unregister_io_monitor_live w p m ch Hlive Hchan
              (fun _ => Hshut))
    as (w'' & Hrun' & _ & Hh & Hc & _ & Hf & _).
  rewrite Hrun in Hrun'. injection Hrun' as <-.
  exists w'. split; [exact Hrun|]. split; [exact Htr|].
  split; [exact (Hf Hfd)|]. split; [exact Hc|]. split; [exact Hh|].
  intros d r. rewrite Htr, !elem_of_app.
  intros [H|[H|[H|[H|H]]]]; [exact H|exfalso..].
  - destruct (bool_decide _); [apply list_elem_of_singleton in H|
                               apply elem_of_nil in H]; [discriminate|easy].
  - apply list_elem_of_singleton in H. discriminate.
  - unfold shutdown_diagnostic in H.
    destruct (ch_shutdown_fault ch) as [f|]; [|now apply elem_of_nil in H].
    destruct (bool_decide (f_status f = _)); [now apply elem_of_nil in H|].
    destruct (f_error f); [|now apply elem_of_nil in H].
    apply list_elem_of_singleton in H. discriminate.
  - apply list_elem_of_singleton in H. discriminate.
Qed.

Lemma unregister_shuts_down_own_channel_witness :
  exists w',
    mce_unregister_io_monitor (Some 7%nat)
      (Sample.running
         (Sample.monitor IOMON_STRING MCE_IO_ERROR_POLICY_IGNORE (-1) true)
         (Sample.file_chan "1")) = Returned tt w'
    /\ trace w' = [EvShutdown 3%nat; EvUnref 3%nat].
Proof.
  destruct (unregister_shuts_down_own_channel
              (Sample.running
                 (Sample.monitor IOMON_STRING MCE_IO_ERROR_POLICY_IGNORE
                                 (-1) true)
                 (Sample.file_chan "1"))
              7%nat
              (Sample.monitor IOMON_STRING MCE_IO_ERROR_POLICY_IGNORE (-1) true)
              (Sample.file_chan "1")
              eq_refl eq_refl eq_refl I) as (w' & Hrun & Htr & _).
  exists w'. split; [exact Hrun | exact Htr].
Defined.

Lemma count_level_app lvl t1 t2 :
  count_level lvl (t1 ++ t2)
  = (count_level lvl t1 + count_level lvl t2)%nat.
Proof. unfold count_level. now rewrite List.filter_app, length_app. Qed.

Lemma count_level_shutdown_diagnostic m ch :
  count_level LL_WARN (shutdown_diagnostic m ch) = 0%nat.
Proof.
  unfold shutdown_diagnostic.
  destruct (ch_shutdown_fault ch) as [f|]; [|reflexivity].
  destruct (bool_decide _); [reflexivity|].
  destruct (f_error f); [|reflexivity].
  now destruct (_ && _).
Qed.

(** X6: unregistering a live monitor warns exactly when the handle is not
    in the list of file monitors, and tears the monitor down either way:
    its block is freed and its channel dropped.  A handle that is in the
    list is unlinked at its first occurrence only; a list that does not
    hold the handle is left as it is. *)
Theorem unregister_warns_iff_unlisted w p m ch
    (Hlive : heap w !! p = Some m)
    (Hchan : channels w !! iochan m = Some ch)
    (Hshut : fd m = -1 -> shutdown_ok ch) :
  exists w' evs,
    mce_unregister_io_monitor (Some p) w = Returned tt w'
    /\ trace w' = trace w ++ evs
    /\ count_level LL_WARN evs
       = (if bool_decide (p ∈ file_monitors w) then 0%nat else 1%nat)
    /\ (p ∉ file_monitors w -> file_monitors w' = file_monitors w)
    /\ (forall l1 l2, file_monitors w = l1 ++ p :: l2 -> p ∉ l1 ->
                      file_monitors w' = l1 ++ l2)
    /\ heap w' !! p = None
    /\ channels w' !! iochan m = None.
Proof.
  destruct (mce_unregister_io_monitor_live w p m ch Hlive Hchan Hshut)
    as (w' & Hrun & Hfm & Hh & Hc & _ & _ & Hclose).
  assert (Hwarn : forall rest,
    count_level LL_WARN rest = 0%nat ->
    count_level LL_WARN
      ((if bool_decide (p ∉ file_monitors w)
        then [not_registered_diagnostic] else []) ++ rest)
    = (if bool_decide (p ∈ file_monitors w) then 0%nat else 1%nat)).
  { intros rest Hrest. rewrite count_level_app, Hrest.
    destruct (decide (p ∈ file_monitors w)).
    - rewrite bool_decide_eq_false_2 by tauto.
      now rewrite bool_decide_eq_true_2.
    - rewrite bool_decide_eq_true_2 by assumption.
      now rewrite bool_decide_eq_false_2. }
  assert (Hevs : exists evs,
    trace w' = trace w ++ evs
    /\ count_level LL_WARN evs
       = (if bool_decide (p ∈ file_monitors w) then 0%nat else 1%nat)).
  { destruct (decide (fd m = -1)) as [Hfd|Hfd].
    - destruct (mce_unregister_io_monitor_path w p m ch Hlive Hchan Hfd
                  (Hshut Hfd)) as (w'' & Hrun' & Htr & _).
      rewrite Hrun in Hrun'. injection Hrun' as <-.
      eexists. split; [exact Htr|]. apply Hwarn.
      rewrite !count_level_app, count_level_shutdown_diagnostic.
      reflexivity.
    - destruct (Hclose Hfd) as [_ Htr].
      rewrite g_slist_remove_warns in Htr.
      eexists. split; [exact Htr|]. apply Hwarn.
      rewrite count_level_app. now destruct (fds w !! fd m). }
  destruct Hevs as (evs & Htr & Hcount).
  exists w', evs. split; [exact Hrun|]. split; [exact Htr|].
  split; [exact Hcount|]. rewrite Hfm, Hh, Hc.
  split; [apply g_slist_remove_notin|].
  split; [intros l1 l2 -> Hl1; now apply g_slist_remove_first|].
  split; apply lookup_delete_eq.
Qed.

Lemma unregister_warns_iff_unlisted_witness :
  exists w' evs,
    mce_unregister_io_monitor (Some 7%nat)
      (set_file_monitors [7%nat; 9%nat; 7%nat]
         (Sample.running
            (Sample.monitor IOMON_CHUNK MCE_IO_ERROR_POLICY_WARN 5 false)
            (Sample.pipe_chan ""))) = Returned tt w'
    /\ trace w' = evs
    /\ count_level LL_WARN evs = 0%nat
    /\ file_monitors w' = [9%nat; 7%nat].
Proof.
  destruct (unregister_warns_iff_unlisted
              (set_file_monitors [7%nat; 9%nat; 7%nat]
                 (Sample.running
                    (Sample.monitor IOMON_CHUNK MCE_IO_ERROR_POLICY_WARN
                                    5 false)
                    (Sample.pipe_chan "")))
              7%nat
              (Sample.monitor IOMON_CHUNK MCE_IO_ERROR_POLICY_WARN 5 false)
              (Sample.pipe_chan "")
              eq_refl eq_refl ltac:(discriminate))
    as (w' & evs & Hrun & Htr & Hcount & _ & Hfirst & _).
  exists w', evs. split; [exact Hrun|]. split; [exact Htr|].
  split; [exact Hcount|].
  apply (Hfirst [] [9%nat; 7%nat] eq_refl). apply not_elem_of_nil.
Defined.

(** ** Reads and seeks leave the shutdown behaviour of a channel alone *)

Section ShutdownFault.
Variable c : nat.

Lemma ksf_refl w : keeps_shutdown_fault c w w.
Proof. intros ch H. now exists ch. Qed.

Lemma ksf_trans w1 w2 w3 :
  keeps_shutdown_fault c w1 w2 -> keeps_shutdown_fault c w2 w3 ->
  keeps_shutdown_fault c w1 w3.
Proof.
  intros H12 H23 ch H. destruct (H12 ch H) as (ch2 & H2 & E2).
  destruct (H23 ch2 H2) as (ch3 & H3 & E3).
  exists ch3. split; [exact H3 | congruence].
Qed.

Lemma ksf_bind {A B} (m : M A) (k : A -> M B) :
  respects (keeps_shutdown_fault c) m ->
  (forall a, respects (keeps_shutdown_fault c) (k a)) ->
  respects (keeps_shutdown_fault c) (bind m k).
Proof.
  intros Hm Hk w. unfold bind. specialize (Hm w).
  destruct (m w) as [a w1|st w1| |]; try exact I; try exact Hm.
  specialize (Hk a w1).
  destruct (k a w1); try exact I; eapply ksf_trans; eassumption.
Qed.

Lemma ksf_with_chan {A} c' (f : GIOChannel * Z -> A * (GIOChannel * Z)) :
  (forall st, ch_shutdown_fault (f st).2.1 = ch_shutdown_fault st.1) ->
  respects (keeps_shutdown_fault c) (with_chan c' f).
Proof.
  intros Hf w. unfold with_chan.
  destruct (channels w !! c') as [ch0|] eqn:H0; [|exact I].
  specialize (Hf (ch0, errno w)).
  destruct (f (ch0, errno w)) as [a [ch1 eno]]. cbn in Hf.
  intros ch H. cbn. destruct (decide (c' = c)) as [->|Hne].
  - exists ch1. split; [apply lookup_insert_eq | congruence].
  - exists ch. split; [now rewrite lookup_insert_ne | reflexivity].
Qed.

Lemma ksf_read_chars c' count error :
  respects (keeps_shutdown_fault c) (g_io_channel_read_chars c' count error).
Proof.
  apply ksf_with_chan. intros [ch eno]. unfold chan_read_chars.
  destruct error; [reflexivity|].
  destruct (ch_read_script ch); [|reflexivity].
  now destruct (take count (unread ch)).
Qed.

Lemma ksf_seek_position c' offset type :
  respects (keeps_shutdown_fault c)
           (g_io_channel_seek_position c' offset type).
Proof.
  apply ksf_with_chan. intros [ch eno]. cbn [fst snd].
  unfold chan_seek_position.
  destruct (is_seekable _); [|reflexivity].
  now destruct (ch_seek_script ch) as [|[e|] rest].
Qed.

Lemma ksf_get_flags c' :
  respects (keeps_shutdown_fault c) (g_io_channel_get_flags c').
Proof. apply ksf_with_chan. now intros [ch eno]. Qed.

Lemma ksf_set_flags c' flags :
  respects (keeps_shutdown_fault c) (g_io_channel_set_flags c' flags).
Proof. apply ksf_with_chan. now intros [ch eno]. Qed.

Lemma ksf_set_encoding c' :
  respects (keeps_shutdown_fault c) (g_io_channel_set_encoding_NULL c').
Proof. apply ksf_with_chan. now intros [ch eno]. Qed.

Lemma ksf_ret {A} (a : A) : respects (keeps_shutdown_fault c) (ret a).
Proof. intros w. apply ksf_refl. Qed.

Lemma ksf_load p : respects (keeps_shutdown_fault c) (load p).
Proof. intros w. unfold load. destruct (heap w !! p); [apply ksf_refl|exact I].
Qed.

Lemma ksf_store p f : respects (keeps_shutdown_fault c) (store p f).
Proof.
  intros w. unfold store. destruct (heap w !! p); [|exact I].
  intros ch H. now exists ch.
Qed.

Lemma ksf_mce_log lvl fmt args :
  respects (keeps_shutdown_fault c) (mce_log lvl fmt args).
Proof. intros w ch H. now exists ch. Qed.

Lemma ksf_add_watch c' cond f p :
  respects (keeps_shutdown_fault c) (g_io_add_watch c' cond f p).
Proof. intros w ch H. now exists ch. Qed.

Lemma ksf_drain_fuel c' : respects (keeps_shutdown_fault c) (drain_fuel c').
Proof.
  intros w. unfold drain_fuel.
  destruct (channels w !! c'); [apply ksf_refl|exact I].
Qed.

Lemma ksf_seek_to_end_drain fuel c' :
  respects (keeps_shutdown_fault c) (seek_to_end_drain fuel c').
Proof.
  induction fuel as [|n IH]; [intros w; exact I|].
  cbn [seek_to_end_drain]. apply ksf_bind; [apply ksf_read_chars|].
  intros r. destruct (_ && _); [exact IH | apply ksf_ret].
Qed.

Lemma ksf_mcs_io_monitor_seek_to_end p :
  respects (keeps_shutdown_fault c) (mcs_io_monitor_seek_to_end p).
Proof.
  unfold mcs_io_monitor_seek_to_end.
  apply ksf_bind; [apply ksf_load|]. intros m.
  apply ksf_bind; [apply ksf_get_flags|]. intros flags.
  apply ksf_bind.
  - destruct (is_seekable flags); [|apply ksf_ret].
    apply ksf_bind; [apply ksf_seek_position|]. intros e. apply ksf_ret.
  - intros ok. apply ksf_bind; [|intros _; apply ksf_ret].
    destruct (negb ok); [|apply ksf_ret].
    apply ksf_bind; [apply ksf_drain_fuel|].
    intros fuel. apply ksf_seek_to_end_drain.
Qed.

Lemma ksf_mce_resume_io_monitor io_monitor :
  respects (keeps_shutdown_fault c) (mce_resume_io_monitor io_monitor).
Proof.
  destruct io_monitor as [p|]; [|apply ksf_mce_log].
  unfold mce_resume_io_monitor.
  apply ksf_bind; [apply ksf_load|]. intros m.
  destruct (negb (suspended m)); [apply ksf_ret|].
  assert (Harm : forall cb,
    respects (keeps_shutdown_fault c)
      ((if negb (rewind m)
        then _ <- mcs_io_monitor_seek_to_end p ;; ret tt
        else ret tt) ;;;
       eid <- g_io_add_watch (iochan m) (Z.lor G_IO_HUP G_IO_NVAL)
                             Fn_io_error_cb p ;;
       did <- g_io_add_watch (iochan m)
                             (Z.lor (Z.lor G_IO_IN G_IO_PRI) G_IO_ERR) cb p ;;
       store p (fun m => set_suspended false (set_source_ids did eid m)))).
  { intros cb. apply ksf_bind.
    - destruct (negb (rewind m)); [|apply ksf_ret].
      apply ksf_bind; [apply ksf_mcs_io_monitor_seek_to_end|].
      intros _. apply ksf_ret.
    - intros _. apply ksf_bind; [apply ksf_add_watch|]. intros eid.
      apply ksf_bind; [apply ksf_add_watch|]. intros did. apply ksf_store. }
  destruct (type m); [apply ksf_mce_log | apply Harm..].
Qed.

End ShutdownFault.

(** ** What a successful registration builds *)

Lemma constructor_tail_exact w p m ch t :
  heap w !! p = Some m -> suspended m = true ->
  channels w !! iochan m = Some ch -> t <> IOMON_UNSET ->
  exists w' ch' eid did,
    (store p (set_type t) ;;;
     mce_resume_io_monitor (Some p) ;;; ret (Some p)) w
    = Returned (Some p) w'
    /\ eid <> did /\ sources w !! eid = None /\ sources w !! did = None
    /\ heap w' = <[p := set_suspended false
                          (set_source_ids did eid (set_type t m))]> (heap w)
    /\ channels w' = <[iochan m := ch']> (channels w)
    /\ sources w'
       = <[did := mkSource (iochan m)
                           (Z.lor (Z.lor G_IO_IN G_IO_PRI) G_IO_ERR)
                           (read_handler_of t) p]>
           (<[eid := mkSource (iochan m) (Z.lor G_IO_HUP G_IO_NVAL)
                              Fn_io_error_cb p]> (sources w))
    /\ file_monitors w' = file_monitors w
    /\ fds w' = fds w /\ fs w' = fs w /\ slice_next w' = slice_next w
    /\ trace w' = trace w
    /\ ch_shutdown_fault ch' = ch_shutdown_fault ch
    /\ ch_flags ch' = ch_flags ch /\ ch_data ch' = ch_data ch
    /\ (rewind m = true -> ch' = ch)
    /\ (rewind m = false -> ch_read_script ch = [] -> chan_wf ch ->
        ch_read_script ch' = [] /\ unread ch' = [] /\ chan_wf ch').
Proof.
  intros Hp Hsusp Hc Ht.
  rewrite (bind_Returned _ _ _ _ _ (store_live _ _ _ _ Hp)).
  set (w1 := set_heap _ w).
  assert (Hp1 : heap w1 !! p = Some (set_type t m)) by apply lookup_insert_eq.
  destruct (mce_resume_io_monitor_live w1 p (set_type t m) ch Hp1 Hsusp Ht Hc)
    as (ch' & eno & eid & did & Hrun & Hne & He & Hd & Hf & Hdt & Hrw & Hrest).
  pose proof (ksf_mce_resume_io_monitor (iochan m) (Some p) w1) as Hk.
  rewrite Hrun in Hk. destruct (Hk ch Hc) as (ch'' & Hc'' & Hsf).
  change (channels (resumed_world p (set_type t m) ch' eno eid did w1))
    with (<[iochan m := ch']> (channels w)) in Hc''.
  rewrite lookup_insert_eq in Hc''. injection Hc'' as <-.
  rewrite (bind_Returned _ _ _ _ _ Hrun).
  eexists _, ch', eid, did. split; [reflexivity|].
  repeat split; auto.
  - cbn. now rewrite insert_insert_eq.
  - now destruct (Hrest H H0 H1).
  - now destruct (Hrest H H0 H1) as (_ & ? & _).
  - now destruct (Hrest H H0 H1) as (_ & _ & ?).
Qed.

Lemma mce_register_io_monitor_string_exact w fd file error_policy
    rewind_policy callback remdev_callback remdev_data garbage ch :
  slice_next w = Some garbage ->
  opened fd file w = Some ch ->
  let p := fresh (dom (heap w)) in
  let c := fresh (dom (channels w)) in
  let rw := is_seekable (ch_flags ch) && rewind_policy in
  exists w' ch' eid did,
    mce_register_io_monitor_string fd (Some file) error_policy rewind_policy
      (Some callback) remdev_callback remdev_data w = Returned (Some p) w'
    /\ eid <> did /\ sources w !! eid = None /\ sources w !! did = None
    /\ constructed IOMON_STRING fd file error_policy callback remdev_callback
         remdev_data 0 (latest_io_condition garbage) rw p c eid did ch'
         (if negb (is_seekable (ch_flags ch)) && rewind_policy
          then [rewind_diagnostic file] else []) w w'
    /\ ch_shutdown_fault ch' = ch_shutdown_fault ch
    /\ ch_flags ch' = ch_flags ch /\ ch_data ch' = ch_data ch
    /\ (rw = true -> ch' = ch)
    /\ (rw = false -> ch_read_script ch = [] -> chan_wf ch ->
        ch_read_script ch' = [] /\ unread ch' = [] /\ chan_wf ch').
Proof.
  intros Hslice Hopen p c rw. unfold mce_register_io_monitor_string.
  rewrite (bind_Returned _ _ _ _ _
             (mce_register_io_monitor_success w fd file error_policy callback
                remdev_callback remdev_data garbage ch Hslice Hopen)).
  fold p c.
  set (m1 := registered_monitor fd file error_policy callback remdev_callback
                                remdev_data garbage c).
  set (w1 := registered_world p m1 ch w).
  assert (Hp1 : heap w1 !! p = Some m1) by apply lookup_insert_eq.
  assert (Hc1 : channels w1 !! iochan m1 = Some ch) by apply lookup_insert_eq.
  rewrite (bind_Returned _ _ _ _ _
             (set_rewind_policy_live w1 p m1 ch file rewind_policy Hp1 Hc1)).
  set (w2 := if is_seekable (ch_flags ch) then _ else _).
  set (m2 := set_rewind rw m1).
  set (diag := if negb (is_seekable (ch_flags ch)) && rewind_policy
               then [rewind_diagnostic file] else []).
  assert (H2 : heap w2 = <[p := m2]> (heap w)
               /\ channels w2 = <[c := ch]> (channels w)
               /\ sources w2 = sources w
               /\ file_monitors w2 = p :: file_monitors w
               /\ fds w2 = fds w /\ fs w2 = fs w
               /\ slice_next w2 = slice_next w
               /\ trace w2 = trace w ++ diag).
  { unfold w2, m2, rw, diag.
    destruct (is_seekable (ch_flags ch)), rewind_policy; cbn;
      rewrite ?insert_insert_eq, ?app_nil_r; auto 10. }
  destruct H2 as (Hh2 & Hc2 & Hs2 & Hfm2 & Hfd2 & Hfs2 & Hsl2 & Ht2).
  assert (Hp2 : heap w2 !! p = Some m2)
    by (rewrite Hh2; apply lookup_insert_eq).
  assert (Hch2 : channels w2 !! iochan m2 = Some ch)
    by (rewrite Hc2; apply lookup_insert_eq).
  destruct (constructor_tail_exact w2 p m2 ch IOMON_STRING Hp2 eq_refl Hch2
              ltac:(discriminate))
    as (w' & ch' & eid & did & Hrun & Hne & He & Hd & Hh & Hc & Hs & Hfm
        & Hfd & Hfs & Hsl & Ht & Hsf & Hfl & Hdt & Hrw & Hrest).
  exists w', ch', eid, did. split; [exact Hrun|].
  rewrite Hs2 in He, Hd.
  split; [exact Hne|]. split; [exact He|]. split; [exact Hd|].
  split; [|auto 10].
  unfold constructed.
  rewrite Hh, Hc, Hs, Hfm, Hfd, Hfs, Hsl, Ht, Hh2, Hc2, Hs2, Hfm2, Hfd2,
    Hfs2, Hsl2, Ht2.
  rewrite !insert_insert_eq. auto 10.
Qed.

Lemma mce_register_io_monitor_chunk_exact w fd file error_policy
    rewind_policy callback size0 remdev_callback remdev_data garbage ch :
  slice_next w = Some garbage ->
  opened fd file w = Some ch ->
  let p := fresh (dom (heap w)) in
  let c := fresh (dom (channels w)) in
  let rw := is_seekable (ch_flags ch) && rewind_policy in
  exists w' ch' eid did,
    mce_register_io_monitor_chunk fd (Some file) error_policy rewind_policy
      (Some callback) size0 remdev_callback remdev_data w
    = Returned (Some p) w'
    /\ eid <> did /\ sources w !! eid = None /\ sources w !! did = None
    /\ constructed IOMON_CHUNK fd file error_policy callback remdev_callback
         remdev_data size0 (latest_io_condition garbage) rw p c eid did ch'
         (if negb (is_seekable (ch_flags ch)) && rewind_policy
          then [rewind_diagnostic file] else []) w w'
    /\ ch_shutdown_fault ch' = ch_shutdown_fault ch
    /\ ch_flags ch'
       = Z.lor (Z.land (ch_flags ch) (Z.lnot G_IO_FLAG_SET_MASK))
               (Z.land G_IO_FLAG_NONBLOCK G_IO_FLAG_SET_MASK)
    /\ ch_data ch' = ch_data ch
    /\ (rw = false -> ch_read_script ch = [] -> chan_wf ch ->
        ch_read_script ch' = [] /\ unread ch' = [] /\ chan_wf ch').
Proof.
  intros Hslice Hopen p c rw. unfold mce_register_io_monitor_chunk.
  rewrite (bind_Returned _ _ _ _ _
             (mce_register_io_monitor_success w fd file error_policy callback
                remdev_callback remdev_data garbage ch Hslice Hopen)).
  fold p c.
  set (m1 := registered_monitor fd file error_policy callback remdev_callback
                                remdev_data garbage c).
  set (w1 := registered_world p m1 ch w).
  assert (Hp1 : heap w1 !! p = Some m1) by apply lookup_insert_eq.
  assert (Hc1 : channels w1 !! iochan m1 = Some ch) by apply lookup_insert_eq.
  rewrite (bind_Returned _ _ _ _ _ (store_live _ _ _ _ Hp1)).
  set (m1' := set_chunk_size size0 m1).
  set (w1' := set_heap _ w1).
  assert (Hp1' : heap w1' !! p = Some m1') by apply lookup_insert_eq.
  rewrite (bind_Returned _ _ _ _ _
             (set_rewind_policy_live w1' p m1' ch file rewind_policy
                Hp1' Hc1)).
  set (w2 := if is_seekable (ch_flags ch) then _ else _).
  set (m2 := set_rewind rw m1').
  set (diag := if negb (is_seekable (ch_flags ch)) && rewind_policy
               then [rewind_diagnostic file] else []).
  assert (H2 : heap w2 = <[p := m2]> (heap w)
               /\ channels w2 = <[c := ch]> (channels w)
               /\ sources w2 = sources w
               /\ file_monitors w2 = p :: file_monitors w
               /\ fds w2 = fds w /\ fs w2 = fs w
               /\ slice_next w2 = slice_next w
               /\ trace w2 = trace w ++ diag).
  { unfold w2, m2, rw, diag.
    destruct (is_seekable (ch_flags ch)), rewind_policy; cbn;
      rewrite ?insert_insert_eq, ?app_nil_r; auto 10. }
  destruct H2 as (Hh2 & Hc2 & Hs2 & Hfm2 & Hfd2 & Hfs2 & Hsl2 & Ht2).
  assert (Hp2 : heap w2 !! p = Some m2)
    by (rewrite Hh2; apply lookup_insert_eq).
  assert (Hch2 : channels w2 !! iochan m2 = Some ch)
    by (rewrite Hc2; apply lookup_insert_eq).
  rewrite (bind_Returned _ _ _ _ _ (load_live _ _ _ Hp2)).
  unfold g_io_channel_set_encoding_NULL at 1.
  rewrite (bind_Returned _ _ _ _ _ (with_chan_live _ _ _ _ Hch2)).
  cbn [fst snd].
  unfold g_io_channel_set_flags at 1.
  rewrite (bind_Returned _ _ _ _ _
             (with_chan_live _ _ _ _ (upd_chan_lookup _ _ _ _))).
  cbn [fst snd]. rewrite upd_chan_upd_chan.
  set (ch2 := set_ch_flags _ _).
  set (w3 := upd_chan _ ch2 _ w2).
  assert (Hp3 : heap w3 !! p = Some m2) by exact Hp2.
  assert (Hc3 : channels w3 !! iochan m2 = Some ch2)
    by apply upd_chan_lookup.
  destruct (constructor_tail_exact w3 p m2 ch2 IOMON_CHUNK Hp3 eq_refl Hc3
              ltac:(discriminate))
    as (w' & ch' & eid & did & Hrun & Hne & He & Hd & Hh & Hc & Hs & Hfm
        & Hfd & Hfs & Hsl & Ht & Hsf & Hfl & Hdt & Hrw & Hrest).
  exists w', ch', eid, did. split; [exact Hrun|].
  change (sources w3) with (sources w2) in *. rewrite Hs2 in He, Hd.
  split; [exact Hne|]. split; [exact He|]. split; [exact Hd|].
  split; [|auto 10].
  unfold constructed.
  rewrite Hh, Hc, Hs, Hfm, Hfd, Hfs, Hsl, Ht.
  change (heap w3) with (heap w2). change (sources w3) with (sources w2).
  change (file_monitors w3) with (file_monitors w2).
  change (fds w3) with (fds w2). change (fs w3) with (fs w2).
  change (slice_next w3) with (slice_next w2).
  change (trace w3) with (trace w2).
  change (channels w3) with (<[c := ch2]> (channels w2)).
  rewrite Hh2, Hc2, Hs2, Hfm2, Hfd2, Hfs2, Hsl2, Ht2.
  rewrite !insert_insert_eq. auto 10.
Qed.





Lemma fresh_lookup_None {A} (m : gmap nat A) : m !! fresh (dom m) = None.
Proof. apply not_elem_of_dom, is_fresh. Qed.

Lemma constructed_unregister t d file error_policy callback remdev_callback
    remdev_data size mask rw p c eid did ch' diag w w' :
  constructed t d file error_policy callback remdev_callback remdev_data
              size mask rw p c eid did ch' diag w w' ->
  heap w !! p = None -> channels w !! c = None ->
  sources w !! eid = None -> sources w !! did = None -> eid <> did ->
  (d = -1 -> shutdown_ok ch') ->
  exists w2,
    mce_unregister_io_monitor (Some p) w' = Returned tt w2
    /\ heap w2 = heap w
    /\ file_monitors w2 = file_monitors w
    /\ channels w2 = channels w
    /\ sources w2 = sources w
    /\ (d = -1 -> fds w2 = fds w)
    /\ (d <> -1 -> fds w2 !! d = None).
Proof.
  intros (Hh & Hfm & Hc & Hs & Hfd & _) Hp Hcf He Hd Hne Hshut.
  set (m := mkIomon file c callback remdev_callback remdev_data size did eid
                    d t error_policy mask rw false).
  assert (Hlive : heap w' !! p = Some m)
    by (rewrite Hh; apply lookup_insert_eq).
  assert (Hchan : channels w' !! iochan m = Some ch')
    by (rewrite Hc; apply lookup_insert_eq).
  destruct (mce_unregister_io_monitor_live w' p m ch' Hlive Hchan Hshut)
    as (w2 & Hrun & Hfm2 & Hh2 & Hc2 & Hs2 & Hf2 & Hcl2).
  exists w2. split; [exact Hrun|].
  rewrite Hh2, Hfm2, Hc2, Hs2, Hh, Hfm, Hc, Hs.
  cbn [suspended m iochan error_source_id data_source_id fd g_slist_remove].
  rewrite decide_True by reflexivity.
  rewrite !delete_insert_eq, (delete_id _ p), (delete_id _ c) by assumption.
  rewrite delete_insert_ne by congruence.
  rewrite delete_insert_eq, (delete_id _ did), (delete_id _ eid)
    by assumption.
  repeat split; auto.
  - intros Hm1. rewrite <- Hfd. now apply Hf2.
  - intros Hm1. now apply Hcl2.
Qed.

(** X7: registration followed by unregistration of the handle it returned
    is a round trip for the engine, for both constructors: the second call
    returns, and the monitor blocks, the list of file monitors, the
    channels and the watch table are exactly what they were before the
    registration.  The descriptor table is restored only for a monitor
    opened from the path; a descriptor supplied by the caller has been
    closed. *)
Theorem register_unregister_round_trip w fd file error_policy rewind_policy
    callback size0 remdev_callback remdev_data garbage ch
    (Hslice : slice_next w = Some garbage)
    (Hopen : if fd =? -1 then fs w !! file = Some ch
             else fds w !! fd = Some ch)
    (Hshut : fd = -1 -> shutdown_ok ch) :
  let round_trip (ctor : M (option iomon_ptr)) :=
    exists p w1 w2,
      ctor w = Returned (Some p) w1
      /\ heap w !! p = None /\ is_Some (heap w1 !! p)
      /\ mce_unregister_io_monitor (Some p) w1 = Returned tt w2
      /\ heap w2 = heap w
      /\ file_monitors w2 = file_monitors w
      /\ channels w2 = channels w
      /\ sources w2 = sources w
      /\ (fd = -1 -> fds w2 = fds w)
      /\ (fd <> -1 -> fds w2 !! fd = None) in
  round_trip (mce_register_io_monitor_string fd (Some file) error_policy
                rewind_policy (Some callback) remdev_callback remdev_data)
  /\ round_trip (mce_register_io_monitor_chunk fd (Some file) error_policy
                   rewind_policy (Some callback) size0 remdev_callback
                   remdev_data).
Proof.
  intros round_trip. split.
  - destruct (mce_register_io_monitor_string_exact w fd file error_policy
                rewind_policy callback remdev_callback remdev_data garbage ch
                Hslice (opened_open _ _ _ _ Hopen))
      as (w1 & ch' & eid & did & Hrun & Hne & He & Hd & Hcons & Hsf & _).
    destruct (constructed_unregister _ _ _ _ _ _ _ _ _ _ _ _ _ _ _ _ _ _
                Hcons (fresh_lookup_None _) (fresh_lookup_None _) He Hd Hne)
      as (w2 & Hun & Hrest).
    { intros Hm1. unfold shutdown_ok. rewrite Hsf. now apply Hshut. }
    eexists _, w1, w2. split; [exact Hrun|].
    split; [apply fresh_lookup_None|].
    split; [|split; [exact Hun | exact Hrest]].
    destruct Hcons as (-> & _). rewrite lookup_insert_eq. eauto.
  - destruct (mce_register_io_monitor_chunk_exact w fd file error_policy
                rewind_policy callback size0 remdev_callback remdev_data
                garbage ch Hslice (opened_open _ _ _ _ Hopen))
      as (w1 & ch' & eid & did & Hrun & Hne & He & Hd & Hcons & Hsf & _).
    destruct (constructed_unregister _ _ _ _ _ _ _ _ _ _ _ _ _ _ _ _ _ _
                Hcons (fresh_lookup_None _) (fresh_lookup_None _) He Hd Hne)
      as (w2 & Hun & Hrest).
    { intros Hm1. unfold shutdown_ok. rewrite Hsf. now apply Hshut. }
    eexists _, w1, w2. split; [exact Hrun|].
    split; [apply fresh_lookup_None|].
    split; [|split; [exact Hun | exact Hrest]].
    destruct Hcons as (-> & _). rewrite lookup_insert_eq. eauto.
Qed.

Lemma register_unregister_round_trip_witness :
  exists p w1 w2,
    mce_register_io_monitor_string (-1) (Some "/sys/cam")
      MCE_IO_ERROR_POLICY_IGNORE true (Some 1%nat)
      (Some Fn_handle_device_error_cb) 0 Sample.boot = Returned (Some p) w1
    /\ mce_unregister_io_monitor (Some p) w1 = Returned tt w2
    /\ heap w2 = ∅ /\ file_monitors w2 = [] /\ sources w2 = ∅.
Proof.
  destruct (register_unregister_round_trip Sample.boot (-1) "/sys/cam"
              MCE_IO_ERROR_POLICY_IGNORE true 1%nat 0%nat
              (Some Fn_handle_device_error_cb) 0 Sample.garbage
              (Sample.file_chan "stale") eq_refl eq_refl (fun _ => I))
    as ((p & w1 & w2 & Hreg & _ & _ & Hun & Hh & Hfm & _ & Hs & _) & _).
  exists p, w1, w2. repeat split; assumption.
Defined.

(** X8: the handle a constructor returns answers the two queries of the
    engine with what was registered: [mce_get_io_monitor_name] returns the
    file name and [mce_get_io_monitor_fd] the descriptor given to the
    constructor, hence -1 for a monitor opened from the path; neither query
    changes the world. *)
Theorem registered_monitor_reports_file_and_fd w fd file error_policy
    rewind_policy callback size0 remdev_callback remdev_data garbage ch
    (Hslice : slice_next w = Some garbage)
    (Hopen : if fd =? -1 then fs w !! file = Some ch
             else fds w !! fd = Some ch) :
  let reports (ctor : M (option iomon_ptr)) :=
    exists p w1,
      ctor w = Returned (Some p) w1
      /\ mce_get_io_monitor_name p w1 = Returned file w1
      /\ mce_get_io_monitor_fd p w1 = Returned fd w1 in
  reports (mce_register_io_monitor_string fd (Some file) error_policy
             rewind_policy (Some callback) remdev_callback remdev_data)
  /\ reports (mce_register_io_monitor_chunk fd (Some file) error_policy
                rewind_policy (Some callback) size0 remdev_callback
                remdev_data).
Proof.
  intros reports. split.
  - destruct (mce_register_io_monitor_string_exact w fd file error_policy
                rewind_policy callback remdev_callback remdev_data garbage ch
                Hslice (opened_open _ _ _ _ Hopen))
      as (w1 & ch' & eid & did & Hrun & _ & _ & _ & (Hh & _) & _).
    eexists _, w1. split; [exact Hrun|].
    unfold mce_get_io_monitor_name, mce_get_io_monitor_fd, bind, load.
    rewrite Hh, lookup_insert_eq. split; reflexivity.
  - destruct (mce_register_io_monitor_chunk_exact w fd file error_policy
                rewind_policy callback size0 remdev_callback remdev_data
                garbage ch Hslice (opened_open _ _ _ _ Hopen))
      as (w1 & ch' & eid & did & Hrun & _ & _ & _ & (Hh & _) & _).
    eexists _, w1. split; [exact Hrun|].
    unfold mce_get_io_monitor_name, mce_get_io_monitor_fd, bind, load.
    rewrite Hh, lookup_insert_eq. split; reflexivity.
Qed.

Lemma registered_monitor_reports_file_and_fd_witness :
  exists p w1,
    mce_register_io_monitor_string (-1) (Some "/sys/cam")
      MCE_IO_ERROR_POLICY_IGNORE true (Some 1%nat)
      (Some Fn_handle_device_error_cb) 0 Sample.boot = Returned (Some p) w1
    /\ mce_get_io_monitor_name p w1 = Returned "/sys/cam" w1
    /\ mce_get_io_monitor_fd p w1 = Returned (-1) w1.
Proof.
  exact (proj1 (registered_monitor_reports_file_and_fd Sample.boot (-1)
                  "/sys/cam" MCE_IO_ERROR_POLICY_IGNORE true 1%nat 0%nat
                  (Some Fn_handle_device_error_cb) 0 Sample.garbage
                  (Sample.file_chan "stale") eq_refl eq_refl)).
Defined.

(** X9: no constructor initialises the mask of reported conditions: in the
    monitor it returns, [latest_io_condition] is what the allocator left in
    the block.  So, unless the policy is Exit, an error notification whose
    bits happen to be set in that leftover value is swallowed by
    [io_error_cb] without any diagnostic, although nothing was reported
    before. *)
Theorem registration_leaves_mask_uninitialised w fd file error_policy
    rewind_policy callback size0 remdev_callback remdev_data garbage ch
    (Hslice : slice_next w = Some garbage)
    (Hopen : if fd =? -1 then fs w !! file = Some ch
             else fds w !! fd = Some ch) :
  let leftover (ctor : M (option iomon_ptr)) :=
    exists p w1 m,
      ctor w = Returned (Some p) w1
      /\ heap w1 !! p = Some m
      /\ latest_io_condition m = latest_io_condition garbage
      /\ forall source condition,
           error_policy <> MCE_IO_ERROR_POLICY_EXIT ->
           Z.land (latest_io_condition garbage) condition = condition ->
           io_error_cb source condition (Some p) w1 = Returned true w1 in
  leftover (mce_register_io_monitor_string fd (Some file) error_policy
              rewind_policy (Some callback) remdev_callback remdev_data)
  /\ leftover (mce_register_io_monitor_chunk fd (Some file) error_policy
                 rewind_policy (Some callback) size0 remdev_callback
                 remdev_data).
Proof.
  intros leftover. split.
  - destruct (mce_register_io_monitor_string_exact w fd file error_policy
                rewind_policy callback remdev_callback remdev_data garbage ch
                Hslice (opened_open _ _ _ _ Hopen))
      as (w1 & ch' & eid & did & Hrun & _ & _ & _ & (Hh & _) & _).
    eexists _, w1, _. split; [exact Hrun|].
    split; [rewrite Hh; apply lookup_insert_eq|].
    split; [reflexivity|].
    intros source condition Hpol Hbits.
    eapply io_error_cb_duplicate;
      [rewrite Hh; apply lookup_insert_eq | exact Hpol | exact Hbits].
  - destruct (mce_register_io_monitor_chunk_exact w fd file error_policy
                rewind_policy callback size0 remdev_callback remdev_data
                garbage ch Hslice (opened_open _ _ _ _ Hopen))
      as (w1 & ch' & eid & did & Hrun & _ & _ & _ & (Hh & _) & _).
    eexists _, w1, _. split; [exact Hrun|].
    split; [rewrite Hh; apply lookup_insert_eq|].
    split; [reflexivity|].
    intros source condition Hpol Hbits.
    eapply io_error_cb_duplicate;
      [rewrite Hh; apply lookup_insert_eq | exact Hpol | exact Hbits].
Qed.

Lemma registration_leaves_mask_uninitialised_witness :
  exists p w1,
    mce_register_io_monitor_chunk 5 (Some "/dev/input5")
      MCE_IO_ERROR_POLICY_WARN false (Some 1%nat) 4%nat
      (Some Fn_handle_device_error_cb) 0 Sample.boot = Returned (Some p) w1
    /\ io_error_cb 0%nat G_IO_HUP (Some p) w1 = Returned true w1.
Proof.
  destruct (registration_leaves_mask_uninitialised Sample.boot 5
              "/dev/input5" MCE_IO_ERROR_POLICY_WARN false 1%nat 4%nat
              (Some Fn_handle_device_error_cb) 0 Sample.garbage
              (Sample.pipe_chan "stale") eq_refl eq_refl)
    as (_ & p & w1 & m & Hrun & _ & _ & Hsilent).
  exists p, w1. split; [exact Hrun|].
  apply Hsilent; [discriminate | reflexivity].
Defined.

(** ** The registry lists the live monitors *)

Lemma registry_ok_same w w' :
  file_monitors w' = file_monitors w -> dom (heap w') = dom (heap w) ->
  registry_ok w -> registry_ok w'.
Proof.
  intros Hfm Hdom [Hnd Hin]. split; [now rewrite Hfm|].
  intros q. rewrite Hfm, Hin, <- !elem_of_dom, Hdom. reflexivity.
Qed.

Lemma registry_ok_cons w w' p m :
  file_monitors w' = p :: file_monitors w ->
  heap w' = <[p := m]> (heap w) -> heap w !! p = None ->
  registry_ok w -> registry_ok w'.
Proof.
  intros Hfm Hh Hp [Hnd Hin]. unfold registry_ok. rewrite Hfm, Hh. split.
  - constructor; [|exact Hnd]. rewrite Hin, Hp. now intros [? ?].
  - intros q. rewrite elem_of_cons, Hin.
    destruct (decide (q = p)) as [->|Hne].
    + rewrite lookup_insert_eq. split; eauto.
    + rewrite lookup_insert_ne by congruence. tauto.
Qed.

Lemma registry_ok_remove w w' p :
  file_monitors w' = g_slist_remove (file_monitors w) p ->
  heap w' = delete p (heap w) ->
  registry_ok w -> registry_ok w'.
Proof.
  intros Hfm Hh [Hnd Hin]. unfold registry_ok. rewrite Hfm, Hh.
  destruct (NoDup_g_slist_remove _ p Hnd) as [Hnd' Hp]. split; [exact Hnd'|].
  intros q. destruct (decide (q = p)) as [->|Hne].
  - rewrite lookup_delete_eq. split; [contradiction|now intros [? ?]].
  - rewrite lookup_delete_ne by congruence.
    rewrite elem_of_g_slist_remove_ne by exact Hne. apply Hin.
Qed.

Lemma registry_ok_constructed t fd file error_policy callback remdev_callback
    remdev_data size mask rw p c eid did ch' diag w w' :
  constructed t fd file error_policy callback remdev_callback remdev_data
              size mask rw p c eid did ch' diag w w' ->
  heap w !! p = None -> registry_ok w -> registry_ok w'.
Proof.
  intros (Hh & Hfm & _) Hp. eapply registry_ok_cons; eassumption.
Qed.

(** X10: the list of file monitors holds exactly the live monitor blocks,
    each once, and every entry point of the engine keeps it so: both
    constructors, whether they succeed or fail to open the channel,
    unregistration of a live monitor, suspend and resume. *)
Theorem registry_lists_live_monitors w (Hok : registry_ok w) :
  (forall fd file error_policy rewind_policy callback size0 remdev_callback
          remdev_data garbage,
     slice_next w = Some garbage ->
     exists r1 w1 r2 w2,
       mce_register_io_monitor_string fd (Some file) error_policy
         rewind_policy (Some callback) remdev_callback remdev_data w
       = Returned r1 w1
       /\ registry_ok w1
       /\ mce_register_io_monitor_chunk fd (Some file) error_policy
            rewind_policy (Some callback) size0 remdev_callback remdev_data w
          = Returned r2 w2
       /\ registry_ok w2)
  /\ (forall p m ch,
        heap w !! p = Some m -> channels w !! iochan m = Some ch ->
        (fd m = -1 -> shutdown_ok ch) ->
        exists w', mce_unregister_io_monitor (Some p) w = Returned tt w'
                   /\ registry_ok w')
  /\ (forall p m,
        heap w !! p = Some m ->
        exists w', mce_suspend_io_monitor (Some p) w = Returned tt w'
                   /\ registry_ok w')
  /\ (forall p m ch,
        heap w !! p = Some m -> channels w !! iochan m = Some ch ->
        exists w', mce_resume_io_monitor (Some p) w = Returned tt w'
                   /\ registry_ok w').
Proof.
  split; [|split; [|split]].
  - intros fd file error_policy rewind_policy callback size0 remdev_callback
           remdev_data garbage Hslice.
    destruct (opened fd file w) as [ch|] eqn:Hopen.
    + destruct (mce_register_io_monitor_string_exact w fd file error_policy
                  rewind_policy callback remdev_callback remdev_data garbage
                  ch Hslice Hopen)
        as (w1 & ? & ? & ? & Hrun1 & _ & _ & _ & Hcons1 & _).
      destruct (mce_register_io_monitor_chunk_exact w fd file error_policy
                  rewind_policy callback size0 remdev_callback remdev_data
                  garbage ch Hslice Hopen)
        as (w2 & ? & ? & ? & Hrun2 & _ & _ & _ & Hcons2 & _).
      eexists _, w1, _, w2.
      split; [exact Hrun1|]. split; [|split; [exact Hrun2|]].
      * eapply registry_ok_constructed;
          [exact Hcons1 | apply fresh_lookup_None | exact Hok].
      * eapply registry_ok_constructed;
          [exact Hcons2 | apply fresh_lookup_None | exact Hok].
    + unfold opened in Hopen.
      destruct (Z.eqb_spec fd (-1)) as [->|_]; [|discriminate].
      pose proof (mce_register_io_monitor_open_failure w file error_policy
                    callback remdev_callback remdev_data garbage Hslice Hopen)
        as Hfail.
      unfold mce_register_io_monitor_string, mce_register_io_monitor_chunk.
      rewrite !(bind_Returned _ _ _ _ _ Hfail).
      eexists _, _, _, _. split; [reflexivity|].
      assert (Hok' : registry_ok
                (if bool_decide (error_policy = MCE_IO_ERROR_POLICY_IGNORE)
                 then w else emit (open_failure_diagnostic (-1) file) w))
        by (destruct (bool_decide _); exact Hok).
      split; [exact Hok'|]. split; [reflexivity | exact Hok'].
  - intros p m ch Hlive Hchan Hshut.
    destruct (mce_unregister_io_monitor_live w p m ch Hlive Hchan Hshut)
      as (w' & Hrun & Hfm & Hh & _).
    exists w'. split; [exact Hrun|].
    eapply registry_ok_remove; eassumption.
  - intros p m Hlive. rewrite (mce_suspend_io_monitor_live w p m Hlive).
    eexists. split; [reflexivity|].
    destruct (suspended m); [exact Hok|].
    apply (registry_ok_same w); [reflexivity| |exact Hok].
    cbn. apply dom_insert_lookup_L; eauto.
  - intros p m ch Hlive Hchan.
    destruct (suspended m) eqn:Hs.
    + destruct (decide (type m = IOMON_UNSET)) as [Ht|Ht].
      * unfold mce_resume_io_monitor.
        rewrite (bind_Returned _ _ _ _ _ (load_live _ _ _ Hlive)).
        rewrite Hs, Ht. eexists. split; [reflexivity|exact Hok].
      * destruct (mce_resume_io_monitor_live w p m ch Hlive Hs Ht Hchan)
          as (ch' & eno & eid & did & Hrun & _).
        eexists. split; [exact Hrun|].
        apply (registry_ok_same w); [reflexivity| |exact Hok].
        cbn. apply dom_insert_lookup_L; eauto.
    + unfold mce_resume_io_monitor.
      rewrite (bind_Returned _ _ _ _ _ (load_live _ _ _ Hlive)).
      rewrite Hs. eexists. split; [reflexivity|exact Hok].
Qed.

Lemma registry_lists_live_monitors_witness :
  registry_ok Sample.boot
  /\ exists w', mce_unregister_io_monitor (Some 7%nat)
                  (Sample.running
                     (Sample.monitor IOMON_CHUNK MCE_IO_ERROR_POLICY_WARN
                                     5 false)
                     (Sample.pipe_chan "")) = Returned tt w'
                /\ registry_ok w'.
Proof.
  split.
  - split; [constructor|]. intros p. cbn. rewrite lookup_empty.
    split; [intros H; now apply elem_of_nil in H | now intros [? ?]].
  - refine (proj1 (proj2 (registry_lists_live_monitors
                            (Sample.running
                               (Sample.monitor IOMON_CHUNK
                                  MCE_IO_ERROR_POLICY_WARN 5 false)
                               (Sample.pipe_chan "")) _))
                  7%nat _ (Sample.pipe_chan "") eq_refl eq_refl _).
    + split; [apply NoDup_singleton|]. intros p. cbn.
      rewrite list_elem_of_singleton.
      destruct (decide (p = 7%nat)) as [->|Hne].
      * rewrite lookup_singleton_eq. split; eauto.
      * rewrite lookup_singleton_ne by congruence.
        split; [contradiction | now intros [? ?]].
    + discriminate.
Defined.

(** ** What the read handlers consume and deliver *)

Lemma set_ch_pos_same ch : set_ch_pos (ch_pos ch + 0)%nat ch = ch.
Proof. destruct ch. unfold set_ch_pos. cbn. now rewrite Nat.add_0_r. Qed.

Lemma io_chunk_cb_exact w p m source ch condition :
  heap w !! p = Some m ->
  channels w !! source = Some ch -> ch_read_script ch = [] ->
  let payload := take (chunk_size m) (unread (after_rewind m ch)) in
  io_chunk_cb source condition (Some p) w
  = Returned true (after_read p m source ch (length payload) payload w).
Proof.
  intros Hp Hc Hs payload. unfold io_chunk_cb, after_read.
  rewrite (bind_Returned _ _ _ _ _ (store_live _ _ _ _ Hp)).
  set (m0 := set_latest_io_condition 0 m).
  set (w0 := set_heap _ w).
  assert (Hp0 : heap w0 !! p = Some m0) by apply lookup_insert_eq.
  rewrite (bind_Returned _ _ _ _ _ (load_live _ _ _ Hp0)).
  rewrite (bind_Returned _ _ _ _ _ (rewind_if_needed_live w0 _ m0 _ Hc)).
  change (after_rewind m0 ch) with (after_rewind m ch).
  set (ch0 := after_rewind m ch) in *.
  assert (Hs0 : ch_read_script ch0 = [])
    by (unfold ch0; destruct (after_rewind_keeps m ch) as (-> & _); exact Hs).
  rewrite (bind_Returned _ _ _ _ _
             (chunk_read_loop_fault_free _ source ch0 _
                (upd_chan_lookup _ _ _ _) Hs0)).
  rewrite upd_chan_upd_chan.
  unfold chan_read_chars. rewrite Hs0.
  change (chunk_size m0) with (chunk_size m). fold payload.
  change (errno (upd_chan source ch0 (errno w0) w0)) with (errno w).
  destruct payload as [|b bs] eqn:Ht;
    cbn [fst snd r_error r_bytes_read r_str length Nat.eqb default].
  - rewrite set_ch_pos_same. reflexivity.
  - reflexivity.
Qed.

Lemma io_string_cb_exact w p m source ch condition :
  heap w !! p = Some m ->
  channels w !! source = Some ch -> ch_read_script ch = [] ->
  let line := take_line (unread (after_rewind m ch)) in
  io_string_cb source condition (Some p) w
  = Returned true
      (after_read p m source ch (length line) (c_string_record line) w).
Proof.
  intros Hp Hc Hs line. unfold io_string_cb, after_read.
  rewrite (bind_Returned _ _ _ _ _ (store_live _ _ _ _ Hp)).
  set (m0 := set_latest_io_condition 0 m).
  set (w0 := set_heap _ w).
  assert (Hp0 : heap w0 !! p = Some m0) by apply lookup_insert_eq.
  rewrite (bind_Returned _ _ _ _ _ (load_live _ _ _ Hp0)).
  rewrite (bind_Returned _ _ _ _ _ (rewind_if_needed_live w0 _ m0 _ Hc)).
  change (after_rewind m0 ch) with (after_rewind m ch).
  set (ch0 := after_rewind m ch) in *.
  assert (Hs0 : ch_read_script ch0 = [])
    by (unfold ch0; destruct (after_rewind_keeps m ch) as (-> & _); exact Hs).
  unfold g_io_channel_read_line at 1.
  rewrite (bind_Returned _ _ _ _ _
             (with_chan_live _ _ _ _ (upd_chan_lookup _ _ _ _))).
  rewrite upd_chan_upd_chan.
  unfold chan_read_line, c_string_record. rewrite Hs0. fold line.
  change (errno (upd_chan source ch0 (errno w0) w0)) with (errno w).
  destruct line as [|b bs] eqn:Ht.
  - cbn [fst snd r_error r_str length]. rewrite set_ch_pos_same. reflexivity.
  - cbn [fst snd r_error r_str r_bytes_read length Nat.eqb orb].
    now destruct (strlen (b :: bs) =? 0)%nat.
Qed.

Lemma dispatch_kept id condition w s w' :
  sources w !! id = Some s ->
  run_GIOFunc (src_func s) (src_chan s) condition (src_data s) w
  = Returned true w' ->
  dispatch id condition w = Returned tt w'.
Proof.
  intros Hs Hrun. unfold dispatch. unfold bind at 1. unfold get at 1.
  rewrite Hs. now rewrite (bind_Returned _ _ _ _ _ Hrun).
Qed.

Lemma drop_length_take (n : nat) (bs : list Byte.byte) :
  drop (length (take n bs)) bs = drop n bs.
Proof.
  rewrite length_take. destruct (Nat.le_ge_cases n (length bs)) as [H|H].
  - now rewrite Nat.min_l.
  - rewrite Nat.min_r by exact H. now rewrite !drop_ge.
Qed.

Lemma take_line_prefix bs :
  take_line bs ++ drop (length (take_line bs)) bs = bs.
Proof.
  induction bs as [|b bs IH]; [reflexivity|]. simpl.
  destruct (decide (b = Byte.x0a)); simpl; [reflexivity|].
  now rewrite IH.
Qed.

Lemma unread_set_ch_pos ch n :
  unread (set_ch_pos (ch_pos ch + n)%nat ch) = drop n (unread ch).
Proof. unfold unread. cbn. now rewrite drop_drop. Qed.

(** X11: a chunk monitor with rewind off reads its channel in order.  With
    no fault pending, [k] notifications of its data watch all return,
    keep the watch, and deliver the first [k] chunks of the unread bytes,
    each of at most the chunk size (an empty chunk is logged as an empty
    read instead of being delivered); the bytes delivered followed by the
    bytes still unread are the bytes that were unread before: nothing is
    skipped or delivered twice. *)
Theorem chunk_monitor_reads_in_order k : forall w p m source ch did s condition,
  heap w !! p = Some m -> rewind m = false ->
  channels w !! source = Some ch -> ch_read_script ch = [] ->
  sources w !! did = Some s ->
  src_func s = Fn_io_chunk_cb -> src_chan s = source -> src_data s = p ->
  exists w' ch',
    main_loop (replicate k (did, condition)) w = Returned tt w'
    /\ trace w'
       = trace w
         ++ map (delivery m p) (chunks k (chunk_size m) (unread ch))
    /\ channels w' !! source = Some ch'
    /\ concat (chunks k (chunk_size m) (unread ch)) ++ unread ch' = unread ch
    /\ Forall (fun c => (length c <= chunk_size m)%nat)
              (chunks k (chunk_size m) (unread ch))
    /\ sources w' = sources w.
Proof.
  induction k as [|k IH];
    intros w p m source ch did s condition Hp Hrw Hc Hs Hsrc Hf Hch Hd.
  - exists w, ch. cbn. rewrite app_nil_r. auto 10.
  - pose proof (io_chunk_cb_exact w p m source ch condition Hp Hc Hs) as Hrun.
    unfold after_read, after_rewind in Hrun. rewrite Hrw in Hrun.
    cbv zeta in Hrun.
    set (payload := take (chunk_size m) (unread ch)) in *.
    match type of Hrun with _ = Returned true ?x => set (w1 := x) in * end.
    cbn [replicate main_loop].
    rewrite (bind_Returned _ _ _ _ _ (dispatch_kept did condition w s w1 Hsrc
               ltac:(rewrite Hf, Hch, Hd; exact Hrun))).
    set (m0 := set_latest_io_condition 0 m).
    set (ch1 := set_ch_pos (ch_pos ch + length payload)%nat ch).
    destruct (IH w1 p m0 source ch1 did s condition)
      as (w' & ch' & Hloop & Htr & Hc' & Hcat & Hlen & Hsrc'); auto.
    + apply lookup_insert_eq.
    + apply upd_chan_lookup.
    + exists w', ch'. split; [exact Hloop|].
      assert (Hu : unread ch1 = drop (chunk_size m) (unread ch)).
      { unfold ch1. rewrite unread_set_ch_pos. apply drop_length_take. }
      rewrite Hu in Htr, Hcat, Hlen.
      change (chunk_size m0) with (chunk_size m) in *.
      split; [|split; [exact Hc'|split; [|split; [|exact Hsrc']]]].
      * assert (Ht1 : trace w1 = trace w ++ [delivery m p payload])
          by reflexivity.
        rewrite Htr, Ht1, <- app_assoc. cbn [chunks map app]. fold payload.
        reflexivity.
      * cbn [chunks concat]. rewrite <- app_assoc, Hcat.
        apply take_drop.
      * cbn [chunks]. constructor; [|exact Hlen].
        rewrite length_take. lia.
Qed.

Lemma chunk_monitor_reads_in_order_witness :
  exists w',
    main_loop [(2%nat, G_IO_IN); (2%nat, G_IO_IN)]
      (Sample.running
         (Sample.monitor IOMON_CHUNK MCE_IO_ERROR_POLICY_WARN 5 false)
         (Sample.pipe_chan "abcdef")) = Returned tt w'
    /\ trace w' = [EvCallback 1%nat 7%nat (Sample.bytes "abcd") 4%nat;
                   EvCallback 1%nat 7%nat (Sample.bytes "ef") 2%nat].
Proof.
  destruct (chunk_monitor_reads_in_order 2
              (Sample.running
                 (Sample.monitor IOMON_CHUNK MCE_IO_ERROR_POLICY_WARN 5 false)
                 (Sample.pipe_chan "abcdef"))
              7%nat
              (Sample.monitor IOMON_CHUNK MCE_IO_ERROR_POLICY_WARN 5 false)
              3%nat (Sample.pipe_chan "abcdef") 2%nat
              (mkSource 3%nat 11 Fn_io_chunk_cb 7%nat) G_IO_IN
              eq_refl eq_refl eq_refl eq_refl eq_refl eq_refl eq_refl eq_refl)
    as (w' & ch' & Hloop & Htr & _).
  exists w'. split; [exact Hloop | exact Htr].
Defined.

(** What [k] notifications of a line monitor with rewind off do, in terms
    of the records [records] cuts. *)
Lemma line_handler_records k : forall w p m source ch did s condition,
  heap w !! p = Some m -> rewind m = false ->
  channels w !! source = Some ch -> ch_read_script ch = [] ->
  sources w !! did = Some s ->
  src_func s = Fn_io_string_cb -> src_chan s = source -> src_data s = p ->
  exists w' ch',
    main_loop (replicate k (did, condition)) w = Returned tt w'
    /\ trace w'
       = trace w
         ++ map (fun l => delivery m p (c_string_record l))
                (records k (unread ch))
    /\ channels w' !! source = Some ch'
    /\ concat (records k (unread ch)) ++ unread ch' = unread ch
    /\ sources w' = sources w.
Proof.
  induction k as [|k IH];
    intros w p m source ch did s condition Hp Hrw Hc Hs Hsrc Hf Hch Hd.
  - exists w, ch. cbn. rewrite app_nil_r. auto 10.
  - pose proof (io_string_cb_exact w p m source ch condition Hp Hc Hs)
      as Hrun.
    unfold after_read, after_rewind in Hrun. rewrite Hrw in Hrun.
    cbv zeta in Hrun.
    set (line := take_line (unread ch)) in *.
    match type of Hrun with _ = Returned true ?x => set (w1 := x) in * end.
    cbn [replicate main_loop].
    rewrite (bind_Returned _ _ _ _ _ (dispatch_kept did condition w s w1 Hsrc
               ltac:(rewrite Hf, Hch, Hd; exact Hrun))).
    set (m0 := set_latest_io_condition 0 m).
    set (ch1 := set_ch_pos (ch_pos ch + length line)%nat ch).
    destruct (IH w1 p m0 source ch1 did s condition)
      as (w' & ch' & Hloop & Htr & Hc' & Hcat & Hsrc'); auto.
    + apply lookup_insert_eq.
    + apply upd_chan_lookup.
    + exists w', ch'. split; [exact Hloop|].
      assert (Hu : unread ch1 = drop (length line) (unread ch))
        by (unfold ch1; apply unread_set_ch_pos).
      rewrite Hu in Htr, Hcat.
      split; [|split; [exact Hc'|split; [|exact Hsrc']]].
      * assert (Ht1 : trace w1
                      = trace w ++ [delivery m p (c_string_record line)])
          by reflexivity.
        rewrite Htr, Ht1, <- app_assoc. cbn [records map app]. fold line.
        reflexivity.
      * cbn [records concat]. fold line. rewrite <- app_assoc, Hcat.
        apply take_line_prefix.
Qed.

Lemma c_string_record_text m p l :
  text_record l ->
  delivery m p (c_string_record l) = EvCallback (callback m) p l (length l).
Proof.
  intros Hl.
  assert (Hrec : c_string_record l = l).
  { unfold c_string_record. rewrite (strlen_text l Hl).
    destruct Hl as (body & -> & _). rewrite length_app. cbn [length].
    now rewrite Nat.add_1_r. }
  rewrite Hrec. now apply delivery_text.
Qed.

(** X12: a line monitor with rewind off reads its channel record by
    record.  Take a channel with no read fault pending, whose bytes are
    read plainly (binary, or all ASCII), and whose unread bytes start with
    [k] records of text: ASCII bytes other than NUL, CR and LF, closed by
    a newline.  Then [k] notifications of the data watch all return, keep
    the watch, and deliver these [k] records whole, newline included, one
    per notification and in order; nothing is skipped, and what follows
    the [k] records is still unread. *)
Theorem line_monitor_reads_in_order k : forall w p m source ch did s condition,
  heap w !! p = Some m -> rewind m = false ->
  channels w !! source = Some ch -> ch_read_script ch = [] ->
  plain ch -> Forall text_record (records k (unread ch)) ->
  sources w !! did = Some s ->
  src_func s = Fn_io_string_cb -> src_chan s = source -> src_data s = p ->
  exists w' ch',
    main_loop (replicate k (did, condition)) w = Returned tt w'
    /\ trace w'
       = trace w
         ++ map (fun l => EvCallback (callback m) p l (length l))
                (records k (unread ch))
    /\ channels w' !! source = Some ch'
    /\ concat (records k (unread ch)) ++ unread ch' = unread ch
    /\ sources w' = sources w.
Proof.
  intros w p m source ch did s condition Hp Hrw Hc Hs _ Htext Hsrc Hf Hch Hd.
  destruct (line_handler_records k w p m source ch did s condition
              Hp Hrw Hc Hs Hsrc Hf Hch Hd)
    as (w' & ch' & Hloop & Htr & Hc' & Hcat & Hsrc').
  exists w', ch'. split; [exact Hloop|].
  split; [|split; [exact Hc'|split; [exact Hcat|exact Hsrc']]].
  rewrite Htr. f_equal. apply map_ext_Forall.
  eapply Forall_impl; [exact Htext|].
  intros l Hl. now apply c_string_record_text.
Qed.

Lemma line_monitor_reads_in_order_witness :
  exists w',
    main_loop [(2%nat, G_IO_IN); (2%nat, G_IO_IN)]
      (Sample.running
         (Sample.monitor IOMON_STRING MCE_IO_ERROR_POLICY_WARN 5 false)
         (Sample.pipe_chan "on
off
tail")) = Returned tt w'
    /\ trace w' = [EvCallback 1%nat 7%nat (Sample.bytes "on
") 3%nat;
                   EvCallback 1%nat 7%nat (Sample.bytes "off
") 4%nat]
    /\ (unread <$> channels w' !! 3%nat) = Some (Sample.bytes "tail").
Proof.
  destruct (line_monitor_reads_in_order 2
              (Sample.running
                 (Sample.monitor IOMON_STRING MCE_IO_ERROR_POLICY_WARN 5 false)
                 (Sample.pipe_chan "on
off
tail"))
              7%nat
              (Sample.monitor IOMON_STRING MCE_IO_ERROR_POLICY_WARN 5 false)
              3%nat (Sample.pipe_chan "on
off
tail") 2%nat
              (mkSource 3%nat 11 Fn_io_string_cb 7%nat) G_IO_IN
              eq_refl eq_refl eq_refl eq_refl
              (or_intror eq_refl)
              ltac:(repeat constructor;
                    [exists (Sample.bytes "on") | exists (Sample.bytes "off")];
                    split; reflexivity)
              eq_refl eq_refl eq_refl eq_refl)
    as (w' & ch' & Hloop & Htr & Hc' & Hcat & _).
  exists w'. split; [exact Hloop|]. split; [exact Htr|].
  rewrite Hc'. cbn [fmap option_fmap option_map]. f_equal.
  change (unread (Sample.pipe_chan "on
off
tail")) with (Sample.bytes "on
off
" ++ Sample.bytes "tail") in Hcat.
  change (concat (records 2 (Sample.bytes "on
off
" ++ Sample.bytes "tail"))) with (Sample.bytes "on
off
") in Hcat.
  now apply app_inv_head in Hcat.
Defined.

Lemma after_rewind_seekable m ch :
  rewind m = true -> is_seekable (ch_flags ch) = true ->
  ch_seek_script ch = [] ->
  after_rewind m ch = set_ch_pos 0 ch.
Proof.
  intros Hrw Hseek Hss. unfold after_rewind, chan_seek_position.
  now rewrite Hrw, Hseek, Hss.
Qed.

Lemma read_handler_rewound w p m source ch f condition :
  heap w !! p = Some m -> rewind m = true ->
  channels w !! source = Some ch -> ch_read_script ch = [] ->
  is_seekable (ch_flags ch) = true -> ch_seek_script ch = [] ->
  f <> Fn_io_error_cb ->
  exists n,
    run_GIOFunc f source condition p w
    = Returned true
        (after_read p m source ch n (head_payload f m (ch_data ch)) w).
Proof.
  intros Hp Hrw Hc Hs Hseek Hss Hf.
  assert (Hu : unread (after_rewind m ch) = ch_data ch)
    by now rewrite after_rewind_seekable.
  destruct f; [| |congruence]; cbn [run_GIOFunc head_payload].
  - eexists. rewrite (io_string_cb_exact w p m source ch condition Hp Hc Hs).
    cbv zeta. rewrite Hu. reflexivity.
  - eexists. rewrite (io_chunk_cb_exact w p m source ch condition Hp Hc Hs).
    cbv zeta. rewrite Hu. reflexivity.
Qed.

(** What [k] notifications of a monitor with rewind on do, in terms of
    [head_payload]. *)
Lemma rewound_handler_head k :
  forall w p m source ch did s condition,
  heap w !! p = Some m -> rewind m = true ->
  channels w !! source = Some ch -> ch_read_script ch = [] ->
  is_seekable (ch_flags ch) = true -> ch_seek_script ch = [] ->
  sources w !! did = Some s ->
  src_func s <> Fn_io_error_cb -> src_chan s = source -> src_data s = p ->
  exists w',
    main_loop (replicate k (did, condition)) w = Returned tt w'
    /\ trace w'
       = trace w
         ++ replicate k
              (delivery m p (head_payload (src_func s) m (ch_data ch)))
    /\ sources w' = sources w.
Proof.
  induction k as [|k IH];
    intros w p m source ch did s condition Hp Hrw Hc Hs Hseek Hss Hsrc Hf
           Hch Hd.
  - exists w. cbn. rewrite app_nil_r. auto.
  - destruct (read_handler_rewound w p m source ch (src_func s) condition
                Hp Hrw Hc Hs Hseek Hss Hf) as (n & Hrun).
    set (payload := head_payload (src_func s) m (ch_data ch)) in *.
    set (w1 := after_read p m source ch n payload w) in *.
    cbn [replicate main_loop].
    rewrite (bind_Returned _ _ _ _ _ (dispatch_kept did condition w s w1 Hsrc
               ltac:(rewrite Hch, Hd; exact Hrun))).
    set (m0 := set_latest_io_condition 0 m).
    set (ch1 := set_ch_pos (ch_pos (after_rewind m ch) + n)%nat
                           (after_rewind m ch)).
    assert (Hch1 : ch_read_script ch1 = [] /\ ch_flags ch1 = ch_flags ch
                   /\ ch_seek_script ch1 = [] /\ ch_data ch1 = ch_data ch).
    { unfold ch1. rewrite after_rewind_seekable by assumption. cbn. auto. }
    destruct Hch1 as (Hs1 & Hfl1 & Hss1 & Hdt1).
    destruct (IH w1 p m0 source ch1 did s condition)
      as (w' & Hloop & Htr & Hsrc'); auto.
    + apply lookup_insert_eq.
    + apply upd_chan_lookup.
    + now rewrite Hfl1.
    + exists w'. split; [exact Hloop|]. split; [|exact Hsrc'].
      assert (Ht1 : trace w1 = trace w ++ [delivery m p payload])
        by reflexivity.
      rewrite Htr, Ht1, <- app_assoc, Hdt1. cbn [replicate app]. fold payload.
      reflexivity.
Qed.

(** X13: a monitor with rewind on, on a seekable channel whose seeks
    succeed, with no read fault pending and bytes that are read plainly
    (binary, or all ASCII), delivers the head of the file at every
    notification, however many came before: a chunk monitor the first
    [chunk_size] bytes, a line monitor the first record when the file
    starts with a record of text (ASCII bytes other than NUL, CR and LF,
    closed by a newline).  All [k] notifications return and keep the
    watch. *)
Theorem rewinding_monitor_rereads_head k :
  forall w p m source ch did s condition payload,
  heap w !! p = Some m -> rewind m = true ->
  channels w !! source = Some ch -> ch_read_script ch = [] ->
  is_seekable (ch_flags ch) = true -> ch_seek_script ch = [] ->
  plain ch ->
  sources w !! did = Some s -> src_chan s = source -> src_data s = p ->
  (src_func s = Fn_io_string_cb
   /\ (exists rest, ch_data ch = payload ++ rest) /\ text_record payload)
  \/ (src_func s = Fn_io_chunk_cb
      /\ payload = take (chunk_size m) (ch_data ch)) ->
  exists w',
    main_loop (replicate k (did, condition)) w = Returned tt w'
    /\ trace w' = trace w ++ replicate k (delivery m p payload)
    /\ sources w' = sources w.
Proof.
  intros w p m source ch did s condition payload Hp Hrw Hc Hs Hseek Hss _
         Hsrc Hch Hd Hkind.
  assert (Hf : src_func s <> Fn_io_error_cb)
    by (destruct Hkind as [(-> & _)|(-> & _)]; discriminate).
  destruct (rewound_handler_head k w p m source ch did s condition
              Hp Hrw Hc Hs Hseek Hss Hsrc Hf Hch Hd)
    as (w' & Hloop & Htr & Hsrc').
  exists w'. split; [exact Hloop|]. split; [|exact Hsrc'].
  rewrite Htr. do 3 f_equal.
  destruct Hkind as [(-> & (rest & ->) & Hl)|(-> & ->)];
    cbn [head_payload]; [now apply first_line_text|reflexivity].
Qed.

Lemma rewinding_monitor_rereads_head_witness :
  exists w',
    main_loop [(2%nat, G_IO_IN); (2%nat, G_IO_IN); (2%nat, G_IO_IN)]
      (Sample.running
         (Sample.monitor IOMON_STRING MCE_IO_ERROR_POLICY_WARN 5 true)
         (Sample.file_chan "on
off
")) = Returned tt w'
    /\ trace w'
       = replicate 3 (EvCallback 1%nat 7%nat (Sample.bytes "on
") 3%nat).
Proof.
  destruct (rewinding_monitor_rereads_head 3
              (Sample.running
                 (Sample.monitor IOMON_STRING MCE_IO_ERROR_POLICY_WARN 5 true)
                 (Sample.file_chan "on
off
"))
              7%nat
              (Sample.monitor IOMON_STRING MCE_IO_ERROR_POLICY_WARN 5 true)
              3%nat (Sample.file_chan "on
off
") 2%nat
              (mkSource 3%nat 11 Fn_io_string_cb 7%nat) G_IO_IN
              (Sample.bytes "on
")
              eq_refl eq_refl eq_refl eq_refl eq_refl eq_refl
              (or_intror eq_refl)
              eq_refl eq_refl eq_refl
              (or_introl
                 (conj eq_refl
                    (conj (ex_intro _ (Sample.bytes "off
") eq_refl)
                          (ex_intro _ (Sample.bytes "on")
                             (conj eq_refl eq_refl))))))
    as (w' & Hloop & Htr & _).
  exists w'. split; [exact Hloop | exact Htr].
Defined.

(** ** The main loop creates nothing *)

Lemma same_config_refl m : same_config m m.
Proof. unfold same_config. auto 15. Qed.

Lemma same_config_trans m1 m2 m3 :
  same_config m1 m2 -> same_config m2 m3 -> same_config m1 m3.
Proof. unfold same_config. intuition congruence. Qed.

#[global] Instance engine_shrinks_frame :
  Frame engine_shrinks (fun _ => True) (fun _ => True)
        (fun _ f => keeps_config f).
Proof.
  assert (Hsame : forall w w', heap w' = heap w -> sources w' = sources w ->
                               engine_shrinks w w').
  { intros w w' Hh Hs. split; [|now rewrite Hs].
    intros p m' H. exists m'. rewrite <- Hh.
    split; [exact H | apply same_config_refl]. }
  split; try (intros; apply Hsame; reflexivity).
  - intros w1 w2 w3 [H12 S12] [H23 S23]. split; [|now transitivity (sources w2)].
    intros p m3 H3. destruct (H23 p m3 H3) as (m2 & H2 & C23).
    destruct (H12 p m2 H2) as (m1 & H1 & C12).
    exists m1. split; [exact H1 | eapply same_config_trans; eassumption].
  - intros id w. split; [|apply delete_subseteq].
    intros p m' H. exists m'. split; [exact H | apply same_config_refl].
  - intros q w. split; [|reflexivity].
    intros p m'. cbn. intros [_ H]%lookup_delete_Some.
    exists m'. split; [exact H | apply same_config_refl].
  - intros q f m w Hq Hf. split; [|reflexivity].
    intros p m'. cbn. destruct (decide (q = p)) as [->|Hne].
    + rewrite lookup_insert_eq. intros [= <-]. exists m.
      split; [exact Hq | apply Hf].
    + rewrite lookup_insert_ne by exact Hne. intros H.
      exists m'. split; [exact H | apply same_config_refl].
Qed.

Lemma keeps_config_set_suspended b : keeps_config (set_suspended b).
Proof. intros m. unfold same_config. cbn. auto 15. Qed.

Lemma keeps_config_set_latest_io_condition c :
  keeps_config (set_latest_io_condition c).
Proof. intros m. unfold same_config. cbn. auto 15. Qed.

Lemma respects_shrinks_run_GIOFunc f source condition p :
  respects engine_shrinks (run_GIOFunc f source condition p).
Proof.
  destruct f; unfold run_GIOFunc.
  - apply (respects_io_string_cb (R := engine_shrinks)); auto;
      [apply keeps_config_set_suspended
      |apply keeps_config_set_latest_io_condition].
  - apply (respects_io_chunk_cb (R := engine_shrinks)); auto;
      [apply keeps_config_set_suspended
      |apply keeps_config_set_latest_io_condition].
  - apply (respects_io_error_cb (R := engine_shrinks)).
    apply keeps_config_set_latest_io_condition.
Qed.

Lemma respects_shrinks_dispatch id condition :
  respects engine_shrinks (dispatch id condition).
Proof.
  intros w. unfold dispatch. unfold bind at 1. unfold get at 1.
  destruct (sources w !! id) as [s|]; [|apply frame_refl].
  assert (Hall : respects engine_shrinks
                   (keep <- run_GIOFunc (src_func s) (src_chan s) condition
                                        (src_data s) ;;
                    if (keep : bool) then ret tt else g_source_remove id)).
  { apply respects_bind; [apply respects_shrinks_run_GIOFunc|].
    intros []; [apply respects_ret | apply respects_g_source_remove]. }
  exact (Hall w).
Qed.

Lemma respects_shrinks_unregister q :
  respects engine_shrinks (mce_unregister_io_monitor q).
Proof.
  apply (respects_mce_unregister_io_monitor (R := engine_shrinks)).
  intros p _. apply keeps_config_set_suspended.
Qed.

(** X14: while the main loop runs, the engine creates nothing.  After any
    sequence of notifications, whether the loop returns or the process
    exits, every monitor that is alive was alive before and has the file,
    channel, callbacks, descriptor, type, error policy, chunk size, rewind
    flag and watch ids it had (the handlers only touch the mask and the
    suspended flag, or free the block), and every watch that is installed
    was installed before. *)
Theorem main_loop_creates_nothing evs : forall w,
  match main_loop evs w with
  | Returned _ w' | Exited _ w' =>
      (forall p m', heap w' !! p = Some m' ->
                    exists m, heap w !! p = Some m /\ same_config m m')
      /\ sources w' ⊆ sources w
      /\ (forall p, heap w !! p = None -> heap w' !! p = None)
  | Undefined | OutOfFuel => True
  end.
Proof.
  assert (Hloop : respects engine_shrinks (main_loop evs)).
  { induction evs as [|[id condition] evs IH]; cbn [main_loop].
    - apply respects_ret.
    - apply respects_bind; [apply respects_shrinks_dispatch|].
      intros _. exact IH. }
  intros w. specialize (Hloop w).
  assert (Hdead : forall w', engine_shrinks w w' ->
            forall p, heap w !! p = None -> heap w' !! p = None).
  { intros w' [Hh _] p Hp. destruct (heap w' !! p) as [m'|] eqn:E; [|easy].
    destruct (Hh p m' E) as (m & Hm & _). congruence. }
  destruct (main_loop evs w) as [[] w'|st w'| |]; try exact I;
    (split; [apply Hloop|split; [apply Hloop|now apply Hdead]]).
Qed.

(** ** Teardown comes back at once *)

Lemma comes_back_bind {A B} (c : M A) (k : A -> M B) :
  comes_back c -> (forall a, comes_back (k a)) -> comes_back (bind c k).
Proof.
  intros Hc Hk w. unfold bind. destruct (Hc w) as [Hf He].
  destruct (c w) as [a w1|st w1| |].
  - apply Hk.
  - now destruct (He st w1).
  - split; discriminate.
  - now destruct Hf.
Qed.

Ltac comes_back_call :=
  let w := fresh "w" in
  intros w;
  cbv [ret get modify undefined load store mce_log g_source_remove
       g_io_channel_shutdown g_io_channel_unref close g_slice_free bind];
  repeat match goal with
         | |- context [match ?x with _ => _ end] => destruct x
         end;
  (split; [discriminate | intros ? ?; discriminate]).

Lemma comes_back_ret {A} (a : A) : comes_back (ret a).
Proof. comes_back_call. Qed.

Lemma comes_back_get : comes_back get.
Proof. comes_back_call. Qed.

Lemma comes_back_modify f : comes_back (modify f).
Proof. comes_back_call. Qed.

Lemma comes_back_undefined {A} : comes_back (@undefined A).
Proof. comes_back_call. Qed.

Lemma comes_back_load p : comes_back (load p).
Proof. comes_back_call. Qed.

Lemma comes_back_store p f : comes_back (store p f).
Proof. comes_back_call. Qed.

Lemma comes_back_mce_log lvl fmt args : comes_back (mce_log lvl fmt args).
Proof. comes_back_call. Qed.

Lemma comes_back_g_source_remove id : comes_back (g_source_remove id).
Proof. comes_back_call. Qed.

Lemma comes_back_g_io_channel_shutdown c :
  comes_back (g_io_channel_shutdown c).
Proof. comes_back_call. Qed.

Lemma comes_back_g_io_channel_unref c : comes_back (g_io_channel_unref c).
Proof. comes_back_call. Qed.

Lemma comes_back_close d : comes_back (close d).
Proof. comes_back_call. Qed.

Lemma comes_back_g_slice_free p : comes_back (g_slice_free p).
Proof. comes_back_call. Qed.

Create HintDb back.
#[global] Hint Resolve comes_back_ret comes_back_get comes_back_modify
  comes_back_undefined comes_back_load comes_back_store comes_back_mce_log
  comes_back_g_source_remove comes_back_g_io_channel_shutdown
  comes_back_g_io_channel_unref comes_back_close comes_back_g_slice_free
  : back.

Ltac back_step :=
  lazymatch goal with
  | |- comes_back (bind _ _) => apply comes_back_bind; [|intros ?]
  | |- comes_back (if ?b then _ else _) => destruct b
  | |- comes_back (match ?x with _ => _ end) => destruct x
  | |- comes_back (let _ := _ in _) => cbv zeta
  | |- _ => solve [eauto with back]
  end.
Ltac back := repeat back_step.

Lemma comes_back_mce_suspend_io_monitor q :
  comes_back (mce_suspend_io_monitor q).
Proof. unfold mce_suspend_io_monitor. back. Qed.

Lemma comes_back_mce_unregister_io_monitor q :
  comes_back (mce_unregister_io_monitor q).
Proof.
  pose proof comes_back_mce_suspend_io_monitor.
  unfold mce_unregister_io_monitor. back.
Qed.

Lemma bind_Undefined {A B} (c : M A) (k : A -> M B) w :
  c w = Undefined -> bind c k w = Undefined.
Proof. unfold bind. now intros ->. Qed.

(** A handle whose block has been freed. *)
Lemma mce_unregister_io_monitor_dead w p :
  heap w !! p = None -> mce_unregister_io_monitor (Some p) w = Undefined.
Proof.
  intros Hp. unfold mce_unregister_io_monitor.
  unfold bind at 1. unfold get at 1.
  unfold bind at 1. unfold modify at 1.
  set (w1 := match file_monitors w with [] => w | _ => _ end).
  assert (Hh1 : heap w1 = heap w)
    by (unfold w1; now destruct (file_monitors w)).
  unfold bind at 1. unfold get at 1.
  match goal with |- context [(if ?b then _ else _)] => destruct b end;
    unfold bind at 1; unfold mce_log, modify, ret;
    apply bind_Undefined; unfold mce_suspend_io_monitor;
    apply bind_Undefined; unfold load; cbn [heap emit];
    now rewrite Hh1, Hp.
Qed.

(** ** The camera module *)

Lemma teardown_of_built w' p m ch' h fm cs ss se sd :
  heap w' = <[p := m]> h -> h !! p = None ->
  file_monitors w' = p :: fm ->
  channels w' = <[iochan m := ch']> cs -> cs !! iochan m = None ->
  sources w' = <[data_source_id m := sd]> (<[error_source_id m := se]> ss) ->
  ss !! error_source_id m = None -> ss !! data_source_id m = None ->
  error_source_id m <> data_source_id m ->
  suspended m = false ->
  (fd m = -1 -> shutdown_ok ch') ->
  exists w2,
    mce_unregister_io_monitor (Some p) w' = Returned tt w2
    /\ heap w2 = h /\ file_monitors w2 = fm
    /\ channels w2 = cs /\ sources w2 = ss
    /\ (fd m = -1 -> fds w2 = fds w')
    /\ (fd m <> -1 -> fds w2 !! fd m = None).
Proof.
  intros Hh Hp Hfm Hc Hcf Hs He Hd Hne Hsusp Hshut.
  assert (Hlive : heap w' !! p = Some m)
    by (rewrite Hh; apply lookup_insert_eq).
  assert (Hchan : channels w' !! iochan m = Some ch')
    by (rewrite Hc; apply lookup_insert_eq).
  destruct (mce_unregister_io_monitor_live w' p m ch' Hlive Hchan Hshut)
    as (w2 & Hrun & Hfm2 & Hh2 & Hc2 & Hs2 & Hf2 & Hcl2).
  exists w2. split; [exact Hrun|].
  rewrite Hh2, Hfm2, Hc2, Hs2, Hh, Hfm, Hc, Hs, Hsusp.
  cbn [g_slist_remove]. rewrite decide_True by reflexivity.
  rewrite !delete_insert_eq, (delete_id _ p), (delete_id _ (iochan m))
    by assumption.
  rewrite delete_insert_ne by congruence.
  rewrite delete_insert_eq, (delete_id _ (data_source_id m)),
    (delete_id _ (error_source_id m)) by assumption.
  repeat split; auto. intros Hm1. now apply Hcl2.
Qed.

Section CameraModule.
Variable path : string.
Variable cb : nat.

Lemma camera_register_outcome w garbage :
  slice_next w = Some garbage ->
  exists r w1,
    mce_register_io_monitor_string (-1) (Some path)
      MCE_IO_ERROR_POLICY_IGNORE true (Some cb)
      (Some Fn_handle_device_error_cb) 0 w = Returned r w1
    /\ camera_registered path cb (latest_io_condition garbage) w r w1.
Proof.
  intros Hslice.
  destruct (fs w !! path) as [ch|] eqn:Hfs.
  - destruct (mce_register_io_monitor_string_exact w (-1) path
                MCE_IO_ERROR_POLICY_IGNORE true cb
                (Some Fn_handle_device_error_cb) 0 garbage ch Hslice Hfs)
      as (w1 & ch' & eid & did & Hrun & Hne & He & Hd & Hcons & Hsf & _).
    eexists _, w1. split; [exact Hrun|].
    exists ch, ch', eid, did. auto 10.
  - exists None, w. split; [|now split].
    unfold mce_register_io_monitor_string.
    now rewrite (bind_Returned _ _ _ _ _
                   (mce_register_io_monitor_open_failure w path
                      MCE_IO_ERROR_POLICY_IGNORE cb
                      (Some Fn_handle_device_error_cb) 0 garbage Hslice Hfs)).
Qed.

Lemma camera_registered_teardown mask w r w1 w' :
  camera_registered path cb mask w r w1 ->
  (forall ch, fs w !! path = Some ch -> shutdown_ok ch) ->
  engine_eq w1 w' ->
  exists w'',
    mce_unregister_io_monitor r w' = Returned tt w'' /\ engine_eq w w''.
Proof.
  intros Hreg Hshut (Hh & Hfm & Hc & Hs & Hf).
  destruct r as [p|].
  - destruct Hreg as (ch & ch' & eid & did & Hfs & -> & Hne & He & Hd
                      & (Hh1 & Hfm1 & Hc1 & Hs1 & Hf1 & _) & Hsf).
    rewrite Hh1 in Hh. rewrite Hfm1 in Hfm. rewrite Hc1 in Hc.
    rewrite Hs1 in Hs. rewrite Hf1 in Hf.
    destruct (teardown_of_built w' _ _ ch' _ _ _ _ _ _ Hh
                (fresh_lookup_None _) Hfm Hc (fresh_lookup_None _) Hs He Hd
                Hne eq_refl) as (w'' & Hrun & Hh2 & Hfm2 & Hc2 & Hs2 & Hf2 & _).
    { intros _. unfold shutdown_ok. rewrite Hsf. now apply (Hshut ch). }
    exists w''. split; [exact Hrun|].
    repeat split; auto. rewrite <- Hf. now apply Hf2.
  - destruct Hreg as (_ & ->). eexists. split; [reflexivity|].
    repeat split; assumption.
Qed.

End CameraModule.

Lemma camera_registered_keeps path cb mask w r w1 :
  camera_registered path cb mask w r w1 ->
  slice_next w1 = slice_next w /\ fs w1 = fs w
  /\ trace w1 = trace w ++ camera_init_diagnostic path w
  /\ (is_Some r <-> is_Some (fs w !! path))
  /\ (forall q m, heap w !! q = Some m -> heap w1 !! q = Some m)
  /\ (forall p, r = Some p ->
        exists m, heap w1 !! p = Some m /\ camera_monitor path m).
Proof.
  unfold camera_init_diagnostic. destruct r as [p|]; cbn.
  - intros (ch & ch' & eid & did & Hfs & -> & Hne & He & Hd
            & (Hh & Hfm & Hc & Hs & Hf & Hfs1 & Hsl & Htr) & Hsf).
    rewrite Hfs. split; [exact Hsl|]. split; [exact Hfs1|].
    split; [rewrite Htr; now destruct (is_seekable _)|].
    split; [split; eauto|]. split.
    + intros q m Hq. rewrite Hh, lookup_insert_ne; [exact Hq|].
      intros <-. now rewrite fresh_lookup_None in Hq.
    + intros p [= <-]. eexists. rewrite Hh, lookup_insert_eq.
      split; [reflexivity|]. unfold camera_monitor. cbn. auto 10.
  - intros (Hfs & ->). rewrite Hfs, app_nil_r.
    repeat split; auto; try (intros [? ?]; discriminate); discriminate.
Qed.



(** X16: unloading the camera module right after its init function undoes
    it: both calls return, and the monitors, the list of file monitors,
    the channels, the watches and the descriptors are what they were
    before the init, whichever of the two files exist (a shutdown of their
    channels that fails must report an error). *)
Theorem camera_init_unload_round_trip active_path popout_path active_cb
    popout_cb conf s w garbage
    (Hslice : slice_next w = Some garbage)
    (Hshut : forall path ch, fs w !! path = Some ch -> shutdown_ok ch) :
  exists s' w' w'',
    Camera.g_module_check_init active_path popout_path active_cb popout_cb
                               conf s w = Returned (s', None) w'
    /\ Camera.g_module_unload s' w' = Returned tt w''
    /\ engine_eq w w''.
Proof.
  destruct (camera_register_outcome active_path active_cb w garbage Hslice)
    as (rA & w1 & HrunA & HregA).
  destruct (camera_registered_keeps _ _ _ _ _ _ HregA)
    as (Hsl1 & Hfs1 & _).
  destruct (camera_register_outcome popout_path popout_cb w1 garbage
              ltac:(now rewrite Hsl1))
    as (rP & w2 & HrunP & HregP).
  destruct (camera_registered_teardown _ _ _ w1 rP w2 w2 HregP)
    as (w3 & Hun3 & Heq3).
  { intros ch. rewrite Hfs1. apply Hshut. }
  { unfold engine_eq. auto. }
  destruct (camera_registered_teardown _ _ _ w rA w1 w3 HregA
              (Hshut active_path) Heq3)
    as (w4 & Hun4 & Heq4).
  exists (Camera.mkStatics conf rA rP), w2, w4.
  unfold Camera.g_module_check_init, Camera.g_module_unload.
  rewrite (bind_Returned _ _ _ _ _ HrunA), (bind_Returned _ _ _ _ _ HrunP).
  split; [reflexivity|]. cbn.
  rewrite (bind_Returned _ _ _ _ _ Hun3).
  split; [exact Hun4 | exact Heq4].
Qed.

Lemma camera_init_unload_round_trip_witness :
  exists s' w' w'',
    Camera.g_module_check_init "/sys/cam" "/sys/popout" 1%nat 2%nat true
      (Camera.mkStatics false None None) Sample.boot = Returned (s', None) w'
    /\ Camera.g_module_unload s' w' = Returned tt w''
    /\ heap w'' = ∅ /\ sources w'' = ∅.
Proof.
  destruct (camera_init_unload_round_trip "/sys/cam" "/sys/popout" 1%nat
              2%nat true (Camera.mkStatics false None None) Sample.boot
              Sample.garbage eq_refl)
    as (s' & w' & w'' & Hinit & Hunload & Hh & _ & _ & Hs & _).
  - intros path ch. cbn [Sample.boot fs].
    destruct (decide (path = "/sys/cam")) as [->|Hne].
    + rewrite lookup_singleton_eq. now intros [= <-].
    + rewrite lookup_singleton_ne by congruence. discriminate.
  - exists s', w', w''. auto.
Defined.

Lemma io_string_cb_camera_error w p m source ch f rest e condition :
  heap w !! p = Some m ->
  channels w !! source = Some ch ->
  ch_read_script ch = f :: rest -> f_error f = Some e ->
  remdev_callback m = Some Fn_handle_device_error_cb ->
  iochan m = source ->
  (fd m = -1 -> shutdown_ok ch) ->
  exists w',
    io_string_cb source condition (Some p) w = Returned false w'
    /\ heap w' = delete p (heap w)
    /\ channels w' = delete source (channels w)
    /\ file_monitors w' = g_slist_remove (file_monitors w) p.
Proof.
  intros Hlive Hchan Hscript Herror Hcb Hio Hshut.
  set (m0 := set_latest_io_condition 0 m).
  set (w0 := set_heap (<[p := m0]> (heap w)) w).
  set (ch1 := set_ch_read_script rest (after_rewind m ch)).
  set (w1 := emit (read_error_diagnostic m e)
                  (upd_chan source ch1 (f_errno f) w0)).
  set (w2 := emit (EvRemdevCallback Fn_handle_device_error_cb (remdev_data m)
                                    (file m) p e) w1).
  assert (Hp0 : heap w0 !! p = Some m0) by apply lookup_insert_eq.
  destruct (after_rewind_keeps m0 ch) as (Hs1 & _ & _).
  assert (Hstep :
    io_string_cb source condition (Some p) w
    = (mce_unregister_io_monitor (Some p) ;;; ret false) w2).
  { unfold io_string_cb.
    rewrite (bind_Returned _ _ _ _ _ (store_live _ _ _ _ Hlive)).
    fold m0 w0.
    rewrite (bind_Returned _ _ _ _ _ (load_live _ _ _ Hp0)).
    rewrite (bind_Returned _ _ _ _ _
               (rewind_if_needed_live w0 _ m0 _ Hchan)).
    rewrite (bind_Returned _ _ _ _ _
               (read_line_fault _ _ _ f rest (upd_chan_lookup _ _ _ _)
                  (eq_trans Hs1 Hscript))).
    rewrite upd_chan_upd_chan. cbn [r_error]. rewrite Herror.
    unfold mce_log at 1. unfold modify at 1. unfold bind at 1.
    change (remdev_callback m0) with (remdev_callback m). rewrite Hcb.
    reflexivity. }
  assert (Hp2 : heap w2 !! p = Some m0) by apply lookup_insert_eq.
  assert (Hc2 : channels w2 !! iochan m0 = Some ch1).
  { cbn. rewrite Hio. apply lookup_insert_eq. }
  assert (Hshut2 : fd m0 = -1 -> shutdown_ok ch1).
  { intros Hfd. unfold shutdown_ok, ch1. cbn.
    rewrite after_rewind_shutdown_fault. now apply Hshut. }
  destruct (mce_unregister_io_monitor_live w2 p m0 ch1 Hp2 Hc2 Hshut2)
    as (w' & Hrun & Hfm & Hh & Hc & _).
  exists w'. rewrite Hstep, (bind_Returned _ _ _ _ _ Hrun).
  split; [reflexivity|]. rewrite Hh, Hc, Hfm.
  change (iochan m0) with (iochan m). rewrite Hio.
  split; [apply delete_insert_eq|]. split; [|reflexivity].
  cbn. apply delete_insert_eq.
Qed.

(** X17: the removal callback of the camera module frees the monitor but
    leaves the handle in the module's file-scope variable.  So after a read
    error on one of the module's monitors (the line handler calls the
    callback, which unregisters the monitor), the block behind the stored
    handle is gone, and the unload function of the module, which
    unregisters that handle again, reads freed memory: in the model its
    outcome is undefined. *)
Theorem camera_unload_after_device_error s w p m source ch f rest e condition
    (Hid : Camera.camera_active_state_iomon_id s = Some p
           \/ Camera.camera_popout_state_iomon_id s = Some p)
    (Hlive : heap w !! p = Some m)
    (Hcb : remdev_callback m = Some Fn_handle_device_error_cb)
    (Hio : iochan m = source)
    (Hchan : channels w !! source = Some ch)
    (Hscript : ch_read_script ch = f :: rest)
    (Herror : f_error f = Some e)
    (Hshut : fd m = -1 -> shutdown_ok ch) :
  exists w',
    io_string_cb source condition (Some p) w = Returned false w'
    /\ heap w' !! p = None
    /\ Camera.g_module_unload s w' = Undefined.
Proof.
  destruct (io_string_cb_camera_error w p m source ch f rest e condition
              Hlive Hchan Hscript Herror Hcb Hio Hshut)
    as (w' & Hrun & Hh & _).
  assert (Hdead : heap w' !! p = None)
    by (rewrite Hh; apply lookup_delete_eq).
  exists w'. split; [exact Hrun|]. split; [exact Hdead|].
  unfold Camera.g_module_unload.
  destruct (decide (Camera.camera_popout_state_iomon_id s = Some p))
    as [HP|HP].
  - rewrite HP. apply bind_Undefined.
    now apply mce_unregister_io_monitor_dead.
  - destruct Hid as [HA|]; [|contradiction]. rewrite HA.
    unfold bind.
    pose proof (respects_shrinks_unregister
                  (Camera.camera_popout_state_iomon_id s) w') as Hfr.
    destruct (comes_back_mce_unregister_io_monitor
                (Camera.camera_popout_state_iomon_id s) w') as [Hfuel Hexit].
    destruct (mce_unregister_io_monitor
                (Camera.camera_popout_state_iomon_id s) w')
      as [[] w''|st w''| |]; [| |reflexivity|congruence].
    + apply mce_unregister_io_monitor_dead.
      destruct (heap w'' !! p) as [m''|] eqn:E; [|reflexivity].
      destruct (proj1 Hfr p m'' E) as (m1 & Hm1 & _). congruence.
    + now destruct (Hexit st w'').
Qed.

Lemma camera_unload_after_device_error_witness :
  exists w',
    io_string_cb 3%nat G_IO_IN (Some 7%nat) Sample.broken = Returned false w'
    /\ Camera.g_module_unload (Camera.mkStatics true (Some 7%nat) None) w'
       = Undefined.
Proof.
  destruct (camera_unload_after_device_error
              (Camera.mkStatics true (Some 7%nat) None) Sample.broken 7%nat
              (Sample.monitor IOMON_STRING MCE_IO_ERROR_POLICY_IGNORE (-1) true)
              3%nat
              (set_ch_read_script [Sample.io_error] (Sample.file_chan "on"))
              Sample.io_error [] (mkGError 2 "Input/output error") G_IO_IN
              (or_introl eq_refl) eq_refl eq_refl eq_refl eq_refl eq_refl
              eq_refl (fun _ => I))
    as (w' & Hrun & _ & Hunload).
  exists w'. split; [exact Hrun | exact Hunload].
Defined.

(** ** The file readers *)

Section Readers.
Variable strtoul_base10 : list Byte.byte -> strtoul_result.
Variable ULONG_MAX : Z.

Lemma mce_read_string_from_file_found w f ch :
  fs w !! f = Some ch ->
  mce_read_string_from_file (Some f) w
  = Returned (true, Some (ch_data ch)) w.
Proof.
  intros Hf. unfold mce_read_string_from_file, bind, g_file_get_contents.
  now rewrite Hf.
Qed.

(** X18: [mce_read_number_string_from_file] does not clear [errno] before
    the conversion, so a value left there by an earlier, unrelated failure
    is taken for a failure of [strtoul].  When [errno] is EINVAL on entry
    the call fails for every readable file, whatever it holds; it also
    fails when [errno] is ERANGE on entry and the file holds ULONG_MAX.
    The failed call logs nothing, leaves the number alone and resets
    [errno] to 0, so that the same call repeated at once succeeds. *)
Theorem stale_errno_fails_number_read w f ch number
    (Hfile : fs w !! f = Some ch)
    (Hstale : errno w = EINVAL
              \/ (errno w = ERANGE
                  /\ strtoul_base10 (ch_data ch) = Converted ULONG_MAX)) :
  mce_read_number_string_from_file strtoul_base10 ULONG_MAX (Some f) number w
  = Returned (false, number) (set_errno 0 w)
  /\ forall num,
       strtoul_base10 (ch_data ch) = Converted num ->
       mce_read_number_string_from_file strtoul_base10 ULONG_MAX (Some f)
         number (set_errno 0 w)
       = Returned (true, num) (set_errno 0 w).
Proof.
  split.
  - unfold mce_read_number_string_from_file.
    rewrite (bind_Returned _ _ _ _ _
               (mce_read_string_from_file_found w f ch Hfile)).
    cbn [fst snd]. unfold bind, strtoul, get, ret, modify.
    destruct Hstale as [He|[He Hmax]].
    + destruct (strtoul_base10 (ch_data ch)) as [num| |[]];
        cbn [errno set_errno]; rewrite ?He; cbn; rewrite ?Z.eqb_refl;
        reflexivity.
    + rewrite Hmax, He. cbn. now rewrite Z.eqb_refl.
  - intros num Hnum. unfold mce_read_number_string_from_file.
    rewrite (bind_Returned _ _ _ _ _
               (mce_read_string_from_file_found (set_errno 0 w) f ch Hfile)).
    cbn [fst snd]. unfold bind, strtoul, get, ret. rewrite Hnum.
    cbn. now rewrite andb_false_r.
Qed.

(** X19: what [mce_read_number_string_from_file] returns.  It always
    returns.  It stores a number only when it returns TRUE, and then
    changes nothing else, [errno] included; a FALSE status leaves the
    number as it was.  It returns TRUE only when the file can be read and
    [errno] was not EINVAL on entry, and the number is then the converted
    value, or 0 for a file without digits that the C library does not
    flag.  A conversion taken for failed logs
    nothing and resets [errno] to 0; a NULL file name logs at critical
    level, a file that cannot be read at error level. *)
Theorem read_number_outcome w file number :
  exists st n w',
    mce_read_number_string_from_file strtoul_base10 ULONG_MAX file number w
    = Returned (st, n) w'
    /\ (st = false -> n = number)
    /\ (st = true ->
        w' = w
        /\ errno w <> EINVAL
        /\ exists f ch,
             file = Some f /\ fs w !! f = Some ch
             /\ (strtoul_base10 (ch_data ch) = Converted n
                 \/ (strtoul_base10 (ch_data ch) = NoConversion false
                     /\ n = 0)))
    /\ (forall f ch, file = Some f -> fs w !! f = Some ch ->
        st = false -> w' = set_errno 0 w)
    /\ (file = None ->
        st = false
        /\ w' = emit (EvLog LL_CRIT
                        "mce_read_string_from_file() called with file == NULL!"
                        []) w)
    /\ (forall f, file = Some f -> fs w !! f = None ->
        st = false
        /\ w' = emit (EvLog LL_ERR "Cannot open `%s' for reading; %s"
                        [ArgS f; ArgS "No such file or directory"])
                   (set_errno ENOENT w)).
Proof.
  unfold mce_read_number_string_from_file.
  destruct file as [f|].
  - destruct (fs w !! f) as [ch|] eqn:Hf.
    + rewrite (bind_Returned _ _ _ _ _
                 (mce_read_string_from_file_found w f ch Hf)).
      cbn [fst snd]. unfold bind, strtoul, get, ret, modify.
      destruct (strtoul_base10 (ch_data ch)) as [num| |[]] eqn:Hconv;
        cbn [errno set_errno].
      * destruct ((errno w =? EINVAL)
                  || (num =? ULONG_MAX) && (errno w =? ERANGE)) eqn:Hchk.
        -- eexists false, number, _. split; [reflexivity|].
           repeat split; try discriminate; auto; try congruence.
        -- apply orb_false_iff in Hchk as [Hne _].
           apply Z.eqb_neq in Hne.
           eexists true, num, _. split; [reflexivity|].
           split; [discriminate|]. split.
           { intros _. split; [reflexivity|]. split; [exact Hne|].
             exists f, ch. auto. }
           split; [intros; discriminate|].
           split; [discriminate | intros; congruence].
      * cbn. rewrite Z.eqb_refl. cbn.
        eexists false, number, _. split; [reflexivity|].
        repeat split; try discriminate; auto; try congruence.
      * cbn. eexists false, number, _. split; [reflexivity|].
        repeat split; try discriminate; auto; try congruence.
      * destruct ((errno w =? EINVAL)
                  || (0 =? ULONG_MAX) && (errno w =? ERANGE)) eqn:Hchk.
        -- eexists false, number, _. split; [reflexivity|].
           repeat split; try discriminate; auto; try congruence.
        -- apply orb_false_iff in Hchk as [Hne _].
           apply Z.eqb_neq in Hne.
           eexists true, 0, _. split; [reflexivity|].
           split; [discriminate|]. split.
           { intros _. split; [reflexivity|]. split; [exact Hne|].
             exists f, ch. auto. }
           split; [intros; discriminate|].
           split; [discriminate | intros; congruence].
    + unfold mce_read_string_from_file, bind, g_file_get_contents.
      rewrite Hf. cbn.
      eexists false, number, _. split; [reflexivity|].
      repeat split; try discriminate; auto; congruence.
  - cbn. eexists false, number, _. split; [reflexivity|].
    repeat split; try discriminate; auto; try congruence.
Qed.

End Readers.

Lemma stale_errno_fails_number_read_witness :
  mce_read_number_string_from_file (fun _ => Converted 42) 4294967295
    (Some "/sys/cam") 7 (set_errno EINVAL Sample.boot)
  = Returned (false, 7) (set_errno 0 Sample.boot)
  /\ mce_read_number_string_from_file (fun _ => Converted 42) 4294967295
       (Some "/sys/cam") 7 (set_errno 0 Sample.boot)
     = Returned (true, 42) (set_errno 0 Sample.boot).
Proof.
  destruct (stale_errno_fails_number_read (fun _ => Converted 42) 4294967295
              (set_errno EINVAL Sample.boot) "/sys/cam"
              (Sample.file_chan "stale") 7 eq_refl (or_introl eq_refl))
    as [Hfail Hretry].
  split; [exact Hfail | exact (Hretry 42 eq_refl)].
Defined.

(** ** A handle after its unregistration *)

(** X20: a handle is dead once it has been unregistered.  The block is
    freed, and each entry point of the engine that is given the handle
    again reads freed memory, which the model reports as undefined:
    a second unregistration, suspend, resume, the two queries, and the
    three handlers of the main loop. *)
Theorem unregistered_handle_is_dead w p m ch
    (Hlive : heap w !! p = Some m)
    (Hchan : channels w !! iochan m = Some ch)
    (Hshut : fd m = -1 -> shutdown_ok ch) :
  exists w',
    mce_unregister_io_monitor (Some p) w = Returned tt w'
    /\ heap w' !! p = None
    /\ mce_unregister_io_monitor (Some p) w' = Undefined
    /\ mce_suspend_io_monitor (Some p) w' = Undefined
    /\ mce_resume_io_monitor (Some p) w' = Undefined
    /\ mce_get_io_monitor_name p w' = Undefined
    /\ mce_get_io_monitor_fd p w' = Undefined
    /\ (forall f source condition,
          run_GIOFunc f source condition p w' = Undefined).
Proof.
  destruct (mce_unregister_io_monitor_live w p m ch Hlive Hchan Hshut)
    as (w' & Hrun & _ & Hh & _).
  assert (Hdead : heap w' !! p = None)
    by (rewrite Hh; apply lookup_delete_eq).
  assert (Hload : load p w' = Undefined) by (unfold load; now rewrite Hdead).
  exists w'. split; [exact Hrun|]. split; [exact Hdead|].
  split; [now apply mce_unregister_io_monitor_dead|].
  split; [now apply bind_Undefined|].
  split; [now apply bind_Undefined|].
  split; [now apply bind_Undefined|].
  split; [now apply bind_Undefined|].
  intros [] source condition; cbn [run_GIOFunc]; apply bind_Undefined;
    try exact Hload; unfold store; now rewrite Hdead.
Qed.

Lemma unregistered_handle_is_dead_witness :
  exists w',
    mce_unregister_io_monitor (Some 7%nat)
      (Sample.running
         (Sample.monitor IOMON_CHUNK MCE_IO_ERROR_POLICY_WARN 5 false)
         (Sample.pipe_chan "")) = Returned tt w'
    /\ mce_unregister_io_monitor (Some 7%nat) w' = Undefined.
Proof.
  destruct (unregistered_handle_is_dead
              (Sample.running
                 (Sample.monitor IOMON_CHUNK MCE_IO_ERROR_POLICY_WARN 5 false)
                 (Sample.pipe_chan ""))
              7%nat
              (Sample.monitor IOMON_CHUNK MCE_IO_ERROR_POLICY_WARN 5 false)
              (Sample.pipe_chan "") eq_refl eq_refl ltac:(discriminate))
    as (w' & Hrun & _ & Hagain & _).
  exists w'. split; [exact Hrun | exact Hagain].
Defined.
